(** * sportsbet: odds conversion, normalisation, collection and reconciliation

    A shallow embedding of the odds pipeline of the sportsbet scripts
    ([MLB2025.py], [MLB2025fork1.py], [Football2025.py]) together with the
    properties established about it.

    Modelling conventions, used throughout:

    - A Python/NumPy [float] is an extended rational [pyfloat]: a finite value
      carries an exact [Q], and [PInf], [NInf], [NaN] are the three special
      values.  Arithmetic on finite values is exact: binary64 rounding,
      overflow to infinity and the sign of zero are not represented.  The two
      converters are also given on binary64 ([b64_...]) and evaluated there
      on grids of sample odds.
    - A raised exception is a value [Raise e] of the [result] type; [try ...
      except] is [try_except].
    - pandas marks a missing numeric cell by NaN, so a numeric cell is a
      [pyfloat] and "absent" means [pd_isna_f c = true]; a missing text cell
      is [None] of an [option string].
    - Calls into libraries whose text and date processing is not part of the
      scripts (Python's [float(str)], [pd.to_numeric] on text,
      [pd.to_datetime], [sort_values] on several columns, BeautifulSoup,
      [pd.read_fwf]) are parameters of the definitions that use them; the
      world a scraper meets (the response to a request) is an argument. *)

From Stdlib Require Import QArith Qabs Lqa ZArith List Bool Lia Permutation Sorted.
From Corelib Require Import PrimFloat.
From Stdlib Require Import Uint63.
From stdpp Require Import base gmap strings list.
Import ListNotations.

Local Open Scope Z_scope.
Local Open Scope Q_scope.
Local Open Scope list_scope.

(** ** Exceptions *)

Inductive exn : Set :=
  | ZeroDivisionError
  | ValueError
  | TypeError
  | KeyError
  | AttributeError
  | RequestException.

Inductive result (A : Type) : Type :=
  | Ok (a : A)
  | Raise (e : exn).
Arguments Ok {A} a.
Arguments Raise {A} e.

#[global] Instance result_ret : MRet result := fun A a => Ok a.
#[global] Instance result_bind : MBind result := fun A B f m =>
  match m with
  | Ok a => f a
  | Raise e => Raise e
  end.

Definition exn_eqb (a b : exn) : bool :=
  match a, b with
  | ZeroDivisionError, ZeroDivisionError
  | ValueError, ValueError
  | TypeError, TypeError
  | KeyError, KeyError
  | AttributeError, AttributeError
  | RequestException, RequestException => true
  | _, _ => false
  end.

(** [try: body except (e1, ..., en): handler] *)
Definition try_except {A} (body : result A) (caught : list exn) (handler : result A)
  : result A :=
  match body with
  | Ok a => Ok a
  | Raise e => if existsb (exn_eqb e) caught then handler else Raise e
  end.

(** [try: body except Exception: handler] *)
Definition try_except_all {A} (body : result A) (handler : exn -> result A) : result A :=
  match body with
  | Ok a => Ok a
  | Raise e => handler e
  end.

(** A function applied to each element in turn, stopping at the first
    exception. *)
Fixpoint mapM {A B} (f : A -> result B) (l : list A) : result (list B) :=
  match l with
  | [] => Ok []
  | x :: xs => y ← f x; ys ← mapM f xs; mret (y :: ys)
  end.

(** ** Floats *)

Inductive pyfloat : Set :=
  | Fin (q : Q)
  | PInf
  | NInf
  | NaN.

Definition Qltb (x y : Q) : bool := (Qnum x * QDen y <? Qnum y * QDen x)%Z.

Definition pd_isna_f (x : pyfloat) : bool :=
  match x with NaN => true | _ => false end.

Definition fsign (x : pyfloat) : Z :=
  match x with
  | Fin q => Z.sgn (Qnum q)
  | PInf => 1
  | NInf => -1
  | NaN => 0
  end.

Definition finf_of_sign (s : Z) : pyfloat :=
  match s with
  | Z0 => NaN
  | Zpos _ => PInf
  | Zneg _ => NInf
  end.

Definition fneg (x : pyfloat) : pyfloat :=
  match x with
  | Fin q => Fin (- q)
  | PInf => NInf
  | NInf => PInf
  | NaN => NaN
  end.

Definition fabs (x : pyfloat) : pyfloat :=
  match x with
  | Fin q => Fin (Qabs q)
  | PInf | NInf => PInf
  | NaN => NaN
  end.

Definition fadd (x y : pyfloat) : pyfloat :=
  match x, y with
  | NaN, _ | _, NaN => NaN
  | Fin a, Fin b => Fin (a + b)
  | PInf, NInf | NInf, PInf => NaN
  | PInf, _ | _, PInf => PInf
  | NInf, _ | _, NInf => NInf
  end.

Definition fsub (x y : pyfloat) : pyfloat := fadd x (fneg y).

Definition fmul (x y : pyfloat) : pyfloat :=
  match x, y with
  | NaN, _ | _, NaN => NaN
  | Fin a, Fin b => Fin (a * b)
  | _, _ => finf_of_sign (fsign x * fsign y)
  end.

(** IEEE division, as NumPy performs it on arrays: a zero divisor gives an
    infinity (or NaN for 0/0) and raises nothing. *)
Definition fdiv (x y : pyfloat) : pyfloat :=
  match x, y with
  | NaN, _ | _, NaN => NaN
  | Fin a, Fin b => if Qeq_bool b 0 then finf_of_sign (Z.sgn (Qnum a)) else Fin (a / b)
  | Fin _, _ => Fin 0
  | _, Fin b => finf_of_sign (fsign x * (if Qeq_bool b 0 then 1 else Z.sgn (Qnum b)))
  | _, _ => NaN
  end.

Definition fis_zero (x : pyfloat) : bool :=
  match x with Fin q => Qeq_bool q 0 | _ => false end.

(** Python's [x / y] on floats: a zero divisor raises. *)
Definition py_truediv (x y : pyfloat) : result pyfloat :=
  if fis_zero y then Raise ZeroDivisionError else Ok (fdiv x y).

(** Comparisons; every comparison with NaN is false. *)
Definition flt (x y : pyfloat) : bool :=
  match x, y with
  | NaN, _ | _, NaN => false
  | Fin a, Fin b => Qltb a b
  | NInf, NInf | PInf, PInf => false
  | NInf, _ | _, PInf => true
  | _, _ => false
  end.

Definition feqb (x y : pyfloat) : bool :=
  match x, y with
  | Fin a, Fin b => Qeq_bool a b
  | PInf, PInf | NInf, NInf => true
  | _, _ => false
  end.

Definition fle (x y : pyfloat) : bool := flt x y || feqb x y.
Definition fgt (x y : pyfloat) : bool := flt y x.
Definition fge (x y : pyfloat) : bool := fle y x.

(** [np.maximum]: the larger operand, NaN when either is NaN. *)
Definition np_maximum (x y : pyfloat) : pyfloat :=
  match x, y with
  | NaN, _ | _, NaN => NaN
  | _, _ => if flt x y then y else x
  end.

(** ** Python values reaching the converters *)

Inductive pyval : Set :=
  | PyNone
  | PyBool (b : bool)
  | PyInt (z : Z)
  | PyFloat (f : pyfloat)
  | PyStr (s : string).

(** Numbers: [bool] is a subclass of [int]. *)
Inductive pynum : Set :=
  | NInt (z : Z)
  | NFloat (f : pyfloat).

Definition as_num (v : pyval) : option pynum :=
  match v with
  | PyBool b => Some (NInt (Z.b2z b))
  | PyInt z => Some (NInt z)
  | PyFloat f => Some (NFloat f)
  | PyNone | PyStr _ => None
  end.

Definition of_num (n : pynum) : pyval :=
  match n with
  | NInt z => PyInt z
  | NFloat f => PyFloat f
  end.

Definition to_float (n : pynum) : pyfloat :=
  match n with
  | NInt z => Fin (inject_Z z)
  | NFloat f => f
  end.

Definition num_mul (a b : pynum) : pynum :=
  match a, b with
  | NInt x, NInt y => NInt (x * y)
  | _, _ => NFloat (fmul (to_float a) (to_float b))
  end.

Definition num_sub (a b : pynum) : pynum :=
  match a, b with
  | NInt x, NInt y => NInt (x - y)
  | _, _ => NFloat (fsub (to_float a) (to_float b))
  end.

(** True division always yields a float. *)
Definition num_truediv (a b : pynum) : result pynum :=
  r ← py_truediv (to_float a) (to_float b); mret (NFloat r).

Definition num_ge (a b : pynum) : bool := fge (to_float a) (to_float b).

(** Python's [==] on these values: numbers compare by value across [bool],
    [int] and [float]; NaN equals nothing. *)
Definition py_eq (a b : pyval) : bool :=
  match as_num a, as_num b with
  | Some x, Some y => feqb (to_float x) (to_float y)
  | None, None =>
      match a, b with
      | PyNone, PyNone => true
      | PyStr s, PyStr t => bool_decide (s = t)
      | _, _ => false
      end
  | _, _ => false
  end.

#[global] Instance pyval_inhabited : Inhabited pyval := populate PyNone.

(** [pd.isna] on a scalar. *)
Definition pd_isna (v : pyval) : bool :=
  match v with
  | PyNone => true
  | PyFloat f => pd_isna_f f
  | _ => false
  end.

(** [isinstance(v, (int, float))] *)
Definition isinstance_int_float (v : pyval) : bool :=
  match as_num v with Some _ => true | None => false end.

(** ** OddsConverter *)

(** [convert_to_american_odds] (MLB2025.py, lines 48-55). *)
Definition convert_to_american_odds (decimal_odds : pyval) : result pyval :=
  if pd_isna decimal_odds || negb (isinstance_int_float decimal_odds) then Ok PyNone
  else
    match as_num decimal_odds with
    | None => Ok PyNone
    | Some d =>
        if num_ge d (NFloat (Fin 2)) then
          Ok (of_num (num_sub (num_mul d (NInt 100)) (NInt 100)))
        else
          r ← num_truediv (NInt (-100)) (num_sub d (NInt 1)); mret (of_num r)
    end.

Section Converters.

(** Python's [float(s)] on a string: [None] when it raises [ValueError]. *)
Variable float_of_str : string -> option pyfloat.

(** Python's [float(v)].  An [int] is taken within the range of [float];
    beyond it [float()] raises [OverflowError], which is not represented
    ([within_float_range] below). *)
Definition py_float (v : pyval) : result pyfloat :=
  match v with
  | PyNone => Raise TypeError
  | PyBool b => Ok (Fin (inject_Z (Z.b2z b)))
  | PyInt z => Ok (Fin (inject_Z z))
  | PyFloat f => Ok f
  | PyStr s =>
      match float_of_str s with
      | Some f => Ok f
      | None => Raise ValueError
      end
  end.

(** [convert_american_to_decimal] (MLB2025fork1.py, lines 71-82). *)
Definition convert_american_to_decimal (american_odds : pyval) : result pyfloat :=
  if pd_isna american_odds || py_eq american_odds (PyStr "") then Ok NaN
  else
    try_except
      (a ← py_float american_odds;
       if fgt a (Fin 0) then Ok (fadd (fdiv a (Fin 100)) (Fin 1))
       else d ← py_truediv (Fin 100) (fabs a); mret (fadd d (Fin 1)))
      [ValueError; TypeError]
      (Ok NaN).

End Converters.

(** ** The converters on binary64

    The same two functions on the kernel's IEEE 754 binary64 numbers, which
    are the [float]s Python computes with.  They serve to evaluate the
    converters with the rounding the rational model leaves out. *)

Definition b64_convert_to_american_odds (decimal_odds : float) : result (option float) :=
  if PrimFloat.is_nan decimal_odds then Ok None
  else if (2 <=? decimal_odds)%float then Ok (Some (decimal_odds * 100 - 100)%float)
  else if (decimal_odds - 1 =? 0)%float then Raise ZeroDivisionError
  else Ok (Some (-100 / (decimal_odds - 1))%float).

Definition b64_convert_american_to_decimal (american_odds : float) : result float :=
  if PrimFloat.is_nan american_odds then Ok PrimFloat.nan
  else if (0 <? american_odds)%float then Ok (american_odds / 100 + 1)%float
  else if (PrimFloat.abs american_odds =? 0)%float then Raise ZeroDivisionError
  else Ok (100 / PrimFloat.abs american_odds + 1)%float.

Definition b64_of_Z (z : Z) : float := PrimFloat.of_uint63 (Uint63.of_Z z).

(** [lo + k/step] for [k = 0 .. n]. *)
Definition b64_grid (lo step n : Z) : list float :=
  map (fun k => (b64_of_Z lo + b64_of_Z (Z.of_nat k) / b64_of_Z step)%float)
      (seq 0 (S (Z.to_nat n))).

Definition b64_close (tolerance x y : float) : bool :=
  (PrimFloat.abs (x - y) <=? tolerance)%float.

Definition b64_round_trip_within (tolerance d : float) : bool :=
  match b64_convert_to_american_odds d with
  | Ok (Some a) =>
      (a =? d * 100 - 100)%float &&
      match b64_convert_american_to_decimal a with
      | Ok d' => b64_close tolerance d' d
      | Raise _ => false
      end
  | _ => false
  end.

Definition b64_magnitude_at_least_100 (d : float) : bool :=
  match b64_convert_to_american_odds d with
  | Ok (Some a) => (100 <=? PrimFloat.abs a)%float
  | _ => false
  end.

(** What a converter result denotes, for stating its value up to the
    equality of rationals. *)
Definition real_value (v : pyval) : option Q :=
  match as_num v with
  | Some n => match to_float n with Fin q => Some q | _ => None end
  | None => None
  end.

Definition returns_real (r : result pyval) (q : Q) : Prop :=
  exists v x, r = Ok v /\ real_value v = Some x /\ x == q.


(** ** OddsRecordNormalizer: [scrape_sbri_data] (MLB2025.py, lines 72-144) *)

(** The JSON feed.  [d.get(k)] on a missing key is [None], so a field holds
    [PyNone] when its key is missing; [d.get(k, [])] on a missing list is the
    empty list.  JSON arrays and objects in scalar positions are not
    represented. *)
Record selection : Set := {
  sel_name : pyval;
  price : pyval;
  currenthandicap : pyval;
  currentmatchhandicap : pyval
}.

Record market : Set := {
  mkt_name : pyval;
  selections : list selection
}.

Record event : Set := {
  sportname : pyval;
  tsstart : pyval;
  externaldescription : pyval;
  shortnameaway : pyval;
  shortnamehome : pyval;
  markets : list market
}.

(** What the HTTP request and the JSON decoding of the feed produce. *)
Inductive feed_response : Set :=
  | FeedRequestFailed
  | FeedNotJson
  | FeedJson (events : list event).

Definition odds_cols : list string :=
  ["Away MLOdds"; "Home MLOdds"; "HomeSpreadOdds"; "AwaySpreadOdds";
   "OverOdds"; "UnderOdds"]%string.

Section Normalizer.

(** [pd.to_numeric(..., errors='coerce')] on a text cell; [pd.to_datetime]
    on the start time, which raises on text it cannot read; and
    [DataFrame.sort_values]. *)
Variable to_numeric_str : string -> pyfloat.
Variable to_datetime : pyval -> result pyval.
Variable sort_values : list string -> list (gmap string pyval) -> list (gmap string pyval).

Definition money_line_selection (game_data : gmap string pyval) (s : selection)
  : gmap string pyval :=
  if py_eq (sel_name s) (game_data !!! "AwayTeam"%string) then
    <["Away MLOdds"%string := price s]> game_data
  else if py_eq (sel_name s) (game_data !!! "HomeTeam"%string) then
    <["Home MLOdds"%string := price s]> game_data
  else game_data.

Definition run_line_selection (game_data : gmap string pyval) (s : selection)
  : gmap string pyval :=
  if py_eq (sel_name s) (game_data !!! "AwayTeam"%string) then
    <["AwaySpreadOdds"%string := price s]> game_data
  else if py_eq (sel_name s) (game_data !!! "HomeTeam"%string) then
    <["HomeSpreadOdds"%string := price s]>
      (<["HomeSpread"%string := currenthandicap s]> game_data)
  else game_data.

Definition total_runs_selection (game_data : gmap string pyval) (s : selection)
  : gmap string pyval :=
  if py_eq (sel_name s) (PyStr "Over") then
    <["Handicap"%string := currentmatchhandicap s]>
      (<["OverOdds"%string := price s]> game_data)
  else if py_eq (sel_name s) (PyStr "Under") then
    <["UnderOdds"%string := price s]> game_data
  else game_data.

(** One iteration of [for market in event.get('markets', [])]: three
    independent [if]s on the market name. *)
Definition process_market (game_data : gmap string pyval) (m : market)
  : gmap string pyval :=
  let g1 := if py_eq (mkt_name m) (PyStr "Money Line")
            then foldl money_line_selection game_data (selections m)
            else game_data in
  let g2 := if py_eq (mkt_name m) (PyStr "Run Line")
            then foldl run_line_selection g1 (selections m)
            else g1 in
  if py_eq (mkt_name m) (PyStr "Total Runs")
  then foldl total_runs_selection g2 (selections m)
  else g2.

Definition initial_game_data (e : event) (game_start : pyval) : gmap string pyval :=
  list_to_map
    [("Sport", sportname e); ("GameStart", game_start);
     ("Game", externaldescription e); ("AwayTeam", shortnameaway e);
     ("HomeTeam", shortnamehome e); ("Away MLOdds", PyNone);
     ("Home MLOdds", PyNone); ("HomeSpread", PyNone);
     ("AwaySpreadOdds", PyNone); ("HomeSpreadOdds", PyNone);
     ("UnderOdds", PyNone); ("OverOdds", PyNone); ("Handicap", PyNone)]%string.

(** The body of [for event in data.get('events', [])]: the dictionary is
    built, which evaluates [pd.to_datetime], and the markets are visited. *)
Definition game_data_of (e : event) : result (gmap string pyval) :=
  game_start ← to_datetime (tsstart e);
  mret (foldl process_market (initial_game_data e game_start) (markets e)).

(** [pd.to_numeric(col, errors='coerce')], cell by cell.  (pandas keeps an
    all-integer column as integers; the values are the same.) *)
Definition to_numeric (v : pyval) : pyfloat :=
  match v with
  | PyNone => NaN
  | PyBool b => Fin (inject_Z (Z.b2z b))
  | PyInt z => Fin (inject_Z z)
  | PyFloat f => f
  | PyStr s => to_numeric_str s
  end.

(** [df[col] = pd.to_numeric(df[col], errors='coerce').apply(convert_to_american_odds)]
    under [if col in df.columns], on one row. *)
Definition convert_col (row : result (gmap string pyval)) (col : string)
  : result (gmap string pyval) :=
  r ← row;
  match r !! col with
  | Some v =>
      a ← convert_to_american_odds (PyFloat (to_numeric v));
      mret (<[col := a]> r)
  | None => mret r
  end.

Definition convert_odds (row : gmap string pyval) : result (gmap string pyval) :=
  foldl convert_col (Ok row) odds_cols.

(** One event, normalised: the record [scrape_sbri_data] holds for it. *)
Definition normalize_event (e : event) : result (gmap string pyval) :=
  game_data ← game_data_of e; convert_odds game_data.

(** [None] is the function's [return None]; [Some []] is the empty frame
    returned when the feed has no events. *)
Definition scrape_sbri_data (resp : feed_response)
  : result (option (list (gmap string pyval))) :=
  match resp with
  | FeedRequestFailed | FeedNotJson => Ok None
  | FeedJson events =>
      processed_rows ← mapM game_data_of events;
      match processed_rows with
      | [] => Ok (Some [])
      | _ =>
          df ← mapM convert_odds processed_rows;
          mret (Some (sort_values ["GameStart"; "AwayTeam"]%string df))
      end
  end.

End Normalizer.

(** The decimal prices the feed is expected to carry, and the invariant of a
    price field of the normalised record. *)
Definition valid_decimal_price (p : pyval) : Prop :=
  exists d, real_value p = Some d /\ 1 < d.

Definition american_or_absent (v : pyval) : Prop :=
  v = PyNone \/ exists a, real_value v = Some a /\ 100 <= Qabs a.

(** Before conversion every price column holds [None] or a raw decimal
    price taken from a selection. *)
Definition raw_prices (game_data : gmap string pyval) : Prop :=
  forall col, In col odds_cols ->
    exists v, game_data !! col = Some v /\ (v = PyNone \/ valid_decimal_price v).

(** ** MultiPageTableCollector: [scrape_dratings_data] (MLB2025.py, lines 147-199) *)

(** A [DataFrame] read from a page: its column labels and its rows, a row
    mapping a column label to its cell (a label without a cell is NaN). *)
Record table : Type := {
  columns : list string;
  rows : list (gmap string pyval)
}.

(** What one iteration of the page loop meets: [session.get] or
    [raise_for_status] raising a [RequestException]; [pd.read_html] raising
    [ValueError] because the document holds no [<table>]; or the list of
    tables [pd.read_html] returns, which is never empty. *)
Inductive page_response : Type :=
  | PageRequestFailed
  | PageNoTables
  | PageTables (page_tables : list table).

Inductive log_level : Set := INFO | WARNING | ERROR.

Inductive log_message : Set :=
  | ScrapingPage (page_num : nat)
  | FoundPitchersTable (page_num : nat)
  | NoPitchersTable (page_num : nat)
  | CouldNotScrapePage (page_num : nat)
  | FailedToScrapeAny
  | NoPreTag
  | NoTableHeader
  | ParsedRows (n : nat)
  | CouldNotScrapeTPT
  | ErrorWhileParsing.

Definition log_entry : Set := log_level * log_message.

Definition has_column (c : string) (t : table) : bool :=
  bool_decide (c ∈ columns t).

(** The body of [for page_num in range(3)]: the [try] block with its single
    [except requests.exceptions.RequestException] clause.  ([time.sleep(2)]
    has no effect on the values.) *)
Definition scrape_page (fetch : nat -> page_response)
    (acc : result (list table * list log_entry)) (page_num : nat)
  : result (list table * list log_entry) :=
  '(all_dfs, log) ← acc;
  let log := log ++ [(INFO, ScrapingPage page_num)] in
  match fetch page_num with
  | PageRequestFailed =>
      Ok (all_dfs, log ++ [(WARNING, CouldNotScrapePage page_num)])
  | PageNoTables => Raise ValueError
  | PageTables page_tables =>
      match List.find (has_column "Pitchers") page_tables with
      | Some t => Ok (all_dfs ++ [t], log ++ [(INFO, FoundPitchersTable page_num)])
      | None => Ok (all_dfs, log ++ [(WARNING, NoPitchersTable page_num)])
      end
  end.

Definition collect_pages (fetch : nat -> page_response) (max_pages : nat)
  : result (list table * list log_entry) :=
  foldl (scrape_page fetch) (Ok ([], [])) (seq 0 max_pages).

(** [pd.concat(all_dfs, ignore_index=True)] *)
Fixpoint union_columns (seen : list string) (cs : list string) : list string :=
  match cs with
  | [] => seen
  | c :: cs' =>
      if bool_decide (c ∈ seen) then union_columns seen cs'
      else union_columns (seen ++ [c]) cs'
  end.

Definition pd_concat (dfs : list table) : table :=
  {| columns := foldl (fun seen t => union_columns seen (columns t)) [] dfs;
     rows := flat_map rows dfs |}.

(** pandas compares the cells of the key for duplicates; two missing cells
    count as equal. *)
Definition cell_missing (c : option pyval) : bool :=
  match c with
  | None => true
  | Some v => pd_isna v
  end.

Definition same_cell (a b : option pyval) : bool :=
  if cell_missing a then cell_missing b
  else
    match a, b with
    | Some x, Some y => py_eq x y
    | _, _ => false
    end.

(** [drop_duplicates(subset=key)], keeping the first occurrence. *)
Fixpoint keep_first (key : string) (seen : list (option pyval))
    (rs : list (gmap string pyval)) : list (gmap string pyval) :=
  match rs with
  | [] => []
  | r :: rs' =>
      if existsb (same_cell (r !! key)) seen then keep_first key seen rs'
      else r :: keep_first key ((r !! key) :: seen) rs'
  end.

Definition drop_duplicates (subset : string) (df : table) : result table :=
  if has_column subset df then
    Ok {| columns := columns df; rows := keep_first subset [] (rows df) |}
  else Raise KeyError.

Section Collector.

(** Lines 192-199: dropping the noise columns, the text replacement in
    "Teams", the parsing of "Time", the removal of rows without a time, the
    change of time zone and the closing sort. *)
Variable clean_up : table -> result table.

(** [None] is the function's [return None] ("no data"). *)
Definition scrape_dratings_data (fetch : nat -> page_response)
  : result (option table * list log_entry) :=
  '(all_dfs, log) ← collect_pages fetch 3;
  match all_dfs with
  | [] => Ok (None, log ++ [(ERROR, FailedToScrapeAny)])
  | _ =>
      df ← drop_duplicates "Teams" (pd_concat all_dfs);
      df ← clean_up df;
      mret (Some df, log)
  end.

End Collector.

(** The pages that were skipped because the request failed, as the log
    reports them. *)
Definition skipped_pages (log : list log_entry) : list nat :=
  flat_map (fun e => match e with
                     | (WARNING, CouldNotScrapePage n) => [n]
                     | _ => []
                     end) log.

(** ** FixedWidthTableParser: [scrape_tpt_data] (Football2025.py, lines 256-338) *)

(** Python's [str] methods used on the text.  Text is a string of bytes: the
    line boundaries and blanks outside ASCII are not represented. *)
Definition is_line_boundary (c : Ascii.ascii) : bool :=
  bool_decide (Ascii.nat_of_ascii c ∈ [10; 11; 12; 13; 28; 29; 30]%nat).

Definition is_space (c : Ascii.ascii) : bool :=
  bool_decide (Ascii.nat_of_ascii c ∈ [9; 10; 11; 12; 13; 28; 29; 30; 31; 32]%nat).

Definition is_empty (s : string) : bool :=
  match s with EmptyString => true | _ => false end.

(** [s.splitlines()]: "\r\n" counts as one boundary, and a final boundary
    opens no further line. *)
Fixpoint splitlines_from (cur : string) (s : string) : list string :=
  match s with
  | EmptyString => if is_empty cur then [] else [cur]
  | String c s' =>
      if bool_decide (Ascii.nat_of_ascii c = 13%nat) then
        match s' with
        | String c2 s'' =>
            if bool_decide (Ascii.nat_of_ascii c2 = 10%nat)
            then cur :: splitlines_from EmptyString s''
            else cur :: splitlines_from EmptyString s'
        | EmptyString => [cur]
        end
      else if is_line_boundary c then cur :: splitlines_from EmptyString s'
      else splitlines_from (cur +:+ String c EmptyString) s'
  end.

Definition splitlines (s : string) : list string := splitlines_from EmptyString s.

(** [s[n:]] *)
Fixpoint str_drop (n : nat) (s : string) : string :=
  match n, s with
  | O, _ => s
  | S n', String _ s' => str_drop n' s'
  | S _, EmptyString => EmptyString
  end.

Fixpoint lstrip (s : string) : string :=
  match s with
  | EmptyString => EmptyString
  | String c s' => if is_space c then lstrip s' else s
  end.

Fixpoint rstrip (s : string) : string :=
  match s with
  | EmptyString => EmptyString
  | String c s' =>
      let r := rstrip s' in
      if is_space c && is_empty r then EmptyString else String c r
  end.

Definition strip (s : string) : string := rstrip (lstrip s).

Definition newline : string := String (Ascii.ascii_of_nat 10) EmptyString.

Definition header_start : string := "Home                Visitor".
Definition separator : string := "__________".

Definition col_names : list string :=
  ["Home"; "Visitor"; "OpeningLine"; "UpdatedLine"; "MidweekLine";
   "PredictionAvg"; "PredictionMedian"; "PredictionStdDev";
   "PredictionMin"; "PredictionMax"; "ProbabilityWins"; "ProbabilityCovers"]%string.

(** [TEAM_NAME_MAP] (Football2025.py, lines 81-145). *)
Definition TEAM_NAME_MAP : gmap string string :=
  list_to_map
    [("Arizona", "Arizona Cardinals"); ("Atlanta", "Atlanta Falcons");
     ("Baltimore", "Baltimore Ravens"); ("Buffalo", "Buffalo Bills");
     ("Carolina", "Carolina Panthers"); ("Chicago", "Chicago Bears");
     ("Cincinnati", "Cincinnati Bengals"); ("Cleveland", "Cleveland Browns");
     ("Dallas", "Dallas Cowboys"); ("Denver", "Denver Broncos");
     ("Detroit", "Detroit Lions"); ("Green Bay", "Green Bay Packers");
     ("Houston", "Houston Texans"); ("Indianapolis", "Indianapolis Colts");
     ("Jacksonville", "Jacksonville Jaguars"); ("Kansas City", "Kansas City Chiefs");
     ("Las Vegas", "Las Vegas Raiders"); ("LA Chargers", "Los Angeles Chargers");
     ("LA Rams", "Los Angeles Rams"); ("Miami", "Miami Dolphins");
     ("Minnesota", "Minnesota Vikings"); ("New England", "New England Patriots");
     ("New Orleans", "New Orleans Saints"); ("N.Y. Giants", "New York Giants");
     ("N.Y. Jets", "New York Jets"); ("Philadelphia", "Philadelphia Eagles");
     ("Pittsburgh", "Pittsburgh Steelers"); ("San Francisco", "San Francisco 49ers");
     ("Seattle", "Seattle Seahawks"); ("Tampa Bay", "Tampa Bay Buccaneers");
     ("Tennessee", "Tennessee Titans"); ("Washington", "Washington Commanders");
     ("Eagles", "Philadelphia Eagles"); ("Cowboys", "Dallas Cowboys");
     ("Chargers", "Los Angeles Chargers"); ("Chiefs", "Kansas City Chiefs");
     ("Colts", "Indianapolis Colts"); ("Dolphins", "Miami Dolphins");
     ("Jets", "New York Jets"); ("Steelers", "Pittsburgh Steelers");
     ("Giants", "New York Giants"); ("Falcons", "Atlanta Falcons");
     ("Buccaneers", "Tampa Bay Buccaneers"); ("Saints", "New Orleans Saints");
     ("Cardinals", "Arizona Cardinals"); ("Browns", "Cleveland Browns");
     ("Bengals", "Cincinnati Bengals"); ("Jaguars", "Jacksonville Jaguars");
     ("Panthers", "Carolina Panthers"); ("Patriots", "New England Patriots");
     ("Raiders", "Las Vegas Raiders"); ("Broncos", "Denver Broncos");
     ("Titans", "Tennessee Titans"); ("Seahawks", "Seattle Seahawks");
     ("Niners", "San Francisco 49ers"); ("Rams", "Los Angeles Rams");
     ("Texans", "Houston Texans"); ("Packers", "Green Bay Packers");
     ("Lions", "Detroit Lions"); ("Bills", "Buffalo Bills");
     ("Ravens", "Baltimore Ravens"); ("Bears", "Chicago Bears");
     ("Vikings", "Minnesota Vikings")]%string.

(** [Series.replace(TEAM_NAME_MAP)] on one cell: an exact, case-sensitive
    match is replaced, anything else passes through. *)
Definition replace_team (v : pyval) : pyval :=
  match v with
  | PyStr s => match TEAM_NAME_MAP !! s with Some full => PyStr full | None => v end
  | _ => v
  end.

(** [Series.str.strip()] on one cell: NaN where the cell is not text. *)
Definition str_strip_cell (v : pyval) : pyval :=
  match v with
  | PyStr s => PyStr (strip s)
  | _ => PyFloat NaN
  end.

Definition map_cell (c : string) (f : pyval -> pyval) (r : gmap string pyval)
  : gmap string pyval :=
  match r !! c with
  | Some v => <[c := f v]> r
  | None => r
  end.

Definition map_column (c : string) (f : pyval -> pyval) (df : table) : table :=
  {| columns := columns df; rows := map (map_cell c f) (rows df) |}.

(** [df.dropna(how='all')] *)
Definition dropna_all (df : table) : table :=
  {| columns := columns df;
     rows := List.filter (fun r => negb (forallb (fun c => cell_missing (r !! c)) (columns df)))
                    (rows df) |}.

(** [df['Visitor'] + ' at ' + df['Home']] on one row. *)
Definition matchup (r : gmap string pyval) : pyval :=
  match r !! "Visitor"%string, r !! "Home"%string with
  | Some (PyStr v), Some (PyStr h) => PyStr (v +:+ " at " +:+ h)
  | _, _ => PyFloat NaN
  end.

(** [DataFrame.empty] *)
Definition df_empty (df : table) : bool :=
  match rows df, columns df with
  | [], _ | _, [] => true
  | _, _ => false
  end.

(** The guard of [main] (Football2025.py, lines 398-402): the sheet is
    written when [tpt_df is not None and not tpt_df.empty]; otherwise "no
    data" is logged as an error. *)
Definition reports_no_data (tpt_df : option table) : bool :=
  match tpt_df with
  | None => true
  | Some df => df_empty df
  end.

Inductive tpt_response : Set :=
  | TptRequestFailed
  | TptHtml (text : string).

Section FixedWidth.

(** [BeautifulSoup(text, 'html.parser').find('pre')] followed by
    [get_text()]: [None] when the document has no [<pre>] element. *)
Variable find_pre : string -> option string.

(** [pd.read_fwf(io.StringIO(table_text), colspecs=col_specs, names=col_names)] *)
Variable read_fwf : string -> result table.

(** Whether pandas accepts [.str] on a column of a frame (the column holds
    text); otherwise the accessor raises [AttributeError]. *)
Variable has_str_accessor : table -> string -> bool.

Definition str_strip_column (c : string) (df : table) : result table :=
  if has_str_accessor df c then Ok (map_column c str_strip_cell df)
  else Raise AttributeError.

(** Lines 286-292: the text handed to [pd.read_fwf]. *)
Definition remainder_after_header (full_text : string) (table_start_index : nat) : string :=
  String.concat newline (skipn 2 (splitlines (str_drop table_start_index full_text))).

Definition table_text_of (full_text : string) (table_start_index : nat) : string :=
  let table_text := remainder_after_header full_text table_start_index in
  match String.index 0 separator table_text with
  | Some i => String.substring 0 i table_text
  | None => table_text
  end.

(** Lines 320-329. *)
Definition tpt_post_process (df : table) : result table :=
  let df := dropna_all df in
  df ← str_strip_column "Home" df;
  df ← str_strip_column "Visitor" df;
  let df := map_column "Home" replace_team df in
  let df := map_column "Visitor" replace_team df in
  mret {| columns := columns df ++ ["Matchup"%string];
          rows := map (fun r => <["Matchup"%string := matchup r]> r) (rows df) |}.

(** The [try] block. *)
Definition scrape_tpt_try (resp : tpt_response) : result (option table * list log_entry) :=
  match resp with
  | TptRequestFailed => Raise RequestException
  | TptHtml text =>
      match find_pre text with
      | None => Ok (None, [(ERROR, NoPreTag)])
      | Some full_text =>
          match String.index 0 header_start full_text with
          | None => Ok (None, [(ERROR, NoTableHeader)])
          | Some table_start_index =>
              df ← read_fwf (table_text_of full_text table_start_index);
              df ← tpt_post_process df;
              mret (Some df, [(INFO, ParsedRows (length (rows df)))])
          end
      end
  end.

(** [except RequestException] first, then [except Exception]: both log and
    return [None]. *)
Definition scrape_tpt_data (resp : tpt_response) : result (option table * list log_entry) :=
  try_except_all
    (try_except (scrape_tpt_try resp) [RequestException]
                (Ok (None, [(WARNING, CouldNotScrapeTPT)])))
    (fun _ => Ok (None, [(ERROR, ErrorWhileParsing)])).

End FixedWidth.

(** ** ReconciliationEngine: [perform_baseball_analysis] (MLB2025fork1.py, lines 218-310) *)

Inductive status : Set :=
  | ReadyForAnalysis
  | MissingOdds
  | MissingPrediction
  | Unknown.

Definition status_eqb (a b : status) : bool :=
  match a, b with
  | ReadyForAnalysis, ReadyForAnalysis
  | MissingOdds, MissingOdds
  | MissingPrediction, MissingPrediction
  | Unknown, Unknown => true
  | _, _ => false
  end.

(** The merge key.  A timestamp is an instant (an integer count since the
    epoch), [None] being NaT; a team name that could not be extracted is
    [None]. *)
Record join_key : Set := {
  Timestamp : option Z;
  HomeTeam : option string;
  AwayTeam : option string
}.

#[global] Instance join_key_eq_dec : EqDecision join_key.
Proof. solve_decision. Defined.

(** The two frames after the pre-processing of lines 227-244 (team names and
    win probabilities extracted, timestamps brought to one time zone and
    renamed).  The columns that the analysis does not read travel in
    [sbri_other] and [dratings_other]. *)
Record sbri_row : Type := {
  sbri_key : join_key;
  sbri_Game : option string;
  sbri_Home_MLOdds : pyfloat;
  sbri_Away_MLOdds : pyfloat;
  sbri_other : gmap string pyval
}.

Record dratings_row : Type := {
  dratings_key : join_key;
  dratings_Teams : option string;
  dratings_HomeWinProb_pred : pyfloat;
  dratings_AwayWinProb_pred : pyfloat;
  dratings_other : gmap string pyval
}.

(** A row of [merged_df]; the columns of a side that has no row for the key
    are NaN. *)
Record merged_row : Type := {
  key : join_key;
  Game : option string;
  Teams : option string;
  Home_MLOdds : pyfloat;
  Away_MLOdds : pyfloat;
  HomeWinProb_pred : pyfloat;
  AwayWinProb_pred : pyfloat;
  odds_other : gmap string pyval;
  pred_other : gmap string pyval
}.

Definition both_sides (o : sbri_row) (p : dratings_row) : merged_row :=
  {| key := sbri_key o;
     Game := sbri_Game o;
     Teams := dratings_Teams p;
     Home_MLOdds := sbri_Home_MLOdds o;
     Away_MLOdds := sbri_Away_MLOdds o;
     HomeWinProb_pred := dratings_HomeWinProb_pred p;
     AwayWinProb_pred := dratings_AwayWinProb_pred p;
     odds_other := sbri_other o;
     pred_other := dratings_other p |}.

Definition left_only (o : sbri_row) : merged_row :=
  {| key := sbri_key o;
     Game := sbri_Game o;
     Teams := None;
     Home_MLOdds := sbri_Home_MLOdds o;
     Away_MLOdds := sbri_Away_MLOdds o;
     HomeWinProb_pred := NaN;
     AwayWinProb_pred := NaN;
     odds_other := sbri_other o;
     pred_other := ∅ |}.

Definition right_only (p : dratings_row) : merged_row :=
  {| key := dratings_key p;
     Game := None;
     Teams := dratings_Teams p;
     Home_MLOdds := NaN;
     Away_MLOdds := NaN;
     HomeWinProb_pred := dratings_HomeWinProb_pred p;
     AwayWinProb_pred := dratings_AwayWinProb_pred p;
     odds_other := ∅;
     pred_other := dratings_other p |}.

(** pandas matches equal keys, missing key values included. *)
Definition key_eqb (a b : join_key) : bool := bool_decide (a = b).

(** [pd.merge(sbri_df, dratings_df, on=[...], how='outer')]: every pair of
    rows with equal keys, and every row without a partner.  (pandas orders
    the result by key; the rows are sorted by timestamp right after, so the
    order chosen here is immaterial.) *)
Definition pd_merge_outer (sbri_df : list sbri_row) (dratings_df : list dratings_row)
  : list merged_row :=
  flat_map
    (fun o =>
       match List.filter (fun p => key_eqb (sbri_key o) (dratings_key p)) dratings_df with
       | [] => [left_only o]
       | ps => map (both_sides o) ps
       end) sbri_df
  ++ map right_only
       (List.filter (fun p => negb (existsb (fun o => key_eqb (sbri_key o) (dratings_key p)) sbri_df))
               dratings_df).

(** [np.select(condlist, choicelist, default)] on one row: the choice of the
    first condition that holds. *)
Fixpoint np_select {A} (condlist : list bool) (choicelist : list A) (default : A) : A :=
  match condlist, choicelist with
  | c :: cs, x :: xs => if c then x else np_select cs xs default
  | _, _ => default
  end.

Definition notna (x : pyfloat) : bool := negb (pd_isna_f x).

(** Lines 263-270. *)
Definition status_of (m : merged_row) : status :=
  np_select
    [ notna (Home_MLOdds m) && notna (HomeWinProb_pred m);
      pd_isna_f (Home_MLOdds m);
      pd_isna_f (HomeWinProb_pred m) ]
    [ ReadyForAnalysis; MissingOdds; MissingPrediction ]
    Unknown.

Record classified_row : Type := {
  joined : merged_row;
  Status : status
}.

(** [merged_df['Game'].fillna(merged_df['Teams'])] *)
Definition fill_game (m : merged_row) : merged_row :=
  {| key := key m;
     Game := match Game m with Some g => Some g | None => Teams m end;
     Teams := Teams m;
     Home_MLOdds := Home_MLOdds m;
     Away_MLOdds := Away_MLOdds m;
     HomeWinProb_pred := HomeWinProb_pred m;
     AwayWinProb_pred := AwayWinProb_pred m;
     odds_other := odds_other m;
     pred_other := pred_other m |}.

Definition classify (m : merged_row) : classified_row :=
  {| joined := fill_game m; Status := status_of m |}.

(** [sort_values(by='Timestamp')]: ascending, NaT last.  The order pandas
    gives to rows with equal timestamps is not fixed by its default
    algorithm; here they keep their relative order. *)
Definition timestamp_le (a b : option Z) : bool :=
  match a, b with
  | Some x, Some y => (x <=? y)%Z
  | _, None => true
  | None, Some _ => false
  end.

Fixpoint insert_by_timestamp {A} (ts : A -> option Z) (x : A) (l : list A) : list A :=
  match l with
  | [] => [x]
  | y :: l' =>
      if timestamp_le (ts x) (ts y) then x :: l
      else y :: insert_by_timestamp ts x l'
  end.

Definition sort_by_timestamp {A} (ts : A -> option Z) (l : list A) : list A :=
  foldr (insert_by_timestamp ts) [] l.

(** The order of a frame sorted by timestamp. *)
Definition by_timestamp {A} (ts : A -> option Z) (x y : A) : Prop :=
  timestamp_le (ts x) (ts y) = true.

Definition row_timestamp (c : classified_row) : option Z := Timestamp (key (joined c)).

(** A row of [analysis_ready_df] once lines 283-296 have run. *)
Record analysis_row : Type := {
  ready : classified_row;
  HomeDecimalOdds : pyfloat;
  AwayDecimalOdds : pyfloat;
  HomeImpliedProb : pyfloat;
  AwayImpliedProb : pyfloat;
  HomeValue : pyfloat;
  AwayValue : pyfloat;
  BestBetTeam : option string;
  BestBetValue : pyfloat
}.

(** A row of the frame the function returns: the merged columns, the status
    and the two best-bet columns. *)
Record final_row : Type := {
  base : classified_row;
  final_BestBetTeam : option string;
  final_BestBetValue : pyfloat
}.

Definition without_best_bet (c : classified_row) : final_row :=
  {| base := c; final_BestBetTeam := None; final_BestBetValue := NaN |}.

Definition with_best_bet (c : classified_row) (a : analysis_row) : final_row :=
  {| base := c; final_BestBetTeam := BestBetTeam a; final_BestBetValue := BestBetValue a |}.

(** [merged_df.merge(positive_value_bets[[...]], on=[...], how='left')] *)
Definition merge_left (merged_df : list classified_row) (positive_value_bets : list analysis_row)
  : list final_row :=
  flat_map
    (fun c =>
       match List.filter (fun a => key_eqb (key (joined c)) (key (joined (ready a))))
                    positive_value_bets with
       | [] => [without_best_bet c]
       | ps => map (with_best_bet c) ps
       end) merged_df.

Section Reconciliation.

Variable float_of_str : string -> option pyfloat.

(** Lines 283-296 on one row; [Series.apply] hands each cell to
    [convert_american_to_decimal] as a Python [float], and an exception raised
    there leaves [perform_baseball_analysis]. *)
Definition analyse (c : classified_row) : result analysis_row :=
  let m := joined c in
  home_decimal ← convert_american_to_decimal float_of_str (PyFloat (Home_MLOdds m));
  away_decimal ← convert_american_to_decimal float_of_str (PyFloat (Away_MLOdds m));
  let home_value := fsub (fmul (HomeWinProb_pred m) home_decimal) (Fin 1) in
  let away_value := fsub (fmul (AwayWinProb_pred m) away_decimal) (Fin 1) in
  mret {| ready := c;
          HomeDecimalOdds := home_decimal;
          AwayDecimalOdds := away_decimal;
          HomeImpliedProb := fdiv (Fin 1) home_decimal;
          AwayImpliedProb := fdiv (Fin 1) away_decimal;
          HomeValue := home_value;
          AwayValue := away_value;
          BestBetTeam := if fgt home_value away_value
                         then HomeTeam (key m) else AwayTeam (key m);
          BestBetValue := np_maximum home_value away_value |}.

(** [merged_df] as it stands after line 274. *)
Definition merged_sorted (sbri_df : list sbri_row) (dratings_df : list dratings_row)
  : list classified_row :=
  sort_by_timestamp row_timestamp (map classify (pd_merge_outer sbri_df dratings_df)).

Definition is_ready (c : classified_row) : bool := status_eqb (Status c) ReadyForAnalysis.

(** [analysis_ready_df] after line 296. *)
Definition analysis_ready (sbri_df : list sbri_row) (dratings_df : list dratings_row)
  : result (list analysis_row) :=
  mapM analyse (List.filter is_ready (merged_sorted sbri_df dratings_df)).

Definition is_positive_value_bet (a : analysis_row) : bool := fgt (BestBetValue a) (Fin 0).

(** The rows whose best bet is merged back: analysed ReadyForAnalysis rows
    of [merged_df] with a strictly positive best value. *)
Definition positive_bet_of (sbri_df : list sbri_row) (dratings_df : list dratings_row)
    (a : analysis_row) : Prop :=
  In (ready a) (merged_sorted sbri_df dratings_df) /\
  Status (ready a) = ReadyForAnalysis /\
  analyse (ready a) = Ok a /\
  fgt (BestBetValue a) (Fin 0) = true.

(** The arguments are the two frames as the pre-processing of lines 227-244
    leaves them.  [None] stands for an argument on which that pre-processing
    raises: [None] itself, a frame without a column it reads (as the frame
    without columns that [scrape_sbri_data] returns for a feed without
    events), timestamps it cannot localise, or a forecast frame whose "Win"
    column does not split in two (as in every frame without rows).  The
    [except] clause of line 246 then returns an empty frame. *)
Definition perform_baseball_analysis
    (sbri_df : option (list sbri_row)) (dratings_df : option (list dratings_row))
  : result (list final_row) :=
  match sbri_df, dratings_df with
  | Some sbri_df, Some dratings_df =>
      match pd_merge_outer sbri_df dratings_df with
      | [] => Ok []
      | _ =>
          let merged_df := merged_sorted sbri_df dratings_df in
          match List.filter is_ready merged_df with
          | [] =>
              Ok (sort_by_timestamp (fun f => row_timestamp (base f))
                    (map without_best_bet merged_df))
          | _ =>
              analysis_ready_df ← analysis_ready sbri_df dratings_df;
              let positive_value_bets := List.filter is_positive_value_bet analysis_ready_df in
              Ok (sort_by_timestamp (fun f => row_timestamp (base f))
                    (merge_left merged_df positive_value_bets))
          end
      end
  | _, _ => Ok []
  end.

End Reconciliation.

(** The classification as claim C1 words it, with both sides required. *)
Definition status_both_sides (m : merged_row) : status :=
  if notna (Home_MLOdds m) && notna (Away_MLOdds m)
     && notna (HomeWinProb_pred m) && notna (AwayWinProb_pred m)
  then ReadyForAnalysis
  else if pd_isna_f (Home_MLOdds m) && pd_isna_f (Away_MLOdds m) then MissingOdds
  else if pd_isna_f (HomeWinProb_pred m) && pd_isna_f (AwayWinProb_pred m)
  then MissingPrediction
  else Unknown.

(** [americanToDecimal] as the specification words it (section 4.5). *)
Definition american_to_decimal_spec (a : Q) : Q :=
  if Qltb 0 a then a / 100 + 1 else 100 / Qabs a + 1.

(** ** Concrete inputs used by the examples *)

(** The moneyline example of the specification: home 1.91, away 2.05. *)
Definition example_event : event :=
  {| sportname := PyStr "Baseball";
     tsstart := PyStr "2025-06-01T19:05:00";
     externaldescription := PyStr "New York Yankees @ Boston Red Sox";
     shortnameaway := PyStr "New York Yankees";
     shortnamehome := PyStr "Boston Red Sox";
     markets :=
       [ {| mkt_name := PyStr "Money Line";
            selections :=
              [ {| sel_name := PyStr "Boston Red Sox"; price := PyFloat (Fin 1.91);
                   currenthandicap := PyNone; currentmatchhandicap := PyNone |};
                {| sel_name := PyStr "New York Yankees"; price := PyFloat (Fin 2.05);
                   currenthandicap := PyNone; currentmatchhandicap := PyNone |} ] |} ] |}.

Definition page_row (time teams pitchers win : string) : gmap string pyval :=
  list_to_map [("Time", PyStr time); ("Teams", PyStr teams);
               ("Pitchers", PyStr pitchers); ("Win", PyStr win)]%string.

Definition example_page0 : table :=
  {| columns := ["Time"; "Teams"; "Pitchers"; "Win"]%string;
     rows := [ page_row "06/01/2025 07:05 PM"
                 "New York Yankees (35-20) Boston Red Sox (29-30)" "Fried Crochet" "48.1% 51.9%";
               page_row "06/01/2025 08:10 PM"
                 "Chicago Cubs (36-22) Cincinnati Reds (29-30)" "Boyd Lodolo" "55.0% 45.0%" ] |}.

Definition example_page1 : table :=
  {| columns := ["Time"; "Teams"; "Pitchers"; "Win"]%string;
     rows := [ page_row "06/01/2025 08:10 PM"
                 "Chicago Cubs (36-22) Cincinnati Reds (29-30)" "Boyd Lodolo" "55.0% 45.0%";
               page_row "06/02/2025 06:40 PM"
                 "Houston Astros (32-27) Pittsburgh Pirates (22-38)" "Brown Keller" "57.3% 42.7%" ] |}.

(** A table without the "Pitchers" column, as the pages also carry. *)
Definition example_other_table : table :=
  {| columns := ["Rank"; "Team"]%string; rows := [] |}.

(** Pages 0 and 1 are fine; the request for page 2 fails. *)
Definition fetch_page2_request_failed (page_num : nat) : page_response :=
  match page_num with
  | 0%nat => PageTables [example_other_table; example_page0]
  | 1%nat => PageTables [example_page1]
  | _ => PageRequestFailed
  end.

(** Pages 0 and 1 are fine; page 2 answers with a document without tables. *)
Definition fetch_page2_no_tables (page_num : nat) : page_response :=
  match page_num with
  | 0%nat => PageTables [example_other_table; example_page0]
  | 1%nat => PageTables [example_page1]
  | _ => PageNoTables
  end.

(** Four games.  Boston: the feed priced only the home side.  Chicago: even
    odds against an even forecast, so neither side has value.  Houston: the
    home side has value.  Miami: a forecast without odds. *)
Definition game_key (t : Z) (home away : string) : join_key :=
  {| Timestamp := Some t; HomeTeam := Some home; AwayTeam := Some away |}.

Definition boston_odds : sbri_row :=
  {| sbri_key := game_key 200 "Boston Red Sox" "New York Yankees";
     sbri_Game := Some "New York Yankees @ Boston Red Sox"%string;
     sbri_Home_MLOdds := Fin (-110);
     sbri_Away_MLOdds := NaN;
     sbri_other := ∅ |}.

Definition boston_forecast : dratings_row :=
  {| dratings_key := game_key 200 "Boston Red Sox" "New York Yankees";
     dratings_Teams := Some "New York Yankees (35-20) Boston Red Sox (29-30)"%string;
     dratings_HomeWinProb_pred := Fin 0.55;
     dratings_AwayWinProb_pred := Fin 0.45;
     dratings_other := ∅ |}.

Definition chicago_odds : sbri_row :=
  {| sbri_key := game_key 100 "Chicago Cubs" "Cincinnati Reds";
     sbri_Game := Some "Cincinnati Reds @ Chicago Cubs"%string;
     sbri_Home_MLOdds := Fin (-110);
     sbri_Away_MLOdds := Fin (-110);
     sbri_other := ∅ |}.

Definition chicago_forecast : dratings_row :=
  {| dratings_key := game_key 100 "Chicago Cubs" "Cincinnati Reds";
     dratings_Teams := Some "Cincinnati Reds (29-30) Chicago Cubs (36-22)"%string;
     dratings_HomeWinProb_pred := Fin 0.5;
     dratings_AwayWinProb_pred := Fin 0.5;
     dratings_other := ∅ |}.

Definition houston_odds : sbri_row :=
  {| sbri_key := game_key 150 "Houston Astros" "Pittsburgh Pirates";
     sbri_Game := Some "Pittsburgh Pirates @ Houston Astros"%string;
     sbri_Home_MLOdds := Fin 150;
     sbri_Away_MLOdds := Fin (-170);
     sbri_other := ∅ |}.

Definition houston_forecast : dratings_row :=
  {| dratings_key := game_key 150 "Houston Astros" "Pittsburgh Pirates";
     dratings_Teams := Some "Pittsburgh Pirates (22-38) Houston Astros (32-27)"%string;
     dratings_HomeWinProb_pred := Fin 0.5;
     dratings_AwayWinProb_pred := Fin 0.5;
     dratings_other := ∅ |}.

Definition miami_forecast : dratings_row :=
  {| dratings_key := game_key 50 "Miami Marlins" "Atlanta Braves";
     dratings_Teams := Some "Atlanta Braves (27-31) Miami Marlins (23-34)"%string;
     dratings_HomeWinProb_pred := Fin 0.4;
     dratings_AwayWinProb_pred := Fin 0.6;
     dratings_other := ∅ |}.

Definition boston_row : classified_row := classify (both_sides boston_odds boston_forecast).
Definition chicago_row : classified_row := classify (both_sides chicago_odds chicago_forecast).
Definition houston_row : classified_row := classify (both_sides houston_odds houston_forecast).

Definition no_float_of_str (s : string) : option pyfloat := None.

(** An event the feed lists without any market. *)
Definition example_event_no_markets : event :=
  {| sportname := PyStr "Baseball";
     tsstart := PyStr "2025-06-02T18:40:00";
     externaldescription := PyStr "Pittsburgh Pirates @ Houston Astros";
     shortnameaway := PyStr "Pittsburgh Pirates";
     shortnamehome := PyStr "Houston Astros";
     markets := [] |}.

(** A preformatted block with the header, one data line and the separator,
    and a stand-in for [pd.read_fwf] that reads the team columns of a
    non-empty text. *)
Definition example_tpt_text : string :=
  "NFL predictions" +:+ newline +:+
  "Home                Visitor             Opening" +:+ newline +:+
  "----" +:+ newline +:+
  "Dallas             N.Y. Giants         -3.5" +:+ newline +:+
  "__________" +:+ newline +:+
  "Totals".

Definition example_read_fwf (table_text : string) : result table :=
  Ok {| columns := col_names;
        rows := if is_empty table_text then []
                else [ list_to_map [("Home", PyStr (String.substring 0 19 table_text));
                                    ("Visitor", PyStr (String.substring 19 20 table_text))]%string ] |}.

(** ** The page loop, page by page *)

(** The table a page contributes to [all_dfs]: the first one with a
    "Pitchers" column, when the page could be read. *)
Definition page_table (r : page_response) : option table :=
  match r with
  | PageTables page_tables => List.find (has_column "Pitchers") page_tables
  | PageRequestFailed | PageNoTables => None
  end.

Definition request_failed (r : page_response) : bool :=
  match r with PageRequestFailed => true | _ => false end.

(** The pages the loop announced ("Scraping page n"), as the log reports
    them. *)
Definition announced_pages (log : list log_entry) : list nat :=
  flat_map (fun e => match e with
                     | (INFO, ScrapingPage n) => [n]
                     | _ => []
                     end) log.

(** The feed listing the Houston game a second time, without prices. *)
Definition houston_odds_unpriced : sbri_row :=
  {| sbri_key := game_key 150 "Houston Astros" "Pittsburgh Pirates";
     sbri_Game := Some "Pittsburgh Pirates @ Houston Astros"%string;
     sbri_Home_MLOdds := NaN;
     sbri_Away_MLOdds := NaN;
     sbri_other := ∅ |}.

(** ** The record of an event: columns and markets *)

(** The columns of the frame [pd.DataFrame(processed_rows)]: the keys of
    [game_data], in the order of the dictionary. *)
Definition sbri_columns : list string :=
  ["Sport"; "GameStart"; "Game"; "AwayTeam"; "HomeTeam"; "Away MLOdds";
   "Home MLOdds"; "HomeSpread"; "AwaySpreadOdds"; "HomeSpreadOdds";
   "UnderOdds"; "OverOdds"; "Handicap"]%string.

(** The market names the event loop acts on. *)
Definition recognised_market (m : market) : bool :=
  py_eq (mkt_name m) (PyStr "Money Line") || py_eq (mkt_name m) (PyStr "Run Line")
  || py_eq (mkt_name m) (PyStr "Total Runs").

(** The three selection loops write into separate columns and read only the
    two team names, which none of them writes. *)
Definition teams_of (g : gmap string pyval) : pyval * pyval :=
  (g !!! "AwayTeam"%string, g !!! "HomeTeam"%string).

(** A market is of one kind at most. *)
Inductive market_kind : Set := MoneyLine | RunLine | TotalRuns | OtherMarket.

Definition kind_of (m : market) : market_kind :=
  if py_eq (mkt_name m) (PyStr "Money Line") then MoneyLine
  else if py_eq (mkt_name m) (PyStr "Run Line") then RunLine
  else if py_eq (mkt_name m) (PyStr "Total Runs") then TotalRuns
  else OtherMarket.

(** What no market can change: the five identity fields and the set of
    columns. *)
Definition same_identity (g g' : gmap string pyval) : Prop :=
  g' !! "Sport"%string = g !! "Sport"%string /\
  g' !! "GameStart"%string = g !! "GameStart"%string /\
  g' !! "Game"%string = g !! "Game"%string /\
  g' !! "AwayTeam"%string = g !! "AwayTeam"%string /\
  g' !! "HomeTeam"%string = g !! "HomeTeam"%string.

Definition has_sbri_columns (g : gmap string pyval) : Prop :=
  forall k, is_Some (g !! k) <-> In k sbri_columns.

Definition keeps_record (g g' : gmap string pyval) : Prop :=
  same_identity g g' /\ (has_sbri_columns g -> has_sbri_columns g').

(** ** The pre-processing of the forecast frame (MLB2025fork1.py, lines 227-239) *)

(** The part of Python's regular expressions that the pattern of line 230
    uses: character classes, greedy [*] and [+] on a class, and the capturing
    group [(.*?)].  A pattern is a sequence of such items between [^] and [$].
    Matching is Python's backtracking search: a greedy repetition tries the
    longest run first, a lazy one the shortest.  Text is ASCII. *)
Inductive char_class : Set :=
  | AnyChar
  | Whitespace
  | Digit
  | Literal (c : Ascii.ascii).

Definition is_digit (c : Ascii.ascii) : bool :=
  (48 <=? Ascii.nat_of_ascii c)%nat && (Ascii.nat_of_ascii c <=? 57)%nat.

Definition is_newline (c : Ascii.ascii) : bool := (Ascii.nat_of_ascii c =? 10)%nat.

(** [.] matches any character but the newline; [\s] the blanks of
    [str.isspace]; [\d] a decimal digit. *)
Definition class_matches (k : char_class) (c : Ascii.ascii) : bool :=
  match k with
  | AnyChar => negb (is_newline c)
  | Whitespace => is_space c
  | Digit => is_digit c
  | Literal a => Ascii.eqb a c
  end.

Inductive regex_item : Set :=
  | One (k : char_class)
  | Star (k : char_class)
  | Plus (k : char_class)
  | LazyStarGroup (k : char_class).

(** [k*] followed by [rest]: the longest run first. *)
Fixpoint star_greedy {R} (k : char_class) (rest : string -> option R) (s : string)
  : option R :=
  match s with
  | String c s' =>
      if class_matches k c then
        match star_greedy k rest s' with
        | Some r => Some r
        | None => rest s
        end
      else rest s
  | EmptyString => rest s
  end.

(** [(k*?)] followed by [rest]: the shortest run first; the group captures
    the run. *)
Fixpoint star_lazy (k : char_class) (rest : string -> option (list string))
    (captured : string) (s : string) : option (list string) :=
  match rest s with
  | Some groups => Some (captured :: groups)
  | None =>
      match s with
      | String c s' =>
          if class_matches k c then star_lazy k rest (captured +:+ String c EmptyString) s'
          else None
      | EmptyString => None
      end
  end.

(** [$]: the end of the text, or the place before a newline that ends it. *)
Definition at_end (s : string) : bool :=
  match s with
  | EmptyString => true
  | String c EmptyString => is_newline c
  | String _ (String _ _) => false
  end.

(** [re.search] of [^ items $] in [s]: the captured groups of the first
    match in the order of the search, [None] when there is no match. *)
Fixpoint re_search (items : list regex_item) (s : string) : option (list string) :=
  match items with
  | [] => if at_end s then Some [] else None
  | One k :: items' =>
      match s with
      | String c s' => if class_matches k c then re_search items' s' else None
      | EmptyString => None
      end
  | Star k :: items' => star_greedy k (re_search items') s
  | Plus k :: items' =>
      match s with
      | String c s' =>
          if class_matches k c then star_greedy k (re_search items') s' else None
      | EmptyString => None
      end
  | LazyStarGroup k :: items' => star_lazy k (re_search items') EmptyString s
  end.

(** The characters the pattern and the "Win" column name. *)
Definition lparen : Ascii.ascii := Ascii.ascii_of_nat 40.
Definition rparen : Ascii.ascii := Ascii.ascii_of_nat 41.
Definition hyphen : Ascii.ascii := Ascii.ascii_of_nat 45.
Definition blank : Ascii.ascii := Ascii.ascii_of_nat 32.
Definition percent : Ascii.ascii := Ascii.ascii_of_nat 37.

(** [\(\d+-\d+\)] *)
Definition record_pattern : list regex_item :=
  [One (Literal lparen); Plus Digit; One (Literal hyphen); Plus Digit; One (Literal rparen)].

(** [r'^(.*?)\s*\(\d+-\d+\)\s*(.*?)\s*\(\d+-\d+\)$'] (line 230) *)
Definition teams_pattern : list regex_item :=
  LazyStarGroup AnyChar :: Star Whitespace :: record_pattern
  ++ Star Whitespace :: LazyStarGroup AnyChar :: Star Whitespace :: record_pattern.

(** [Series.str.extract(pattern, expand=True)] on one cell, followed (lines
    231-232) by [.str.strip()] on each group: a cell that is not text or does
    not match gives NaN in both columns. *)
Definition extract_teams (cell : pyval) : option string * option string :=
  match cell with
  | PyStr s =>
      match re_search teams_pattern s with
      | Some [away; home] => (Some (strip away), Some (strip home))
      | _ => (None, None)
      end
  | _ => (None, None)
  end.

(** [s.split(' ')]: every single blank separates. *)
Fixpoint split_on (sep : Ascii.ascii) (cur : string) (s : string) : list string :=
  match s with
  | EmptyString => [cur]
  | String c s' =>
      if Ascii.eqb c sep then cur :: split_on sep EmptyString s'
      else split_on sep (cur +:+ String c EmptyString) s'
  end.

Definition str_split (sep : Ascii.ascii) (s : string) : list string :=
  split_on sep EmptyString s.

(** [s.strip('%')] *)
Fixpoint lstrip_char (ch : Ascii.ascii) (s : string) : string :=
  match s with
  | EmptyString => EmptyString
  | String c s' => if Ascii.eqb c ch then lstrip_char ch s' else s
  end.

Fixpoint rstrip_char (ch : Ascii.ascii) (s : string) : string :=
  match s with
  | EmptyString => EmptyString
  | String c s' =>
      let r := rstrip_char ch s' in
      if Ascii.eqb c ch && is_empty r then EmptyString else String c r
  end.

Definition strip_char (ch : Ascii.ascii) (s : string) : string :=
  rstrip_char ch (lstrip_char ch s).

(** The pieces of a "Win" cell ([str.split(' ', expand=True)] gives a cell
    that is not text no piece at all). *)
Definition win_pieces (cell : pyval) : list string :=
  match cell with
  | PyStr s => str_split blank s
  | _ => []
  end.

(** A cell of a row; a row without the column holds NaN there. *)
Definition cell_of (r : gmap string pyval) (col : string) : pyval :=
  match r !! col with
  | Some v => v
  | None => PyFloat NaN
  end.

Definition cell_text (v : pyval) : option string :=
  match v with
  | PyStr s => Some s
  | _ => None
  end.

Section ForecastCleaning.

(** [pd.to_numeric(..., errors='coerce')] on text; whether pandas accepts
    [.str] on a column; and [pd.to_datetime(col, errors='coerce')] followed
    by [.dt.tz_convert('America/New_York')], which gives the instants of the
    column, NaT where a cell cannot be read, or raises (on a column without
    a time zone). *)
Variable to_numeric_str : string -> pyfloat.
Variable has_str_accessor : table -> string -> bool.
Variable to_instants : list pyval -> result (list (option Z)).

(** [pd.to_numeric(win_probs[i].str.strip('%'), errors='coerce') / 100] on
    one row; a row with fewer pieces holds [None] in column [i]. *)
Definition win_prob (pieces : list string) (i : nat) : pyfloat :=
  match pieces !! i with
  | Some piece => fdiv (to_numeric_str (strip_char percent piece)) (Fin 100)
  | None => fdiv NaN (Fin 100)
  end.

(** One row of the forecast frame after lines 230-239; the first name and
    the first probability are the away side's. *)
Definition clean_dratings_row (r : gmap string pyval) (instant : option Z) : dratings_row :=
  let team_names := extract_teams (cell_of r "Teams") in
  let win_probs := win_pieces (cell_of r "Win") in
  {| dratings_key := {| Timestamp := instant;
                        HomeTeam := team_names.2;
                        AwayTeam := team_names.1 |};
     dratings_Teams := cell_text (cell_of r "Teams");
     dratings_HomeWinProb_pred := win_prob win_probs 1;
     dratings_AwayWinProb_pred := win_prob win_probs 0;
     dratings_other := r |}.

(** [df[col]] raises [KeyError] for an unknown column, [.str] raises
    [AttributeError] on a column that does not hold text. *)
Definition str_column (df : table) (col : string) : result (list pyval) :=
  if has_column col df then
    if has_str_accessor df col then Ok (map (fun r => cell_of r col) (rows df))
    else Raise AttributeError
  else Raise KeyError.

(** Lines 228-239 on the frame; [None] is Python's [None], on which
    [dratings_df['Teams']] raises [TypeError].  [win_probs[0]] and
    [win_probs[1]] exist when some row splits into that many pieces. *)
Definition clean_dratings (dratings_df : option table) : result (list dratings_row) :=
  match dratings_df with
  | None => Raise TypeError
  | Some df =>
      _ ← str_column df "Teams";
      win ← str_column df "Win";
      if forallb (fun cell => (length (win_pieces cell) <? 2)%nat) win then Raise KeyError
      else
        if has_column "Time" df then
          instants ← to_instants (map (fun r => cell_of r "Time") (rows df));
          mret (zip_with clean_dratings_row (rows df) instants)
        else Raise KeyError
  end.

End ForecastCleaning.

(** The shape of a "Teams" cell: a name is not empty, holds neither "(" nor
    a newline, and neither begins nor ends with a blank; a record is two
    runs of digits around "-", in brackets. *)
Fixpoint all_chars (p : Ascii.ascii -> bool) (s : string) : bool :=
  match s with
  | EmptyString => true
  | String c s' => p c && all_chars p s'
  end.

Definition name_char (c : Ascii.ascii) : bool :=
  negb (is_newline c) && negb (Ascii.eqb lparen c).

Definition team_name (s : string) : Prop :=
  s <> EmptyString /\ all_chars name_char s = true /\ lstrip s = s /\ rstrip s = s.

Definition digits (s : string) : Prop :=
  s <> EmptyString /\ all_chars is_digit s = true.

Definition blanks (s : string) : Prop := all_chars is_space s = true.

Definition win_loss (wins losses : string) : string :=
  "(" +:+ wins +:+ "-" +:+ losses +:+ ")".

(** A probability as the "Win" column prints it: no blank and no "%" in
    the number. *)
Definition percent_free (c : Ascii.ascii) : bool :=
  negb (Ascii.eqb c blank) && negb (Ascii.eqb c percent).

(** ** The pre-processing of the odds frame (MLB2025fork1.py, lines 241-244) *)

(** A price cell as a float: the price columns hold floats or [None], as
    [scrape_sbri_data] leaves them. *)
Definition cell_float (v : pyval) : pyfloat :=
  match v with
  | PyFloat f => f
  | PyInt z => Fin (inject_Z z)
  | PyBool b => Fin (inject_Z (Z.b2z b))
  | PyNone | PyStr _ => NaN
  end.

Definition clean_sbri_row (r : gmap string pyval) (instant : option Z) : sbri_row :=
  {| sbri_key := {| Timestamp := instant;
                    HomeTeam := cell_text (cell_of r "HomeTeam");
                    AwayTeam := cell_text (cell_of r "AwayTeam") |};
     sbri_Game := cell_text (cell_of r "Game");
     sbri_Home_MLOdds := cell_float (cell_of r "Home MLOdds");
     sbri_Away_MLOdds := cell_float (cell_of r "Away MLOdds");
     sbri_other := r |}.

Section OddsCleaning.

(** [pd.to_datetime(col, errors='coerce')] followed by
    [.dt.tz_localize('America/New_York', ambiguous='infer')]: the instants of
    the column, or an exception (on a column that has a time zone, or an
    ambiguous time). *)
Variable localize_instants : list pyval -> result (list (option Z)).

Definition clean_sbri (sbri_df : option table) : result (list sbri_row) :=
  match sbri_df with
  | None => Raise TypeError
  | Some df =>
      if has_column "GameStart" df then
        instants ← localize_instants (map (fun r => cell_of r "GameStart") (rows df));
        mret (zip_with clean_sbri_row (rows df) instants)
      else Raise KeyError
  end.

End OddsCleaning.

(** What a string begins with. *)
Definition begins_outside (k : char_class) (s : string) : Prop :=
  match s with
  | String c _ => class_matches k c = false
  | EmptyString => True
  end.

(** ** The sinks and [main] (MLB2025.py, lines 35-46, 57-68 and 203-226) *)

Inductive severity : Set := LogInfo | LogWarning | LogError | LogCritical.

Inductive sink_message : Set :=
  | ServiceAccountFileNotFound
  | FailedToAuthorize
  | CouldNotGetClient
  | WroteWorksheet (sheet_name : string)
  | WorksheetNotFoundIn (sheet_name : string)
  | FailedToWriteSheet (sheet_name : string)
  | SkippingSheetUpdate (sheet_name : string)
  | ScriptFinished.

Definition sink_entry : Set := severity * sink_message.

(** What [gspread.service_account] meets. *)
Inductive credentials : Set :=
  | CredentialsAccepted
  | CredentialsFileNotFound
  | CredentialsRejected.

Inductive gs_client : Set := GsClient.

(** [get_google_sheet_client] (lines 35-46): both [except] clauses log and
    return [None]. *)
Definition get_google_sheet_client (c : credentials) : option gs_client * list sink_entry :=
  match c with
  | CredentialsAccepted => (Some GsClient, [])
  | CredentialsFileNotFound => (None, [(LogError, ServiceAccountFileNotFound)])
  | CredentialsRejected => (None, [(LogError, FailedToAuthorize)])
  end.

(** The spreadsheet behind [GOOGLE_SHEET_KEY]: the cells of each worksheet,
    by title.  A call to the service either takes effect or fails and leaves
    the spreadsheet as it was; [service] names, for a worksheet, the call
    that fails when that worksheet is written (if any). *)
Abbreviation workbook := (gmap string table).

Inductive gspread_call : Set := OpenByKey | Clear | SetWithDataframe.

Definition service : Type := string -> option gspread_call.

Inductive gspread_exn : Set := WorksheetNotFound | APIError.

(** A call to gspread: it acts on the spreadsheet and returns or raises. *)
Definition gspread (A : Type) : Type := workbook -> (gspread_exn + A) * workbook.

Definition gs_bind {A B} (m : gspread A) (k : A -> gspread B) : gspread B :=
  fun wb =>
    match m wb with
    | (inl e, wb') => (inl e, wb')
    | (inr a, wb') => k a wb'
    end.

Definition fails (svc : service) (sheet_name : string) (call : gspread_call) : bool :=
  match svc sheet_name, call with
  | Some OpenByKey, OpenByKey | Some Clear, Clear
  | Some SetWithDataframe, SetWithDataframe => true
  | _, _ => false
  end.

Definition open_by_key (svc : service) (sheet_name : string) : gspread unit :=
  fun wb => if fails svc sheet_name OpenByKey then (inl APIError, wb) else (inr tt, wb).

Definition worksheet (sheet_name : string) : gspread unit :=
  fun wb =>
    match wb !! sheet_name with
    | Some _ => (inr tt, wb)
    | None => (inl WorksheetNotFound, wb)
    end.

Definition cleared : table := {| columns := []; rows := [] |}.

Definition clear (svc : service) (sheet_name : string) : gspread unit :=
  fun wb =>
    if fails svc sheet_name Clear then (inl APIError, wb)
    else (inr tt, <[sheet_name := cleared]> wb).

(** [set_with_dataframe(..., resize=True)]: the worksheet takes the size and
    the cells of the frame. *)
Definition set_with_dataframe (svc : service) (sheet_name : string) (dataframe : table)
  : gspread unit :=
  fun wb =>
    if fails svc sheet_name SetWithDataframe then (inl APIError, wb)
    else (inr tt, <[sheet_name := dataframe]> wb).

(** [write_df_to_sheet] (lines 57-68): the four calls in a [try]; both
    [except] clauses log and fall through. *)
Definition write_df_to_sheet (gs_client : gs_client) (svc : service) (sheet_name : string)
    (dataframe : table) (wb : workbook) : workbook * list sink_entry :=
  match
    gs_bind (open_by_key svc sheet_name) (fun _ =>
    gs_bind (worksheet sheet_name) (fun _ =>
    gs_bind (clear svc sheet_name) (fun _ =>
    set_with_dataframe svc sheet_name dataframe))) wb
  with
  | (inr _, wb') => (wb', [(LogInfo, WroteWorksheet sheet_name)])
  | (inl WorksheetNotFound, wb') => (wb', [(LogError, WorksheetNotFoundIn sheet_name)])
  | (inl APIError, wb') => (wb', [(LogError, FailedToWriteSheet sheet_name)])
  end.

Definition SBRI_SHEET_NAME : string := "SBRI_MLB".
Definition DRATE_SHEET_NAME : string := "DRate_MLB".

(** [if df is not None and not df.empty: write_df_to_sheet(gc, ...) else:
    logging.error(...)] *)
Definition update_sheet (gc : gs_client) (svc : service) (sheet_name : string)
    (df : option table) (wb : workbook) : workbook * list sink_entry :=
  match df with
  | Some dataframe =>
      if df_empty dataframe then (wb, [(LogError, SkippingSheetUpdate sheet_name)])
      else write_df_to_sheet gc svc sheet_name dataframe wb
  | None => (wb, [(LogError, SkippingSheetUpdate sheet_name)])
  end.

(** The frame [scrape_sbri_data] returns, as a table: [pd.DataFrame()] has
    neither rows nor columns, [pd.DataFrame(processed_rows)] has the keys of
    [game_data] as columns. *)
Definition sbri_frame (df : option (list (gmap string pyval))) : option table :=
  match df with
  | None => None
  | Some [] => Some {| columns := []; rows := [] |}
  | Some rows => Some {| columns := sbri_columns; rows := rows |}
  end.

(** [main] (lines 203-226).  The arguments [scrape_sbri] and
    [scrape_dratings] are what the two scrapers return or raise; they are
    called in turn, the second only when the first has returned, and an
    exception of either leaves [main] with the spreadsheet as it then
    stands. *)
Definition main (c : credentials) (svc : service)
    (scrape_sbri : result (option (list (gmap string pyval))))
    (scrape_dratings : result (option table * list log_entry))
    (wb : workbook) : result unit * workbook * list sink_entry :=
  match get_google_sheet_client c with
  | (None, log) => (Ok tt, wb, log ++ [(LogCritical, CouldNotGetClient)])
  | (Some gc, log) =>
      match scrape_sbri with
      | Raise e => (Raise e, wb, log)
      | Ok sbri_df =>
          let '(wb, log1) := update_sheet gc svc SBRI_SHEET_NAME (sbri_frame sbri_df) wb in
          match scrape_dratings with
          | Raise e => (Raise e, wb, log ++ log1)
          | Ok (dratings_df, _) =>
              let '(wb, log2) := update_sheet gc svc DRATE_SHEET_NAME dratings_df wb in
              (Ok tt, wb, log ++ log1 ++ log2 ++ [(LogInfo, ScriptFinished)])
          end
      end
  end.

(** ** The cloud function (mlb-sbri-drate/main.py) *)

Module Cloud.

(** [get_google_sheet_client] (lines 38-50): Application Default
    Credentials; any failure logs and returns [None]. *)
Definition get_google_sheet_client (adc_available : bool) : option gs_client * list sink_entry :=
  if adc_available then (Some GsClient, []) else (None, [(LogError, FailedToAuthorize)]).

(** The BigQuery data set: the rows of each table, by table id. *)
Abbreviation warehouse := (gmap string (list (gmap string pyval))).

(** The table ids; [PROJECT_ID] is read from the environment. *)
Definition DATASET_ID : string := "sports_betting".

Definition SBRI_TABLE_ID (PROJECT_ID : string) : string :=
  PROJECT_ID +:+ "." +:+ DATASET_ID +:+ ".sbri_mlb_odds".

Definition DRATE_TABLE_ID (PROJECT_ID : string) : string :=
  PROJECT_ID +:+ "." +:+ DATASET_ID +:+ ".dratings_mlb_probs".

(** [write_df_to_bigquery] (lines 74-107): nothing for an empty frame;
    otherwise a load job with [WRITE_APPEND], which creates the table when it
    does not exist, of the rows stamped with the time of the call ([now],
    by table, as each table is written once).  [load_fails] tells whether
    the client or the job raises for a table, in which case nothing is
    loaded; the [except] clause logs and falls through. *)
Definition write_df_to_bigquery (load_fails : string -> bool) (now : string -> pyval)
    (dataframe : table) (table_id : string) (wh : warehouse) : warehouse :=
  if df_empty dataframe then wh
  else if load_fails table_id then wh
  else
    let df_to_load :=
      map (fun r => <["scraped_at"%string := now table_id]> r) (rows dataframe) in
    <[table_id := wh !!! table_id ++ df_to_load]> wh.

(** The state the function acts on: the spreadsheet and the data set.  (Its
    log is not represented.) *)
Record sinks : Type := {
  sheets : workbook;
  tables : warehouse
}.

(** Lines 264-274 and 278-288: [if df is not None and not df.empty:] the
    sheet is written [if gc:], then the archive. *)
Definition process (gc : option gs_client) (svc : service) (load_fails : string -> bool)
    (now : string -> pyval) (sheet_name table_id : string) (df : option table) (s : sinks)
  : sinks :=
  match df with
  | Some dataframe =>
      if df_empty dataframe then s
      else
        {| sheets := match gc with
                     | Some gc => (write_df_to_sheet gc svc sheet_name dataframe (sheets s)).1
                     | None => sheets s
                     end;
           tables := write_df_to_bigquery load_fails now dataframe table_id (tables s) |}
  | None => s
  end.

(** [main(request)] (lines 252-291): the response is a message and an HTTP
    status. *)
Definition main (PROJECT_ID : string) (adc_available : bool) (svc : service)
    (load_fails : string -> bool) (now : string -> pyval)
    (scrape_sbri : result (option table)) (scrape_dratings : result (option table))
    (s : sinks) : result (string * Z) * sinks :=
  match get_google_sheet_client adc_available with
  | (None, _) => (Ok ("Authorization failed"%string, 500%Z), s)
  | (Some gc, _) =>
      match scrape_sbri with
      | Raise e => (Raise e, s)
      | Ok sbri_df =>
          let s := process (Some gc) svc load_fails now SBRI_SHEET_NAME
                     (SBRI_TABLE_ID PROJECT_ID) sbri_df s in
          match scrape_dratings with
          | Raise e => (Raise e, s)
          | Ok dratings_df =>
              let s := process (Some gc) svc load_fails now DRATE_SHEET_NAME
                         (DRATE_TABLE_ID PROJECT_ID) dratings_df s in
              (Ok ("Script finished successfully"%string, 200%Z), s)
          end
      end
  end.

End Cloud.

(** A frame of one forecast row, for the sinks. *)
Definition example_frame : table :=
  {| columns := ["Teams"]%string;
     rows := [ {["Teams"%string := PyStr "Pittsburgh Pirates (30-40) Houston Astros (41-29)"]} ] |}.

(** ** [scrape_ffwin_data] (Football2025.py, lines 340-368) *)

(** [df['AWAY'] + ' at ' + df['HOME']] on one row. *)
Definition ffwin_matchup (r : gmap string pyval) : pyval :=
  match r !! "AWAY"%string, r !! "HOME"%string with
  | Some (PyStr a), Some (PyStr h) => PyStr (a +:+ " at " +:+ h)
  | _, _ => PyFloat NaN
  end.

(** [df[c] = ...]: the column is appended when the frame does not have it. *)
Definition set_column (c : string) (f : gmap string pyval -> pyval) (df : table) : table :=
  {| columns := if has_column c df then columns df else columns df ++ [c];
     rows := map (fun r => <[c := f r]> r) (rows df) |}.

Section FFWin.

Variable has_str_accessor : table -> string -> bool.

(** [df[c] = df[c].str.strip()] on a frame read from a page: [df[c]]
    raises [KeyError] for an unknown column. *)
Definition ffwin_strip_column (c : string) (df : table) : result table :=
  if has_column c df then
    if has_str_accessor df c then Ok (map_column c str_strip_cell df)
    else Raise AttributeError
  else Raise KeyError.

(** The [try] block with its single [except RequestException] clause: the
    first table of the page is kept when it has three columns or more. *)
Definition ffwin_tables (resp : page_response) : result (list table) :=
  match resp with
  | PageRequestFailed => Ok []
  | PageNoTables => Raise ValueError
  | PageTables [] => Ok []
  | PageTables (t :: _) => Ok (if (3 <=? length (columns t))%nat then [t] else [])
  end.

(** [None] is the function's [return None]. *)
Definition scrape_ffwin_data (resp : page_response) : result (option table) :=
  all_dfs ← ffwin_tables resp;
  match all_dfs with
  | [] => Ok None
  | _ =>
      let df := pd_concat all_dfs in
      df ← ffwin_strip_column "HOME" df;
      df ← ffwin_strip_column "AWAY" df;
      let df := map_column "HOME" replace_team df in
      let df := map_column "AWAY" replace_team df in
      mret (Some (set_column "Matchup" ffwin_matchup df))
  end.

End FFWin.

(** The name a team cell resolves to: trimmed, then looked up in
    [TEAM_NAME_MAP]. *)
Definition full_name (s : string) : string :=
  match TEAM_NAME_MAP !! strip s with
  | Some full => full
  | None => strip s
  end.

(** What the post-processing of a frame of games makes of a row [r], with
    the home side in column [hc] and the away side in column [ac]: the other
    cells are kept; names in text are resolved and labelled "<away> at
    <home>"; a row without a name in text on either side has no label. *)
Definition named_row (hc ac : string) (r r' : gmap string pyval) : Prop :=
  (forall k, k <> hc -> k <> ac -> k <> "Matchup"%string -> r' !! k = r !! k) /\
  (forall h a, r !! hc = Some (PyStr h) -> r !! ac = Some (PyStr a) ->
     r' !! hc = Some (PyStr (full_name h)) /\
     r' !! ac = Some (PyStr (full_name a)) /\
     r' !! "Matchup"%string = Some (PyStr (full_name a +:+ " at " +:+ full_name h))) /\
  ((forall h, r !! hc <> Some (PyStr h)) \/ (forall a, r !! ac <> Some (PyStr a)) ->
     r' !! "Matchup"%string = Some (PyFloat NaN)).

(** A page of the win-probability site and a page whose first table is too
    narrow. *)
Definition example_ffwin_table : table :=
  {| columns := ["HOME"; "AWAY"; "WIN%"]%string;
     rows := [ list_to_map [("HOME", PyStr " Dallas"); ("AWAY", PyStr "Giants ");
                            ("WIN%", PyStr "61%")]%string ] |}.

(** The four column updates of the post-processing, on one row. *)
Definition resolve_names (hc ac : string) (r : gmap string pyval) : gmap string pyval :=
  map_cell ac replace_team
    (map_cell hc replace_team (map_cell ac str_strip_cell (map_cell hc str_strip_cell r))).

(** ** Further concrete inputs *)

(** The event of the moneyline example with a run line and a market the
    loop does not know, and the same event as another feed could list it. *)
Definition example_run_line : market :=
  {| mkt_name := PyStr "Run Line";
     selections :=
       [ {| sel_name := PyStr "Boston Red Sox"; price := PyFloat (Fin 1.80);
            currenthandicap := PyFloat (Fin (-1.5)); currentmatchhandicap := PyNone |};
         {| sel_name := PyStr "New York Yankees"; price := PyFloat (Fin 2.10);
            currenthandicap := PyFloat (Fin 1.5); currentmatchhandicap := PyNone |} ] |}.

Definition example_other_market : market :=
  {| mkt_name := PyStr "First Inning Result"; selections := [] |}.

Definition example_event_two_markets : event :=
  {| sportname := sportname example_event;
     tsstart := tsstart example_event;
     externaldescription := externaldescription example_event;
     shortnameaway := shortnameaway example_event;
     shortnamehome := shortnamehome example_event;
     markets := markets example_event ++ [example_other_market; example_run_line] |}.

Definition example_event_reordered : event :=
  {| sportname := sportname example_event;
     tsstart := tsstart example_event;
     externaldescription := externaldescription example_event;
     shortnameaway := shortnameaway example_event;
     shortnamehome := shortnamehome example_event;
     markets := example_run_line :: markets example_event |}.

(** An odds frame with the game of the first row of [example_page0], and
    stand-ins for the parsing of times and of percentages on the texts of
    the examples. *)
Definition example_odds_frame : table :=
  {| columns := sbri_columns;
     rows := [ list_to_map [("Sport", PyStr "Baseball");
                            ("GameStart", PyStr "2025-06-01T19:05:00");
                            ("Game", PyStr "New York Yankees @ Boston Red Sox");
                            ("AwayTeam", PyStr "New York Yankees");
                            ("HomeTeam", PyStr "Boston Red Sox");
                            ("Away MLOdds", PyFloat (Fin 105));
                            ("Home MLOdds", PyFloat (Fin (-125)))]%string ] |}.

Definition example_instant (cell : pyval) : option Z :=
  if py_eq cell (PyStr "06/01/2025 07:05 PM") || py_eq cell (PyStr "2025-06-01T19:05:00")
  then Some 200%Z
  else if py_eq cell (PyStr "06/01/2025 08:10 PM") then Some 210%Z
  else None.

Definition example_instants (cells : list pyval) : result (list (option Z)) :=
  Ok (map example_instant cells).

Definition example_to_numeric (s : string) : pyfloat :=
  if String.eqb s "48.1" then Fin 48.1
  else if String.eqb s "51.9" then Fin 51.9
  else if String.eqb s "55.0" then Fin 55
  else if String.eqb s "45.0" then Fin 45
  else NaN.

(** ** The converters on the scalars of Python and NumPy *)

(** An argument of [convert_to_american_odds]: a Python value, or a NumPy
    scalar of type [numpy.float64].  The latter is an instance of [float], so
    it passes the [isinstance] test, but its arithmetic is NumPy's: a
    division by zero gives an infinity (with a warning) and raises nothing.
    (The other NumPy scalars, [numpy.int64], [numpy.float32] and
    [numpy.bool_], are instances of neither [int] nor [float].) *)
Inductive scalar : Set :=
  | Python (v : pyval)
  | NumpyFloat64 (x : pyfloat).

(** [convert_to_american_odds] (MLB2025.py, lines 48-55) on a scalar. *)
Definition convert_to_american_odds_scalar (decimal_odds : scalar) : result pyval :=
  match decimal_odds with
  | Python v => convert_to_american_odds v
  | NumpyFloat64 x =>
      if pd_isna_f x then Ok PyNone
      else if fge x (Fin 2) then Ok (PyFloat (fsub (fmul x (Fin 100)) (Fin 100)))
      else Ok (PyFloat (fdiv (Fin (-100)) (fsub x (Fin 1))))
  end.

(** The arguments on which Python's [float()] behaves as [py_float] has it:
    an [int] is converted when it rounds to a finite binary64 number, that is
    below [2^1024 - 2^970] in magnitude; beyond, [float()] raises
    [OverflowError], which [py_float] does not represent. *)
Definition within_float_range (v : pyval) : Prop :=
  match v with
  | PyInt z => (Z.abs z < 2 ^ 1024 - 2 ^ 970)%Z
  | _ => True
  end.

(** * Properties *)

Lemma Qltb_lt (x y : Q) : Qltb x y = true <-> x < y.
Proof. unfold Qltb, Qlt. apply Z.ltb_lt. Qed.

Lemma Qltb_ge (x y : Q) : Qltb x y = false <-> y <= x.
Proof. unfold Qltb, Qle. rewrite Z.ltb_ge. reflexivity. Qed.

Lemma Qeq_bool_false (x y : Q) : Qeq_bool x y = false <-> ~ x == y.
Proof.
  split.
  - intros H E. apply Qeq_eq_bool in E. congruence.
  - intros H. destruct (Qeq_bool x y) eqn:E; [ | reflexivity ].
    apply Qeq_bool_eq in E. contradiction.
Qed.

Lemma fge_Fin (a b : Q) : fge (Fin a) (Fin b) = true <-> b <= a.
Proof.
  unfold fge, fle, flt, feqb. rewrite orb_true_iff, Qltb_lt, Qeq_bool_iff.
  split; [ intros [H | H]; lra | intros H ].
  destruct (Qlt_le_dec b a) as [L | L]; [ left; exact L | right; lra ].
Qed.

Lemma fge_Fin_false (a b : Q) : fge (Fin a) (Fin b) = false <-> a < b.
Proof.
  split.
  - intros H. destruct (Qlt_le_dec a b) as [L | L]; [ exact L | ].
    apply fge_Fin in L. congruence.
  - intros H. destruct (fge (Fin a) (Fin b)) eqn:E; [ | reflexivity ].
    apply fge_Fin in E. lra.
Qed.

Lemma fgt_Fin (a b : Q) : fgt (Fin a) (Fin b) = true <-> b < a.
Proof. unfold fgt, flt. apply Qltb_lt. Qed.

Lemma fgt_Fin_false (a b : Q) : fgt (Fin a) (Fin b) = false <-> a <= b.
Proof. unfold fgt, flt. apply Qltb_ge. Qed.

Lemma fis_zero_Fin (q : Q) : fis_zero (Fin q) = true <-> q == 0.
Proof. unfold fis_zero. apply Qeq_bool_iff. Qed.

Lemma fis_zero_Fin_false (q : Q) : fis_zero (Fin q) = false <-> ~ q == 0.
Proof. unfold fis_zero. apply Qeq_bool_false. Qed.

(** ** OddsConverter: decimal to American *)

Lemma real_value_inv (v : pyval) (d : Q) :
  real_value v = Some d ->
  exists n, as_num v = Some n /\ to_float n = Fin d /\ pd_isna v = false
            /\ isinstance_int_float v = true.
Proof.
  unfold real_value, isinstance_int_float. intros H.
  destruct v as [ | b | z | f | s ]; simpl in *; try discriminate.
  - exists (NInt (Z.b2z b)). inversion H. auto.
  - exists (NInt z). inversion H. auto.
  - destruct f; try discriminate. exists (NFloat (Fin q)). inversion H. auto.
Qed.

Lemma inject_Z_affine (z a b : Z) :
  inject_Z (z * a - b) == inject_Z z * inject_Z a - inject_Z b.
Proof. unfold Qeq, inject_Z. simpl. lia. Qed.

(** The positive branch: every real [d >= 2.0] is returned as [d*100 - 100]. *)
Lemma convert_to_american_odds_positive (v : pyval) (d : Q) :
  real_value v = Some d -> 2 <= d ->
  returns_real (convert_to_american_odds v) (d * 100 - 100).
Proof.
  intros Hv Hd. destruct (real_value_inv v d Hv) as (n & Hn & Hf & Hna & Hi).
  unfold convert_to_american_odds. rewrite Hna, Hi, Hn. simpl.
  assert (Hge : num_ge n (NFloat (Fin 2)) = true).
  { unfold num_ge. rewrite Hf. simpl to_float. apply fge_Fin. exact Hd. }
  rewrite Hge. destruct n as [z | f]; simpl in Hf.
  - inversion Hf; subst d. exists (PyInt (z * 100 - 100)), (inject_Z (z * 100 - 100)).
    repeat split. apply inject_Z_affine.
  - subst f. exists (PyFloat (Fin (d * 100 - 100))), (d * 100 - 100).
    repeat split.
Qed.

(** The negative branch: every real [d < 2.0] other than 1 is returned as
    [-100 / (d - 1)]. *)
Lemma convert_to_american_odds_negative (v : pyval) (d : Q) :
  real_value v = Some d -> d < 2 -> ~ d == 1 ->
  returns_real (convert_to_american_odds v) (-100 / (d - 1)).
Proof.
  intros Hv Hd H1. destruct (real_value_inv v d Hv) as (n & Hn & Hf & Hna & Hi).
  unfold convert_to_american_odds. rewrite Hna, Hi, Hn. simpl.
  assert (Hge : num_ge n (NFloat (Fin 2)) = false).
  { unfold num_ge. rewrite Hf. simpl to_float. apply fge_Fin_false. exact Hd. }
  rewrite Hge. unfold num_truediv, py_truediv.
  assert (Hs : exists x, to_float (num_sub n (NInt 1)) = Fin x /\ x == d - 1).
  { destruct n as [z | f]; simpl in Hf.
    - inversion Hf; subst d. exists (inject_Z (z - 1)). split; [ reflexivity | ].
      unfold Qeq, inject_Z. simpl. lia.
    - subst f. exists (d - 1). split; reflexivity. }
  destruct Hs as (x & Hx & Ex). rewrite Hx.
  assert (Hz : fis_zero (Fin x) = false).
  { apply fis_zero_Fin_false. intros E. apply H1. lra. }
  rewrite Hz. simpl. unfold fis_zero in Hz. rewrite Hz.
  eexists; eexists. split; [ reflexivity | ]. split; [ reflexivity | ].
  change (inject_Z (-100)) with (-100). rewrite Ex. reflexivity.
Qed.

(** At [d = 1] the negative branch divides by zero. *)
Lemma convert_to_american_odds_one (v : pyval) (d : Q) :
  real_value v = Some d -> d == 1 ->
  convert_to_american_odds v = Raise ZeroDivisionError.
Proof.
  intros Hv Hd. destruct (real_value_inv v d Hv) as (n & Hn & Hf & Hna & Hi).
  unfold convert_to_american_odds. rewrite Hna, Hi, Hn. simpl.
  assert (Hge : num_ge n (NFloat (Fin 2)) = false).
  { unfold num_ge. rewrite Hf. simpl to_float. apply fge_Fin_false. lra. }
  rewrite Hge. unfold num_truediv, py_truediv.
  assert (Hs : exists x, to_float (num_sub n (NInt 1)) = Fin x /\ x == d - 1).
  { destruct n as [z | f]; simpl in Hf.
    - inversion Hf; subst d. exists (inject_Z (z - 1)). split; [ reflexivity | ].
      unfold Qeq, inject_Z. simpl. lia.
    - subst f. exists (d - 1). split; reflexivity. }
  destruct Hs as (x & Hx & Ex). rewrite Hx.
  assert (Hz : fis_zero (Fin x) = true) by (apply fis_zero_Fin; lra).
  rewrite Hz. reflexivity.
Qed.

(** C4, as stated, requires a returned value on all of [1.0 <= d < 2.0]; at
    [d = 1.0] the function raises [ZeroDivisionError] and returns nothing. *)
Lemma convert_to_american_odds_boundary_one_raises :
  ~ (forall d : Q, 1 <= d -> d < 2 ->
       returns_real (convert_to_american_odds (PyFloat (Fin d))) (-100 / (d - 1))).
Proof.
  intros H. destruct (H 1) as (v & x & Hr & _); [ lra | lra | ].
  vm_compute in Hr. discriminate.
Qed.

(** C4 (amended): [convert_to_american_odds] returns [None] for an input that
    is not a real number or is NaN; for every real [d >= 2.0] it returns
    [d*100 - 100]; for every real [d] with [1.0 < d < 2.0] it returns
    [-100/(d - 1)]; and the boundary [d = 2.0] takes the positive branch,
    returning 100. *)
Theorem convert_to_american_odds_spec :
  (forall v, as_num v = None \/ v = PyFloat NaN ->
             convert_to_american_odds v = Ok PyNone) /\
  (forall v d, real_value v = Some d -> 2 <= d ->
               returns_real (convert_to_american_odds v) (d * 100 - 100)) /\
  (forall v d, real_value v = Some d -> 1 < d -> d < 2 ->
               returns_real (convert_to_american_odds v) (-100 / (d - 1))) /\
  convert_to_american_odds (PyFloat (Fin 2)) = Ok (PyFloat (Fin 100)).
Proof.
  split; [ | split; [ | split ] ].
  - intros v [H | H].
    + destruct v; simpl in H; try discriminate; reflexivity.
    + subst v. reflexivity.
  - exact convert_to_american_odds_positive.
  - intros v d Hv H1 H2. apply convert_to_american_odds_negative; auto. lra.
  - reflexivity.
Qed.

(** The amended statement of C4 at [1.91], [2.05] and a text input. *)
Lemma convert_to_american_odds_spec_witness :
  convert_to_american_odds (PyStr "n/a") = Ok PyNone /\
  returns_real (convert_to_american_odds (PyFloat (Fin 2.05))) (2.05 * 100 - 100) /\
  returns_real (convert_to_american_odds (PyFloat (Fin 1.91))) (-100 / (1.91 - 1)).
Proof.
  destruct convert_to_american_odds_spec as (H1 & H2 & H3 & _).
  split; [ apply H1; left; reflexivity | split ].
  - apply H2; [ reflexivity | lra ].
  - apply H3; [ reflexivity | lra | lra ].
Defined.

(** ** OddsConverter: American to decimal *)

Section ConverterFacts.

Variable float_of_str : string -> option pyfloat.

Lemma py_float_real (v : pyval) (x : Q) :
  real_value v = Some x ->
  py_float float_of_str v = Ok (Fin x) /\ pd_isna v = false /\ py_eq v (PyStr "") = false.
Proof.
  unfold real_value. destruct v as [ | b | z | f | s ]; simpl; try discriminate.
  - intros H; inversion H; auto.
  - intros H; inversion H; auto.
  - destruct f; try discriminate. intros H; inversion H; auto.
Qed.

Lemma convert_american_to_decimal_positive (v : pyval) (x : Q) :
  real_value v = Some x -> 0 < x ->
  convert_american_to_decimal float_of_str v = Ok (Fin (x / 100 + 1)).
Proof.
  intros Hv Hx. destruct (py_float_real v x Hv) as (Hf & Hna & He).
  unfold convert_american_to_decimal. rewrite Hna, He, Hf.
  cbn [orb mbind result_bind].
  assert (Hg : fgt (Fin x) (Fin 0) = true) by (apply fgt_Fin; exact Hx).
  rewrite Hg. reflexivity.
Qed.

Lemma convert_american_to_decimal_negative (v : pyval) (x : Q) :
  real_value v = Some x -> x < 0 ->
  convert_american_to_decimal float_of_str v = Ok (Fin (100 / Qabs x + 1)).
Proof.
  intros Hv Hx. destruct (py_float_real v x Hv) as (Hf & Hna & He).
  unfold convert_american_to_decimal. rewrite Hna, He, Hf.
  cbn [orb mbind result_bind].
  assert (Hg : fgt (Fin x) (Fin 0) = false) by (apply fgt_Fin_false; lra).
  rewrite Hg. unfold py_truediv. simpl fabs.
  assert (Hz : fis_zero (Fin (Qabs x)) = false).
  { apply fis_zero_Fin_false. apply Qabs_case; intros; lra. }
  rewrite Hz. simpl. unfold fis_zero in Hz. rewrite Hz. reflexivity.
Qed.

(** Any input that [float()] reads as zero takes the [else] branch, where
    [100 / abs(0.0)] raises; the handler catches only [ValueError] and
    [TypeError], so the exception leaves the function. *)
Lemma convert_american_to_decimal_raises (v : pyval) (q : Q) :
  pd_isna v = false -> py_eq v (PyStr "") = false ->
  py_float float_of_str v = Ok (Fin q) -> q == 0 ->
  convert_american_to_decimal float_of_str v = Raise ZeroDivisionError.
Proof.
  intros Hna He Hf Hq. unfold convert_american_to_decimal. rewrite Hna, He, Hf.
  cbn [orb mbind result_bind].
  assert (Hg : fgt (Fin q) (Fin 0) = false) by (apply fgt_Fin_false; lra).
  rewrite Hg. unfold py_truediv. simpl fabs.
  assert (Hz : fis_zero (Fin (Qabs q)) = true).
  { apply fis_zero_Fin. rewrite Hq. reflexivity. }
  rewrite Hz. reflexivity.
Qed.


(** C6: [convert_american_to_decimal] applied to zero (as an [int], a
    [float], or text that [float()] reads as zero) raises
    [ZeroDivisionError]; it returns no value, in particular no infinity. *)
Theorem convert_american_to_decimal_zero (v : pyval) (q : Q) :
  v <> PyStr "" ->
  py_float float_of_str v = Ok (Fin q) -> q == 0 ->
  convert_american_to_decimal float_of_str v = Raise ZeroDivisionError /\
  convert_american_to_decimal float_of_str v <> Ok PInf.
Proof.
  intros He Hf Hq.
  assert (H : convert_american_to_decimal float_of_str v = Raise ZeroDivisionError).
  { apply (convert_american_to_decimal_raises v q); auto.
    - destruct v as [ | b | z | f | s ]; simpl in *; try reflexivity; try congruence.
      destruct f; simpl in *; try reflexivity; congruence.
    - destruct v as [ | b | z | f | s ]; simpl; try reflexivity.
      unfold py_eq; simpl. apply bool_decide_eq_false. congruence. }
  split; [ exact H | rewrite H; discriminate ].
Qed.

End ConverterFacts.


(** The integer zero, with a [float()] that rejects every string. *)
Lemma convert_american_to_decimal_zero_witness :
  convert_american_to_decimal (fun _ => None) (PyInt 0) = Raise ZeroDivisionError /\
  convert_american_to_decimal (fun _ => None) (PyInt 0) <> Ok PInf.
Proof.
  apply (convert_american_to_decimal_zero (fun _ => None) (PyInt 0) 0).
  - discriminate.
  - reflexivity.
  - reflexivity.
Defined.

(** ** OddsRecordNormalizer *)

Section NormalizerFacts.

Variable to_numeric_str : string -> pyfloat.
Variable to_datetime : pyval -> result pyval.

Lemma raw_prices_insert_price (g : gmap string pyval) (k : string) (v : pyval) :
  raw_prices g -> v = PyNone \/ valid_decimal_price v -> raw_prices (<[k := v]> g).
Proof.
  intros Hg Hv col Hc. destruct (decide (k = col)) as [-> | Hne].
  - exists v. rewrite lookup_insert_eq. auto.
  - rewrite lookup_insert_ne by exact Hne. apply Hg, Hc.
Qed.

Lemma raw_prices_insert_other (g : gmap string pyval) (k : string) (v : pyval) :
  raw_prices g -> ~ In k odds_cols -> raw_prices (<[k := v]> g).
Proof.
  intros Hg Hk col Hc. rewrite lookup_insert_ne; [ apply Hg, Hc | ].
  intros ->. contradiction.
Qed.

Lemma raw_prices_initial (e : event) (t : pyval) : raw_prices (initial_game_data e t).
Proof.
  intros col Hc. exists PyNone. split; [ | left; reflexivity ].
  unfold odds_cols in Hc. simpl in Hc.
  destruct Hc as [<- | [<- | [<- | [<- | [<- | [<- | []]]]]]]; reflexivity.
Qed.

Ltac selection_step :=
  repeat match goal with
    | |- raw_prices (if ?c then _ else _) => destruct c
    | |- raw_prices (<[ _ := price _ ]> _) => apply raw_prices_insert_price; [ | right; assumption ]
    | |- raw_prices (<[ _ := _ ]> _) =>
        apply raw_prices_insert_other; [ | unfold odds_cols; simpl; intuition discriminate ]
    end; try assumption.

Lemma raw_prices_money_line g s :
  raw_prices g -> valid_decimal_price (price s) -> raw_prices (money_line_selection g s).
Proof. intros Hg Hs. unfold money_line_selection. selection_step. Qed.

Lemma raw_prices_run_line g s :
  raw_prices g -> valid_decimal_price (price s) -> raw_prices (run_line_selection g s).
Proof. intros Hg Hs. unfold run_line_selection. selection_step. Qed.

Lemma raw_prices_total_runs g s :
  raw_prices g -> valid_decimal_price (price s) -> raw_prices (total_runs_selection g s).
Proof. intros Hg Hs. unfold total_runs_selection. selection_step. Qed.

Lemma raw_prices_foldl (step : gmap string pyval -> selection -> gmap string pyval)
      (sels : list selection) :
  (forall g s, raw_prices g -> valid_decimal_price (price s) -> raw_prices (step g s)) ->
  forall g, raw_prices g ->
            (forall s, In s sels -> valid_decimal_price (price s)) ->
            raw_prices (foldl step g sels).
Proof.
  intros Hstep. induction sels as [ | s sels IH ]; intros g Hg Hs; simpl.
  - exact Hg.
  - apply IH.
    + apply Hstep; [ exact Hg | apply Hs; left; reflexivity ].
    + intros s' Hin. apply Hs. right. exact Hin.
Qed.

Lemma raw_prices_process_market g m :
  raw_prices g ->
  (forall s, In s (selections m) -> valid_decimal_price (price s)) ->
  raw_prices (process_market g m).
Proof.
  intros Hg Hs. unfold process_market.
  repeat match goal with
    | |- raw_prices (if ?c then _ else _) => destruct c
    | |- raw_prices (foldl money_line_selection _ _) =>
        apply raw_prices_foldl; [ exact raw_prices_money_line | | exact Hs ]
    | |- raw_prices (foldl run_line_selection _ _) =>
        apply raw_prices_foldl; [ exact raw_prices_run_line | | exact Hs ]
    | |- raw_prices (foldl total_runs_selection _ _) =>
        apply raw_prices_foldl; [ exact raw_prices_total_runs | | exact Hs ]
    end; exact Hg.
Qed.

Lemma raw_prices_game_data (e : event) (t : pyval) :
  (forall m s, In m (markets e) -> In s (selections m) -> valid_decimal_price (price s)) ->
  raw_prices (foldl process_market (initial_game_data e t) (markets e)).
Proof.
  generalize (raw_prices_initial e t). generalize (initial_game_data e t).
  induction (markets e) as [ | m ms IH ]; intros g Hg Hs; simpl.
  - exact Hg.
  - apply IH.
    + apply raw_prices_process_market; [ exact Hg | ].
      intros s Hin. apply (Hs m); [ left; reflexivity | exact Hin ].
    + intros m' s Hm Hin. apply (Hs m'); [ right; exact Hm | exact Hin ].
Qed.

(** A decimal price above 1 becomes American odds of magnitude at least 100. *)
Lemma american_magnitude (v : pyval) (d : Q) :
  real_value v = Some d -> 1 < d ->
  exists a, convert_to_american_odds v = Ok a /\ american_or_absent a.
Proof.
  intros Hv Hd. destruct (Qlt_le_dec d 2) as [L | L].
  - destruct (convert_to_american_odds_negative v d Hv L) as (a & x & Ha & Hx & Ex);
      [ lra | ].
    exists a. split; [ exact Ha | ]. right. exists x. split; [ exact Hx | ].
    assert (Hq : 100 <= 100 / (d - 1)) by (apply Qle_shift_div_l; lra).
    assert (Hn : - x == 100 / (d - 1)) by (rewrite Ex; field; lra).
    rewrite <- Qabs_opp. eapply Qle_trans; [ | apply Qle_Qabs ].
    rewrite Hn. exact Hq.
  - destruct (convert_to_american_odds_positive v d Hv L) as (a & x & Ha & Hx & Ex).
    exists a. split; [ exact Ha | ]. right. exists x. split; [ exact Hx | ].
    eapply Qle_trans; [ | apply Qle_Qabs ]. lra.
Qed.

Lemma to_numeric_real (v : pyval) (d : Q) :
  real_value v = Some d -> to_numeric to_numeric_str v = Fin d.
Proof.
  unfold real_value. destruct v as [ | b | z | f | s ]; simpl; try discriminate.
  - intros H; inversion H; reflexivity.
  - intros H; inversion H; reflexivity.
  - destruct f; try discriminate. intros H; inversion H; reflexivity.
Qed.

Lemma convert_raw_price (v : pyval) :
  v = PyNone \/ valid_decimal_price v ->
  exists a, convert_to_american_odds (PyFloat (to_numeric to_numeric_str v)) = Ok a
            /\ american_or_absent a.
Proof.
  intros [-> | (d & Hv & Hd)].
  - exists PyNone. split; [ reflexivity | left; reflexivity ].
  - rewrite (to_numeric_real v d Hv). apply (american_magnitude (PyFloat (Fin d)) d);
      [ reflexivity | exact Hd ].
Qed.

(** Converting the columns [cols] one after the other rewrites exactly those
    columns. *)
Lemma convert_cols_spec (cols : list string) :
  List.NoDup cols ->
  forall row : gmap string pyval,
    (forall col, In col cols ->
       exists v, row !! col = Some v /\ (v = PyNone \/ valid_decimal_price v)) ->
    exists row', foldl (convert_col to_numeric_str) (Ok row) cols = Ok row'
      /\ (forall col, In col cols -> exists a, row' !! col = Some a /\ american_or_absent a)
      /\ (forall k, ~ In k cols -> row' !! k = row !! k).
Proof.
  induction cols as [ | c cs IH ]; intros Hnd row Hrow.
  - exists row. simpl. repeat split; intros; contradiction || reflexivity.
  - apply List.NoDup_cons_iff in Hnd. destruct Hnd as [Hc Hnd].
    destruct (Hrow c (or_introl eq_refl)) as (v & Hv & Hp).
    destruct (convert_raw_price v Hp) as (a & Ha & Haa).
    assert (Hstep : convert_col to_numeric_str (Ok row) c = Ok (<[c := a]> row)).
    { unfold convert_col. cbn [mbind result_bind]. rewrite Hv, Ha. reflexivity. }
    change (foldl (convert_col to_numeric_str) (Ok row) (c :: cs))
      with (foldl (convert_col to_numeric_str) (convert_col to_numeric_str (Ok row) c) cs).
    rewrite Hstep.
    destruct (IH Hnd (<[c := a]> row)) as (row' & Hf & Hin & Hout).
    { intros col Hcol. rewrite lookup_insert_ne; [ apply Hrow; right; exact Hcol | ].
      intros ->. contradiction. }
    exists row'. split; [ exact Hf | split ].
    + intros col [<- | Hcol]; [ | apply Hin, Hcol ].
      exists a. rewrite (Hout c Hc), lookup_insert_eq. auto.
    + intros k Hk. rewrite Hout by (intros Hk'; apply Hk; right; exact Hk').
      apply lookup_insert_ne. intros ->. apply Hk. left. reflexivity.
Qed.

Lemma odds_cols_NoDup : List.NoDup odds_cols.
Proof.
  unfold odds_cols.
  repeat (apply List.NoDup_cons_iff; split; [ simpl; intuition discriminate | ]).
  apply List.NoDup_nil.
Qed.

(** C7: for every source event whose start time is readable and whose
    selection prices are decimal odds strictly greater than 1.0,
    normalisation succeeds and every price field of
    the record ("Away MLOdds", "Home MLOdds", "HomeSpreadOdds",
    "AwaySpreadOdds", "OverOdds", "UnderOdds") is absent or holds American
    odds of magnitude at least 100: never a raw decimal, never zero. *)
Theorem normalized_prices_american (e : event) (t : pyval) :
  to_datetime (tsstart e) = Ok t ->
  (forall m s, In m (markets e) -> In s (selections m) -> valid_decimal_price (price s)) ->
  exists row, normalize_event to_numeric_str to_datetime e = Ok row /\
    forall col, In col odds_cols ->
      exists a, row !! col = Some a /\ american_or_absent a.
Proof.
  intros Ht He. unfold normalize_event, game_data_of. rewrite Ht.
  cbn [mbind result_bind mret result_ret]. unfold convert_odds.
  destruct (convert_cols_spec odds_cols odds_cols_NoDup
              (foldl process_market (initial_game_data e t) (markets e))
              (raw_prices_game_data e t He))
    as (row & Hf & Hin & _).
  exists row. split; [ exact Hf | exact Hin ].
Qed.

(** A price field that is present is neither zero nor strictly between -100
    and 100, so it cannot be a decimal price of an ordinary market. *)
Lemma american_or_absent_nonzero (v : pyval) (a : Q) :
  american_or_absent v -> real_value v = Some a -> ~ a == 0 /\ (a <= -100 \/ 100 <= a).
Proof.
  intros [-> | (x & Hx & Habs)] Hv; [ discriminate | ].
  rewrite Hv in Hx. inversion Hx; subst x. revert Habs.
  apply Qabs_case; intros; split; lra.
Qed.

End NormalizerFacts.

Lemma normalized_prices_american_witness :
  exists row, normalize_event (fun _ => NaN) Ok example_event = Ok row /\
    forall col, In col odds_cols ->
      exists a, row !! col = Some a /\ american_or_absent a.
Proof.
  apply (normalized_prices_american (fun _ => NaN) Ok example_event (tsstart example_event));
    [ reflexivity | ].
  intros m s [<- | []] [<- | [<- | []]]; simpl.
  - exists 1.91. split; [ reflexivity | reflexivity ].
  - exists 2.05. split; [ reflexivity | reflexivity ].
Defined.

Example example_event_moneylines :
  exists row h a, normalize_event (fun _ => NaN) Ok example_event = Ok row /\
    row !! "Home MLOdds"%string = Some (PyFloat (Fin h)) /\ h == -10000 # 91 /\
    row !! "Away MLOdds"%string = Some (PyFloat (Fin a)) /\ a == 105.
Proof.
  eexists; eexists; eexists.
  split; [ vm_compute; reflexivity | ].
  split; [ vm_compute; reflexivity | ].
  split; [ reflexivity | ].
  split; [ vm_compute; reflexivity | reflexivity ].
Qed.

(** ** MultiPageTableCollector *)

Lemma scrape_page_raise (fetch : nat -> page_response) (e : exn) (n : nat) :
  scrape_page fetch (Raise e) n = Raise e.
Proof. reflexivity. Qed.

Lemma collect_raise (fetch : nat -> page_response) (e : exn) (pages : list nat) :
  foldl (scrape_page fetch) (Raise e) pages = Raise e.
Proof. induction pages as [ | n pages IH ]; simpl; auto. Qed.

(** A page without any table stops the whole loop: [ValueError] is not a
    [RequestException], so the [except] clause does not apply. *)
Lemma collect_no_tables (fetch : nat -> page_response) (pages : list nat) (n : nat) :
  In n pages -> fetch n = PageNoTables ->
  forall acc, acc = Raise ValueError \/ (exists st, acc = Ok st) ->
              foldl (scrape_page fetch) acc pages = Raise ValueError.
Proof.
  induction pages as [ | m pages IH ]; intros Hin Hn acc Hacc; [ contradiction | ].
  simpl. destruct Hacc as [-> | ((dfs & log) & ->)].
  - apply collect_raise.
  - destruct Hin as [-> | Hin].
    + unfold scrape_page at 2. cbn [mbind result_bind]. rewrite Hn. apply collect_raise.
    + apply IH; [ exact Hin | exact Hn | ].
      unfold scrape_page. cbn [mbind result_bind].
      destruct (fetch m) as [ | | ts ]; [ right; eauto | left; reflexivity | ].
      destruct (List.find (has_column "Pitchers") ts); right; eauto.
Qed.

Lemma scrape_dratings_data_no_tables (clean_up : table -> result table)
      (fetch : nat -> page_response) (n : nat) :
  (n < 3)%nat -> fetch n = PageNoTables ->
  scrape_dratings_data clean_up fetch = Raise ValueError.
Proof.
  intros Hlt Hn. unfold scrape_dratings_data, collect_pages.
  rewrite (collect_no_tables fetch (seq 0 3) n); [ reflexivity | | exact Hn | right; eauto ].
  apply in_seq. lia.
Qed.

(** A page whose request fails is skipped: the tables found so far are kept
    and the page is reported in the log. *)
Lemma scrape_page_request_failed (fetch : nat -> page_response)
      (all_dfs : list table) (log : list log_entry) (n : nat) :
  fetch n = PageRequestFailed ->
  scrape_page fetch (Ok (all_dfs, log)) n
  = Ok (all_dfs, log ++ [(INFO, ScrapingPage n); (WARNING, CouldNotScrapePage n)]).
Proof.
  intros H. unfold scrape_page. cbn [mbind result_bind]. rewrite H.
  rewrite <- app_assoc. reflexivity.
Qed.

Lemma scrape_page_found (fetch : nat -> page_response)
      (all_dfs : list table) (log : list log_entry) (n : nat)
      (page_tables : list table) (t : table) :
  fetch n = PageTables page_tables ->
  List.find (has_column "Pitchers") page_tables = Some t ->
  scrape_page fetch (Ok (all_dfs, log)) n
  = Ok (all_dfs ++ [t], log ++ [(INFO, ScrapingPage n); (INFO, FoundPitchersTable n)]).
Proof.
  intros H Hf. unfold scrape_page. cbn [mbind result_bind]. rewrite H, Hf.
  rewrite <- app_assoc. reflexivity.
Qed.

(** Three pages, the request for page 2 failing: the tables of pages 0 and 1
    are collected in order and exactly page 2 is reported as skipped. *)
Lemma collect_pages_request_failed (fetch : nat -> page_response)
      (ts0 ts1 : list table) (t0 t1 : table) :
  fetch 0%nat = PageTables ts0 -> List.find (has_column "Pitchers") ts0 = Some t0 ->
  fetch 1%nat = PageTables ts1 -> List.find (has_column "Pitchers") ts1 = Some t1 ->
  fetch 2%nat = PageRequestFailed ->
  exists log, collect_pages fetch 3 = Ok ([t0; t1], log) /\ skipped_pages log = [2%nat].
Proof.
  intros H0 F0 H1 F1 H2. unfold collect_pages. cbn [seq foldl].
  rewrite (scrape_page_found fetch [] [] 0 ts0 t0 H0 F0).
  rewrite (scrape_page_found fetch _ _ 1 ts1 t1 H1 F1).
  rewrite (scrape_page_request_failed fetch _ _ 2 H2).
  eexists. split; reflexivity.
Qed.

Lemma scrape_dratings_data_request_failed (clean_up : table -> result table)
      (fetch : nat -> page_response) (ts0 ts1 : list table) (t0 t1 : table) :
  fetch 0%nat = PageTables ts0 -> List.find (has_column "Pitchers") ts0 = Some t0 ->
  fetch 1%nat = PageTables ts1 -> List.find (has_column "Pitchers") ts1 = Some t1 ->
  fetch 2%nat = PageRequestFailed ->
  exists log,
    skipped_pages log = [2%nat] /\
    scrape_dratings_data clean_up fetch
    = (df ← drop_duplicates "Teams" (pd_concat [t0; t1]);
       df ← clean_up df;
       mret (Some df, log)).
Proof.
  intros H0 F0 H1 F1 H2.
  destruct (collect_pages_request_failed fetch ts0 ts1 t0 t1 H0 F0 H1 F1 H2)
    as (log & Hc & Hs).
  exists log. split; [ exact Hs | ].
  unfold scrape_dratings_data. rewrite Hc. reflexivity.
Qed.

(** [keep_first] keeps rows in their order, and no kept row repeats the key
    of a row kept before it or of a key already seen. *)
Lemma keep_first_sublist (key : string) (rs : list (gmap string pyval)) :
  forall seen, sublist (keep_first key seen rs) rs.
Proof.
  induction rs as [ | r rs IH ]; intros seen; simpl.
  - constructor.
  - destruct (existsb (same_cell (r !! key)) seen).
    + apply sublist_cons, IH.
    + apply sublist_skip, IH.
Qed.

Lemma keep_first_fresh (key : string) (rs : list (gmap string pyval)) :
  forall seen r, In r (keep_first key seen rs) ->
                 existsb (same_cell (r !! key)) seen = false.
Proof.
  induction rs as [ | r0 rs IH ]; intros seen r Hin; simpl in Hin; [ contradiction | ].
  destruct (existsb (same_cell (r0 !! key)) seen) eqn:E.
  - apply IH, Hin.
  - destruct Hin as [<- | Hin]; [ exact E | ].
    apply IH in Hin. simpl in Hin. apply orb_false_iff in Hin. apply Hin.
Qed.

Lemma keep_first_distinct (key : string) (rs : list (gmap string pyval)) :
  forall seen,
    ForallOrdPairs (fun earlier later => same_cell (later !! key) (earlier !! key) = false)
                   (keep_first key seen rs).
Proof.
  induction rs as [ | r rs IH ]; intros seen; simpl.
  - constructor.
  - destruct (existsb (same_cell (r !! key)) seen) eqn:E; [ apply IH | ].
    constructor; [ | apply IH ].
    apply List.Forall_forall. intros r' Hin.
    apply keep_first_fresh in Hin. simpl in Hin. apply orb_false_iff in Hin. apply Hin.
Qed.

(** A row is dropped only when an earlier row carries the same key. *)
Lemma keep_first_covers (key : string) (rs : list (gmap string pyval)) :
  forall seen r, In r rs ->
    existsb (same_cell (r !! key)) seen = true \/
    exists r', In r' (keep_first key seen rs) /\
               (r' = r \/ same_cell (r !! key) (r' !! key) = true).
Proof.
  induction rs as [ | r0 rs IH ]; intros seen r Hin; [ contradiction | ].
  simpl. destruct Hin as [-> | Hin].
  - destruct (existsb (same_cell (r !! key)) seen) eqn:E; [ left; reflexivity | ].
    right. exists r. split; [ left; reflexivity | left; reflexivity ].
  - destruct (existsb (same_cell (r0 !! key)) seen) eqn:E.
    + destruct (IH seen r Hin) as [H | (r' & H1 & H2)]; [ left; exact H | ].
      right. exists r'. split; assumption.
    + destruct (IH ((r0 !! key) :: seen) r Hin) as [H | (r' & H1 & H2)].
      * simpl in H. apply orb_true_iff in H. destruct H as [H | H].
        -- right. exists r0. split; [ left; reflexivity | right; exact H ].
        -- left. exact H.
      * right. exists r'. split; [ right; exact H1 | exact H2 ].
Qed.

(** With the request for page 2 failing, the three distinct games of pages 0
    and 1 are returned in page order, the repeated game once, and page 2 is
    reported as skipped. *)
Example scrape_dratings_data_page2_request_failed :
  exists log,
    scrape_dratings_data (fun df => Ok df) fetch_page2_request_failed
    = Ok (Some {| columns := ["Time"; "Teams"; "Pitchers"; "Win"]%string;
                  rows := rows example_page0 ++ [ List.nth 1 (rows example_page1) ∅ ] |},
          log)
    /\ skipped_pages log = [2%nat].
Proof. eexists. split; vm_compute; reflexivity. Qed.

(** C8 (the page loop at a parse failure): with pages 0 and 1 fine and page 2
    a document without tables, [pd.read_html] raises [ValueError], which the
    [except RequestException] clause does not catch: the collector raises and
    returns none of the rows of pages 0 and 1. *)
Theorem scrape_dratings_data_page2_no_tables (clean_up : table -> result table) :
  scrape_dratings_data clean_up fetch_page2_no_tables = Raise ValueError.
Proof. apply (scrape_dratings_data_no_tables clean_up fetch_page2_no_tables 2); [ lia | reflexivity ]. Qed.

(** ** FixedWidthTableParser *)

Section FixedWidthFacts.

Variable find_pre : string -> option string.
Variable read_fwf : string -> result table.
Variable has_str_accessor : table -> string -> bool.


(** A raised exception always ends in [None]. *)
Lemma scrape_tpt_data_raise (resp : tpt_response) (e : exn) :
  scrape_tpt_try find_pre read_fwf has_str_accessor resp = Raise e ->
  exists log, scrape_tpt_data find_pre read_fwf has_str_accessor resp = Ok (None, log).
Proof.
  intros H. unfold scrape_tpt_data. rewrite H. simpl.
  destruct (exn_eqb e RequestException); simpl; eexists; reflexivity.
Qed.

Lemma scrape_tpt_data_ok (resp : tpt_response) (r : option table * list log_entry) :
  scrape_tpt_try find_pre read_fwf has_str_accessor resp = Ok r -> scrape_tpt_data find_pre read_fwf has_str_accessor resp = Ok r.
Proof. intros H. unfold scrape_tpt_data. rewrite H. reflexivity. Qed.



End FixedWidthFacts.

(** One data line: the names are trimmed and resolved and the matchup label
    is "<away> at <home>".  The same block without the header phrase gives
    [None]. *)
Example scrape_tpt_data_example :
  (exists df log,
     scrape_tpt_data Some example_read_fwf (fun _ _ => true) (TptHtml example_tpt_text)
       = Ok (Some df, log) /\
     log = [(INFO, ParsedRows 1)] /\
     map (fun r => (r !! "Home"%string, r !! "Visitor"%string, r !! "Matchup"%string)) (rows df)
     = [ (Some (PyStr "Dallas Cowboys"), Some (PyStr "New York Giants"),
          Some (PyStr "New York Giants at Dallas Cowboys")) ]) /\
  scrape_tpt_data Some example_read_fwf (fun _ _ => true) (TptHtml "Totals")
    = Ok (None, [(ERROR, NoTableHeader)]) /\
  scrape_tpt_data (fun _ => None) example_read_fwf (fun _ _ => true) (TptHtml example_tpt_text)
    = Ok (None, [(ERROR, NoPreTag)]) /\
  scrape_tpt_data Some example_read_fwf (fun _ _ => true) TptRequestFailed
    = Ok (None, [(WARNING, CouldNotScrapeTPT)]) /\
  scrape_tpt_data Some example_read_fwf (fun _ _ => false) (TptHtml example_tpt_text)
    = Ok (None, [(ERROR, ErrorWhileParsing)]).
Proof.
  split; [ eexists; eexists; split; [ vm_compute; reflexivity | split; vm_compute; reflexivity ] | ].
  repeat split; vm_compute; reflexivity.
Qed.

(** ** ReconciliationEngine *)

(** *** Sorting by timestamp *)

Lemma timestamp_le_total (a b : option Z) :
  timestamp_le a b = false -> timestamp_le b a = true.
Proof.
  destruct a as [x | ], b as [y | ]; simpl; try congruence.
  intros H. apply Z.leb_gt in H. apply Z.leb_le. lia.
Qed.

Lemma timestamp_le_trans (a b c : option Z) :
  timestamp_le a b = true -> timestamp_le b c = true -> timestamp_le a c = true.
Proof.
  destruct a as [x | ], b as [y | ], c as [z | ]; simpl; try congruence.
  rewrite !Z.leb_le. lia.
Qed.

Section SortFacts.

Context {A : Type} (ts : A -> option Z).

Lemma insert_by_timestamp_perm (x : A) (l : list A) :
  Permutation (insert_by_timestamp ts x l) (x :: l).
Proof.
  induction l as [ | y l IH ]; simpl.
  - reflexivity.
  - destruct (timestamp_le (ts x) (ts y)); [ reflexivity | ].
    rewrite IH. apply perm_swap.
Qed.

Lemma sort_by_timestamp_perm (l : list A) : Permutation (sort_by_timestamp ts l) l.
Proof.
  induction l as [ | x l IH ]; simpl.
  - reflexivity.
  - rewrite insert_by_timestamp_perm. apply perm_skip, IH.
Qed.

Lemma sort_by_timestamp_In (l : list A) (x : A) :
  In x (sort_by_timestamp ts l) <-> In x l.
Proof.
  split; apply Permutation_in; [ | symmetry ]; apply sort_by_timestamp_perm.
Qed.

Lemma insert_by_timestamp_sorted (x : A) (l : list A) :
  Sorted (by_timestamp ts) l -> Sorted (by_timestamp ts) (insert_by_timestamp ts x l).
Proof.
  induction l as [ | y l IH ]; intros Hs; simpl.
  - repeat constructor.
  - destruct (timestamp_le (ts x) (ts y)) eqn:E.
    + constructor; [ exact Hs | constructor; exact E ].
    + inversion Hs as [ | ? ? Hs' Hhd ]; subst.
      constructor; [ apply IH; exact Hs' | ].
      destruct l as [ | z l ]; simpl.
      * constructor. apply timestamp_le_total, E.
      * destruct (timestamp_le (ts x) (ts z)).
        -- constructor. apply timestamp_le_total, E.
        -- inversion Hhd; subst. constructor. assumption.
Qed.

Lemma sort_by_timestamp_sorted (l : list A) : Sorted (by_timestamp ts) (sort_by_timestamp ts l).
Proof.
  induction l as [ | x l IH ]; simpl.
  - constructor.
  - apply insert_by_timestamp_sorted, IH.
Qed.

(** Ascending order: every row is at or before every row that follows it. *)
Lemma sort_by_timestamp_ascending (l : list A) :
  StronglySorted (by_timestamp ts) (sort_by_timestamp ts l).
Proof.
  apply Sorted_StronglySorted; [ | apply sort_by_timestamp_sorted ].
  intros x y z. unfold by_timestamp. apply timestamp_le_trans.
Qed.

End SortFacts.

(** *** [mapM] *)

Lemma mapM_Forall2 {A B} (f : A -> result B) (l : list A) :
  forall l', mapM f l = Ok l' -> Forall2 (fun x y => f x = Ok y) l l'.
Proof.
  induction l as [ | x l IH ]; intros l' H; simpl in H.
  - inversion H. constructor.
  - destruct (f x) as [y | e] eqn:Hx; cbn [mbind result_bind] in H; [ | discriminate ].
    destruct (mapM f l) as [ys | e] eqn:Hl; cbn [mbind result_bind] in H; [ | discriminate ].
    inversion H; subst. constructor; [ exact Hx | apply IH; reflexivity ].
Qed.

Lemma mapM_returns {A B} (f : A -> result B) (l : list A) :
  (forall x, In x l -> exists y, f x = Ok y) -> exists l', mapM f l = Ok l'.
Proof.
  induction l as [ | x l IH ]; intros H; simpl.
  - eexists; reflexivity.
  - destruct (H x (or_introl eq_refl)) as (y & Hy). rewrite Hy.
    destruct IH as (ys & Hys); [ intros z Hz; apply H; right; exact Hz | ].
    rewrite Hys. eexists; reflexivity.
Qed.

Lemma Forall2_In_r {A B} (R : A -> B -> Prop) (l : list A) (l' : list B) (y : B) :
  Forall2 R l l' -> In y l' -> exists x, In x l /\ R x y.
Proof.
  induction 1 as [ | x0 y0 l l' Hxy _ IH ]; intros Hin; [ contradiction | ].
  destruct Hin as [<- | Hin].
  - exists x0. split; [ left; reflexivity | exact Hxy ].
  - destruct (IH Hin) as (x & Hx & Hr). exists x. split; [ right; exact Hx | exact Hr ].
Qed.

(** *** The left merge of the best bets *)

Lemma merge_left_In (merged_df : list classified_row) (bets : list analysis_row)
      (f : final_row) :
  In f (merge_left merged_df bets) ->
  In (base f) merged_df /\
  (f = without_best_bet (base f) \/
   exists a, In a bets /\ key (joined (base f)) = key (joined (ready a))
             /\ f = with_best_bet (base f) a).
Proof.
  unfold merge_left. rewrite in_flat_map. intros (c & Hc & Hf).
  destruct (List.filter _ bets) as [ | a0 ps ] eqn:E.
  - destruct Hf as [<- | []]. split; [ exact Hc | left; reflexivity ].
  - rewrite <- E in Hf. apply in_map_iff in Hf. destruct Hf as (a & <- & Ha).
    apply filter_In in Ha. destruct Ha as [Ha Hk].
    unfold key_eqb in Hk. apply bool_decide_eq_true in Hk.
    split; [ exact Hc | right ]. exists a. auto.
Qed.

Lemma merge_left_covers (merged_df : list classified_row) (bets : list analysis_row)
      (c : classified_row) :
  In c merged_df -> exists f, In f (merge_left merged_df bets) /\ base f = c.
Proof.
  intros Hc. unfold merge_left.
  destruct (List.filter (fun a => key_eqb (key (joined c)) (key (joined (ready a)))) bets)
    as [ | a0 ps ] eqn:E.
  - exists (without_best_bet c). split; [ | reflexivity ].
    apply in_flat_map. exists c. split; [ exact Hc | ]. rewrite E. left. reflexivity.
  - exists (with_best_bet c a0). split; [ | reflexivity ].
    apply in_flat_map. exists c. split; [ exact Hc | ]. rewrite E. left. reflexivity.
Qed.

(** *** Comparisons and [np.maximum] *)

Lemma flt_asym (x y : pyfloat) : flt x y = true -> flt y x = false.
Proof.
  destruct x as [a | | | ], y as [b | | | ]; simpl; try congruence.
  rewrite Qltb_lt, Qltb_ge. lra.
Qed.

Lemma feqb_not_flt (x y : pyfloat) :
  feqb x y = true -> flt x y = false /\ flt y x = false.
Proof.
  destruct x as [a | | | ], y as [b | | | ]; simpl; try congruence; auto.
  rewrite Qeq_bool_iff, !Qltb_ge. intros E. rewrite E. split; apply Qle_refl.
Qed.

Lemma np_maximum_left (x y : pyfloat) : fgt x y = true -> np_maximum x y = x.
Proof.
  unfold fgt. intros H. pose proof (flt_asym y x H) as Hn.
  destruct x, y; simpl in *; try congruence; rewrite ?Hn; reflexivity.
Qed.

Lemma np_maximum_right (x y : pyfloat) : fgt y x = true -> np_maximum x y = y.
Proof.
  unfold fgt. intros H.
  destruct x, y; simpl in *; try congruence; rewrite ?H; reflexivity.
Qed.

Lemma np_maximum_equal (x y : pyfloat) : feqb x y = true -> np_maximum x y = x.
Proof.
  intros H. destruct (feqb_not_flt x y H) as [Hn _].
  destruct x, y; simpl in *; try congruence; rewrite ?Hn; reflexivity.
Qed.

Lemma feqb_refl_of_eq (x y : pyfloat) : feqb x y = true -> feqb x x = true.
Proof.
  destruct x, y; simpl; try congruence. intros _. apply Qeq_bool_iff. reflexivity.
Qed.

(** *** One row of the analysis *)

Section ReconciliationFacts.

Variable float_of_str : string -> option pyfloat.

(** On a cell, [convert_american_to_decimal] raises exactly at zero. *)
Lemma convert_american_to_decimal_cell (x : pyfloat) :
  fis_zero x = false ->
  exists d, convert_american_to_decimal float_of_str (PyFloat x) = Ok d.
Proof.
  intros Hz. unfold convert_american_to_decimal.
  destruct x as [q | | | ]; cbn [pd_isna pd_isna_f py_eq as_num orb py_float mbind result_bind].
  - destruct (fgt (Fin q) (Fin 0)); [ eexists; reflexivity | ].
    unfold py_truediv. simpl fabs.
    assert (Ha : fis_zero (Fin (Qabs q)) = false).
    { apply fis_zero_Fin_false. apply fis_zero_Fin_false in Hz.
      apply Qabs_case; intros; lra. }
    rewrite Ha. eexists; reflexivity.
  - eexists; reflexivity.
  - eexists; reflexivity.
  - eexists; reflexivity.
Qed.

Lemma analyse_returns (c : classified_row) :
  fis_zero (Home_MLOdds (joined c)) = false ->
  fis_zero (Away_MLOdds (joined c)) = false ->
  exists a, analyse float_of_str c = Ok a.
Proof.
  intros Hh Ha. unfold analyse.
  destruct (convert_american_to_decimal_cell _ Hh) as (dh & ->).
  destruct (convert_american_to_decimal_cell _ Ha) as (da & ->).
  eexists; reflexivity.
Qed.

Lemma analyse_inv (c : classified_row) (a : analysis_row) :
  analyse float_of_str c = Ok a ->
  exists dh da,
    convert_american_to_decimal float_of_str (PyFloat (Home_MLOdds (joined c))) = Ok dh /\
    convert_american_to_decimal float_of_str (PyFloat (Away_MLOdds (joined c))) = Ok da /\
    a = {| ready := c;
           HomeDecimalOdds := dh;
           AwayDecimalOdds := da;
           HomeImpliedProb := fdiv (Fin 1) dh;
           AwayImpliedProb := fdiv (Fin 1) da;
           HomeValue := fsub (fmul (HomeWinProb_pred (joined c)) dh) (Fin 1);
           AwayValue := fsub (fmul (AwayWinProb_pred (joined c)) da) (Fin 1);
           BestBetTeam :=
             if fgt (fsub (fmul (HomeWinProb_pred (joined c)) dh) (Fin 1))
                    (fsub (fmul (AwayWinProb_pred (joined c)) da) (Fin 1))
             then HomeTeam (key (joined c)) else AwayTeam (key (joined c));
           BestBetValue :=
             np_maximum (fsub (fmul (HomeWinProb_pred (joined c)) dh) (Fin 1))
                        (fsub (fmul (AwayWinProb_pred (joined c)) da) (Fin 1)) |}.
Proof.
  unfold analyse. intros H.
  destruct (convert_american_to_decimal float_of_str (PyFloat (Home_MLOdds (joined c))))
    as [dh | e]; cbn [mbind result_bind] in H; [ | discriminate ].
  destruct (convert_american_to_decimal float_of_str (PyFloat (Away_MLOdds (joined c))))
    as [da | e]; cbn [mbind result_bind] in H; [ | discriminate ].
  exists dh, da. inversion H. auto.
Qed.

(** One row: what [analyse] returns when neither moneyline is zero. *)
Lemma analyse_spec (c : classified_row) :
  fis_zero (Home_MLOdds (joined c)) = false ->
  fis_zero (Away_MLOdds (joined c)) = false ->
  exists a,
    analyse float_of_str c = Ok a /\ ready a = c /\
    convert_american_to_decimal float_of_str (PyFloat (Home_MLOdds (joined c)))
      = Ok (HomeDecimalOdds a) /\
    convert_american_to_decimal float_of_str (PyFloat (Away_MLOdds (joined c)))
      = Ok (AwayDecimalOdds a) /\
    HomeImpliedProb a = fdiv (Fin 1) (HomeDecimalOdds a) /\
    AwayImpliedProb a = fdiv (Fin 1) (AwayDecimalOdds a) /\
    HomeValue a = fsub (fmul (HomeWinProb_pred (joined c)) (HomeDecimalOdds a)) (Fin 1) /\
    AwayValue a = fsub (fmul (AwayWinProb_pred (joined c)) (AwayDecimalOdds a)) (Fin 1) /\
    (fgt (HomeValue a) (AwayValue a) = true ->
       BestBetTeam a = HomeTeam (key (joined c)) /\ BestBetValue a = HomeValue a) /\
    (fgt (AwayValue a) (HomeValue a) = true ->
       BestBetTeam a = AwayTeam (key (joined c)) /\ BestBetValue a = AwayValue a).
Proof.
  intros Hh Ha. destruct (analyse_returns c Hh Ha) as (a & Han).
  exists a. split; [ exact Han | ].
  destruct (analyse_inv c a Han) as (dh & da & Hdh & Hda & ->). cbn.
  repeat (split; [ first [ reflexivity | assumption ] | ]).
  split; intros Hgt.
  - rewrite Hgt. split; [ reflexivity | apply np_maximum_left, Hgt ].
  - pose proof (flt_asym _ _ Hgt) as Hn. unfold fgt in *. rewrite Hn.
    split; [ reflexivity | apply np_maximum_right, Hgt ].
Qed.

(** One row: [np.where] takes the away team unless the home value is
    strictly greater, and [np.maximum] of equal values is that value. *)
Lemma analyse_equal_values (c : classified_row) (a : analysis_row) :
  analyse float_of_str c = Ok a ->
  (feqb (HomeValue a) (AwayValue a) = true ->
     BestBetTeam a = AwayTeam (key (joined c)) /\
     BestBetValue a = HomeValue a /\ feqb (BestBetValue a) (AwayValue a) = true) /\
  (fgt (HomeValue a) (AwayValue a) = false -> BestBetTeam a = AwayTeam (key (joined c))).
Proof.
  intros Han. destruct (analyse_inv c a Han) as (dh & da & _ & _ & ->). cbn.
  split.
  - intros He. destruct (feqb_not_flt _ _ He) as [_ Hn].
    unfold fgt. rewrite Hn. rewrite (np_maximum_equal _ _ He). auto.
  - intros Hn. rewrite Hn. reflexivity.
Qed.

End ReconciliationFacts.

(** *** The whole analysis *)

Lemma merge_left_nil (merged_df : list classified_row) :
  merge_left merged_df [] = map without_best_bet merged_df.
Proof.
  induction merged_df as [ | c l IH ]; [ reflexivity | ].
  change (merge_left (c :: l) []) with ([without_best_bet c] ++ merge_left l []).
  rewrite IH. reflexivity.
Qed.

Lemma merged_sorted_In (sbri_df : list sbri_row) (dratings_df : list dratings_row)
      (c : classified_row) :
  In c (merged_sorted sbri_df dratings_df) <->
  exists m, In m (pd_merge_outer sbri_df dratings_df) /\ c = classify m.
Proof.
  unfold merged_sorted. rewrite sort_by_timestamp_In, in_map_iff.
  split; intros (m & H1 & H2); exists m; auto.
Qed.

Lemma status_eqb_eq (a b : status) : status_eqb a b = true <-> a = b.
Proof. destruct a, b; simpl; split; congruence. Qed.

Section AnalysisFacts.

Variable float_of_str : string -> option pyfloat.

Lemma perform_baseball_analysis_output
      (sbri_df : list sbri_row) (dratings_df : list dratings_row) (out : list final_row) :
  perform_baseball_analysis float_of_str (Some sbri_df) (Some dratings_df) = Ok out ->
  exists bets,
    out = sort_by_timestamp (fun f => row_timestamp (base f))
            (merge_left (merged_sorted sbri_df dratings_df) bets) /\
    forall a, In a bets -> positive_bet_of float_of_str sbri_df dratings_df a.
Proof.
  unfold perform_baseball_analysis.
  destruct (pd_merge_outer sbri_df dratings_df) as [ | m0 ms ] eqn:Em.
  - intros H. inversion H. exists []. split; [ | intros a [] ].
    unfold merged_sorted. rewrite Em. reflexivity.
  - destruct (List.filter is_ready (merged_sorted sbri_df dratings_df)) as [ | c0 cs ] eqn:Er.
    + intros H. inversion H. exists []. split; [ | intros a [] ].
      rewrite merge_left_nil. reflexivity.
    + unfold analysis_ready. rewrite Er.
      destruct (mapM (analyse float_of_str) (c0 :: cs)) as [rows | e] eqn:EM;
        cbn [mbind result_bind]; [ | discriminate ].
      intros H. inversion H. exists (List.filter is_positive_value_bet rows).
      split; [ reflexivity | ].
      intros a Ha. apply filter_In in Ha. destruct Ha as [Ha Hpos].
      destruct (Forall2_In_r _ _ _ a (mapM_Forall2 _ _ _ EM) Ha) as (c & Hc & Hca).
      destruct (analyse_inv float_of_str c a Hca) as (dh & da & _ & _ & Hrec).
      assert (Hr : ready a = c) by (rewrite Hrec; reflexivity).
      rewrite <- Er in Hc. apply filter_In in Hc. destruct Hc as [Hc Hready].
      unfold positive_bet_of. rewrite Hr.
      repeat split; [ exact Hc | apply status_eqb_eq, Hready | exact Hca | exact Hpos ].
Qed.

(** The analysis raises only through a zero moneyline on a ready row. *)
Lemma perform_baseball_analysis_returns
      (sbri_df : list sbri_row) (dratings_df : list dratings_row) :
  (forall m, In m (pd_merge_outer sbri_df dratings_df) ->
             status_of m = ReadyForAnalysis ->
             fis_zero (Home_MLOdds m) = false /\ fis_zero (Away_MLOdds m) = false) ->
  exists out, perform_baseball_analysis float_of_str (Some sbri_df) (Some dratings_df) = Ok out.
Proof.
  intros Hz. unfold perform_baseball_analysis.
  destruct (pd_merge_outer sbri_df dratings_df) as [ | m0 ms ] eqn:Em; [ eexists; reflexivity | ].
  destruct (List.filter is_ready (merged_sorted sbri_df dratings_df)) as [ | c0 cs ] eqn:Er;
    [ eexists; reflexivity | ].
  unfold analysis_ready. rewrite Er.
  destruct (mapM_returns (analyse float_of_str) (c0 :: cs)) as (rows & ->);
    [ | eexists; reflexivity ].
  intros c Hc. rewrite <- Er in Hc. apply filter_In in Hc. destruct Hc as [Hc Hready].
  apply merged_sorted_In in Hc. destruct Hc as (m & Hm & ->).
  rewrite Em in Hm. destruct (Hz m Hm) as [Hh Ha].
  - apply status_eqb_eq in Hready. exact Hready.
  - apply analyse_returns; assumption.
Qed.

(** [analysis_ready_df] holds the ReadyForAnalysis rows of [merged_df], each
    analysed once, in their order. *)
Lemma analysis_ready_inv
      (sbri_df : list sbri_row) (dratings_df : list dratings_row) (rows : list analysis_row) :
  analysis_ready float_of_str sbri_df dratings_df = Ok rows ->
  map ready rows = List.filter is_ready (merged_sorted sbri_df dratings_df) /\
  forall a, In a rows ->
            analyse float_of_str (ready a) = Ok a /\
            In (ready a) (merged_sorted sbri_df dratings_df) /\
            Status (ready a) = ReadyForAnalysis.
Proof.
  unfold analysis_ready. intros H. apply mapM_Forall2 in H.
  assert (Hr : Forall2 (fun c a => ready a = c /\ analyse float_of_str (ready a) = Ok a)
                       (List.filter is_ready (merged_sorted sbri_df dratings_df)) rows).
  { eapply Forall2_impl; [ exact H | ]. intros c a Hca. simpl in Hca.
    destruct (analyse_inv float_of_str c a Hca) as (dh & da & _ & _ & Hrec).
    assert (E : ready a = c) by (rewrite Hrec; reflexivity).
    rewrite E. auto. }
  split.
  - clear H. induction Hr as [ | c a l l' [Hc _] _ IH ]; simpl; [ reflexivity | ].
    rewrite Hc, IH. reflexivity.
  - intros a Ha. destruct (Forall2_In_r _ _ _ a Hr Ha) as (c & Hc & Hca & Han).
    split; [ exact Han | ]. rewrite Hca.
    apply filter_In in Hc. destruct Hc as [Hc Hready].
    split; [ exact Hc | apply status_eqb_eq, Hready ].
Qed.


(** C10: in every row of [analysis_ready_df] whose home and away values are
    equal, the best bet is the away team and the best value is the shared
    value; the home team is chosen only when its value is strictly greater. *)
Theorem equal_values_choose_away
      (sbri_df : list sbri_row) (dratings_df : list dratings_row)
      (rows : list analysis_row) (a : analysis_row) :
  analysis_ready float_of_str sbri_df dratings_df = Ok rows -> In a rows ->
  Status (ready a) = ReadyForAnalysis /\
  (feqb (HomeValue a) (AwayValue a) = true ->
     BestBetTeam a = AwayTeam (key (joined (ready a))) /\
     BestBetValue a = HomeValue a /\ feqb (BestBetValue a) (AwayValue a) = true) /\
  (fgt (HomeValue a) (AwayValue a) = false ->
     BestBetTeam a = AwayTeam (key (joined (ready a)))) /\
  (BestBetTeam a <> AwayTeam (key (joined (ready a))) ->
     fgt (HomeValue a) (AwayValue a) = true).
Proof.
  intros Hrows Ha.
  destruct (analysis_ready_inv sbri_df dratings_df rows Hrows) as [_ Hall].
  destruct (Hall a Ha) as (Han & _ & Hst).
  destruct (analyse_equal_values float_of_str (ready a) a Han) as [He Hn].
  repeat split; try assumption; try (apply He; assumption).
  intros Hne. destruct (fgt (HomeValue a) (AwayValue a)) eqn:E; [ reflexivity | ].
  contradiction (Hne (Hn eq_refl)).
Qed.

(** With finite inputs the same row, in ordinary arithmetic: decimal odds as
    the specification defines [americanToDecimal], its reciprocal, and the
    expected-value edge. *)
Lemma analyse_finite (c : classified_row) (h w ph pw : Q) :
  Home_MLOdds (joined c) = Fin h -> Away_MLOdds (joined c) = Fin w ->
  HomeWinProb_pred (joined c) = Fin ph -> AwayWinProb_pred (joined c) = Fin pw ->
  ~ h == 0 -> ~ w == 0 ->
  exists a dh dw ih iw,
    analyse float_of_str c = Ok a /\
    HomeDecimalOdds a = Fin dh /\ dh == american_to_decimal_spec h /\
    AwayDecimalOdds a = Fin dw /\ dw == american_to_decimal_spec w /\
    HomeImpliedProb a = Fin ih /\ ih == 1 / dh /\
    AwayImpliedProb a = Fin iw /\ iw == 1 / dw /\
    HomeValue a = Fin (ph * dh - 1) /\ AwayValue a = Fin (pw * dw - 1) /\
    1 <= dh /\ 1 <= dw.
Proof.
  intros Hh Hw Hph Hpw Hh0 Hw0.
  assert (Hconv : forall x, ~ x == 0 ->
            exists d, convert_american_to_decimal float_of_str (PyFloat (Fin x)) = Ok (Fin d)
                      /\ d == american_to_decimal_spec x /\ 1 <= d).
  { intros x Hx. unfold american_to_decimal_spec.
    destruct (Qlt_le_dec 0 x) as [L | L].
    - exists (x / 100 + 1). split; [ | split ].
      + apply convert_american_to_decimal_positive; [ reflexivity | exact L ].
      + apply Qltb_lt in L. rewrite L. reflexivity.
      + assert (0 <= x / 100) by (apply Qle_shift_div_l; lra). lra.
    - exists (100 / Qabs x + 1). split; [ | split ].
      + apply convert_american_to_decimal_negative; [ reflexivity | lra ].
      + apply Qltb_ge in L. rewrite L. reflexivity.
      + assert (0 < Qabs x) by (apply Qabs_case; intros; lra).
        assert (0 <= 100 / Qabs x) by (apply Qle_shift_div_l; lra). lra. }
  destruct (Hconv h Hh0) as (dh & Hdh & Edh & Ldh).
  destruct (Hconv w Hw0) as (dw & Hdw & Edw & Ldw).
  assert (Zh : Qeq_bool dh 0 = false) by (apply Qeq_bool_false; lra).
  assert (Zw : Qeq_bool dw 0 = false) by (apply Qeq_bool_false; lra).
  eexists; exists dh, dw, (1 / dh), (1 / dw).
  unfold analyse. rewrite Hh, Hw, Hph, Hpw, Hdh, Hdw. cbn [mbind result_bind mret result_ret].
  split; [ reflexivity | ]. cbn. rewrite Zh, Zw.
  repeat split; try reflexivity; assumption.
Qed.

(** C1 (amended): in every row of the output the status is ReadyForAnalysis
    when the home moneyline and the home win probability are both present,
    MissingOdds when the home moneyline is absent, MissingPrediction when the
    home moneyline is present and the home win probability is absent; the
    three cases are tried in that order and Unknown never occurs. *)
Theorem status_from_home_side
      (sbri_df : option (list sbri_row)) (dratings_df : option (list dratings_row))
      (out : list final_row) (f : final_row) :
  perform_baseball_analysis float_of_str sbri_df dratings_df = Ok out -> In f out ->
  (notna (Home_MLOdds (joined (base f))) = true ->
   notna (HomeWinProb_pred (joined (base f))) = true ->
   Status (base f) = ReadyForAnalysis) /\
  (pd_isna_f (Home_MLOdds (joined (base f))) = true -> Status (base f) = MissingOdds) /\
  (notna (Home_MLOdds (joined (base f))) = true ->
   pd_isna_f (HomeWinProb_pred (joined (base f))) = true ->
   Status (base f) = MissingPrediction) /\
  Status (base f) <> Unknown.
Proof.
  intros Hout Hf.
  destruct sbri_df as [sbri | ], dratings_df as [dratings | ];
    try (inversion Hout; subst; contradiction).
  destruct (perform_baseball_analysis_output sbri dratings out Hout) as (bets & -> & _).
  apply sort_by_timestamp_In in Hf. apply merge_left_In in Hf. destruct Hf as [Hf _].
  apply merged_sorted_In in Hf. destruct Hf as (m & _ & ->).
  unfold classify, status_of, notna. cbn.
  destruct (Home_MLOdds m), (HomeWinProb_pred m); cbn;
    repeat split; intros; congruence.
Qed.

End AnalysisFacts.

Section ReadyRows.

Variable float_of_str : string -> option pyfloat.




End ReadyRows.

(** *** The analysis on concrete games *)

(** C1, as stated, asks for both sides: with the away moneyline absent the
    row should be Unknown, but the code reads the home side only and
    classifies it ReadyForAnalysis. *)
Lemma home_only_row_is_ready :
  exists out f,
    perform_baseball_analysis no_float_of_str (Some [boston_odds]) (Some [boston_forecast])
      = Ok out /\
    In f out /\
    pd_isna_f (Away_MLOdds (joined (base f))) = true /\
    status_both_sides (joined (base f)) = Unknown /\
    Status (base f) = ReadyForAnalysis /\
    Status (base f) <> status_both_sides (joined (base f)).
Proof.
  exists [without_best_bet boston_row], (without_best_bet boston_row).
  split; [ vm_compute; reflexivity | ].
  split; [ left; reflexivity | ].
  repeat split; try reflexivity. vm_compute. discriminate.
Qed.

Lemma status_from_home_side_witness :
  (notna (Home_MLOdds (joined boston_row)) = true ->
   notna (HomeWinProb_pred (joined boston_row)) = true ->
   Status boston_row = ReadyForAnalysis) /\
  (pd_isna_f (Home_MLOdds (joined boston_row)) = true -> Status boston_row = MissingOdds) /\
  (notna (Home_MLOdds (joined boston_row)) = true ->
   pd_isna_f (HomeWinProb_pred (joined boston_row)) = true ->
   Status boston_row = MissingPrediction) /\
  Status boston_row <> Unknown.
Proof.
  apply (status_from_home_side no_float_of_str (Some [boston_odds]) (Some [boston_forecast])
           [without_best_bet boston_row] (without_best_bet boston_row)).
  - vm_compute; reflexivity.
  - left; reflexivity.
Defined.

(** C2, as stated, carries a row without value with a best value [<= 0]:
    for the Chicago game both values are negative and the computed best
    value is negative, yet the output row holds NaN, which is not [<= 0]. *)
Lemma nonpositive_row_loses_best_bet :
  exists out f a,
    perform_baseball_analysis no_float_of_str (Some [chicago_odds]) (Some [chicago_forecast])
      = Ok out /\
    In f out /\
    Status (base f) = ReadyForAnalysis /\
    analyse no_float_of_str (base f) = Ok a /\
    fgt (HomeValue a) (Fin 0) = false /\
    fgt (AwayValue a) (Fin 0) = false /\
    fle (BestBetValue a) (Fin 0) = true /\
    final_BestBetTeam f = None /\
    final_BestBetValue f = NaN /\
    fle (final_BestBetValue f) (Fin 0) = false.
Proof.
  destruct (analyse no_float_of_str chicago_row) as [a | e] eqn:E;
    [ | vm_compute in E; discriminate ].
  exists [without_best_bet chicago_row], (without_best_bet chicago_row), a.
  split; [ vm_compute; reflexivity | ].
  split; [ left; reflexivity | ].
  split; [ reflexivity | ].
  split; [ exact E | ].
  vm_compute in E. injection E as <-.
  repeat split; reflexivity.
Qed.

(** The four games together: all four rows are returned in time order, and
    only Houston, whose home value is 0.25, carries a best bet. *)
Example four_games_output :
  exists out,
    perform_baseball_analysis no_float_of_str
      (Some [boston_odds; chicago_odds; houston_odds])
      (Some [boston_forecast; chicago_forecast; houston_forecast; miami_forecast]) = Ok out /\
    map (fun f => (Timestamp (key (joined (base f))), Status (base f), final_BestBetTeam f)) out
    = [ (Some 50%Z, MissingOdds, None);
        (Some 100%Z, ReadyForAnalysis, None);
        (Some 150%Z, ReadyForAnalysis, Some "Houston Astros"%string);
        (Some 200%Z, ReadyForAnalysis, None) ] /\
    map (fun f => feqb (final_BestBetValue f) (Fin 0.25)) out = [false; false; true; false].
Proof. eexists. split; [ vm_compute; reflexivity | split; vm_compute; reflexivity ]. Qed.


(** Houston at +150 / -170 against an even forecast: decimal odds 2.5 and
    27/17, home value 0.25, and the home team as best bet. *)
Example houston_analysis :
  exists a,
    analyse no_float_of_str houston_row = Ok a /\
    feqb (HomeDecimalOdds a) (Fin 2.5) = true /\
    feqb (AwayDecimalOdds a) (Fin (27 # 17)) = true /\
    feqb (HomeImpliedProb a) (Fin 0.4) = true /\
    feqb (HomeValue a) (Fin 0.25) = true /\
    BestBetTeam a = Some "Houston Astros"%string /\
    feqb (BestBetValue a) (Fin 0.25) = true.
Proof. eexists. split; [ vm_compute; reflexivity | repeat split; vm_compute; reflexivity ]. Qed.

Lemma equal_values_choose_away_witness :
  exists a,
    analysis_ready no_float_of_str [chicago_odds] [chicago_forecast] = Ok [a] /\
    feqb (HomeValue a) (AwayValue a) = true /\
    BestBetTeam a = Some "Cincinnati Reds"%string /\
    BestBetValue a = HomeValue a /\
    feqb (BestBetValue a) (AwayValue a) = true.
Proof.
  destruct (analyse no_float_of_str chicago_row) as [a | e] eqn:E;
    [ | vm_compute in E; discriminate ].
  assert (Hr : analysis_ready no_float_of_str [chicago_odds] [chicago_forecast] = Ok [a]).
  { change (mapM (analyse no_float_of_str) [chicago_row] = Ok [a]).
    cbn [mapM]. rewrite E. reflexivity. }
  exists a. split; [ exact Hr | ].
  destruct (equal_values_choose_away no_float_of_str [chicago_odds] [chicago_forecast]
              [a] a Hr (or_introl eq_refl)) as (_ & He & _).
  vm_compute in E. injection E as <-.
  split; [ reflexivity | ]. apply He. reflexivity.
Defined.

(** Chicago at -110 / -110 against an even forecast: equal values, so the
    away team is named. *)
Example chicago_analysis :
  exists a,
    analyse no_float_of_str chicago_row = Ok a /\
    feqb (HomeValue a) (AwayValue a) = true /\
    BestBetTeam a = Some "Cincinnati Reds"%string /\
    feqb (BestBetValue a) (HomeValue a) = true.
Proof. eexists. split; [ vm_compute; reflexivity | repeat split; vm_compute; reflexivity ]. Qed.

(** ** Further properties of the normaliser, the resolver and the join *)

Section NormalizerBatch.

Variable to_numeric_str : string -> pyfloat.
Variable to_datetime : pyval -> result pyval.
Variable sort_values : list string -> list (gmap string pyval) -> list (gmap string pyval).
Hypothesis sort_values_perm : forall by_cols df, Permutation (sort_values by_cols df) df.

(** An event without markets still gives a record, with its team and time
    fields and every price field absent. *)
Lemma normalize_event_no_markets (e : event) (t : pyval) :
  to_datetime (tsstart e) = Ok t -> markets e = [] ->
  exists row, normalize_event to_numeric_str to_datetime e = Ok row /\
    row !! "AwayTeam"%string = Some (shortnameaway e) /\
    row !! "HomeTeam"%string = Some (shortnamehome e) /\
    row !! "GameStart"%string = Some t /\
    forall col, In col odds_cols -> row !! col = Some PyNone.
Proof.
  intros Ht Hm. unfold normalize_event, game_data_of. rewrite Ht, Hm.
  cbn [mbind result_bind mret result_ret foldl].
  eexists. split; [ reflexivity | ].
  repeat split.
  intros col Hc. unfold odds_cols in Hc. simpl in Hc.
  destruct Hc as [<- | [<- | [<- | [<- | [<- | [<- | []]]]]]]; reflexivity.
Qed.

(** A start time that cannot be read stops the whole scrape: the event loop
    is not inside a [try]. *)
Lemma scrape_sbri_data_bad_start_time (e : event) (events : list event) (x : exn) :
  to_datetime (tsstart e) = Raise x ->
  scrape_sbri_data to_numeric_str to_datetime sort_values (FeedJson (e :: events)) = Raise x.
Proof.
  intros Ht.
  assert (Hg : mapM (game_data_of to_datetime) (e :: events) = Raise x).
  { cbn [mapM]. unfold game_data_of. rewrite Ht. reflexivity. }
  unfold scrape_sbri_data. rewrite Hg. reflexivity.
Qed.

(** The whole feed: when every start time is readable and every price of
    every event is a decimal price above 1, one record per event is returned
    and each satisfies the price invariant. *)
Lemma scrape_sbri_data_prices (events : list event) :
  (forall e, In e events -> exists t, to_datetime (tsstart e) = Ok t) ->
  (forall e m s, In e events -> In m (markets e) -> In s (selections m) ->
                 valid_decimal_price (price s)) ->
  exists df,
    scrape_sbri_data to_numeric_str to_datetime sort_values (FeedJson events) = Ok (Some df) /\
    length df = length events /\
    forall row, In row df ->
      forall col, In col odds_cols -> exists a, row !! col = Some a /\ american_or_absent a.
Proof.
  intros Ht Hp.
  assert (Hm : exists gs rows,
             mapM (game_data_of to_datetime) events = Ok gs
             /\ mapM (convert_odds to_numeric_str) gs = Ok rows
             /\ length gs = length events
             /\ length rows = length events
             /\ forall row, In row rows ->
                  forall col, In col odds_cols ->
                    exists a, row !! col = Some a /\ american_or_absent a).
  { induction events as [ | e es IH ].
    - exists [], []. repeat split; intros; contradiction.
    - destruct IH as (gs & rows & Hgs & Hrows & Hlg & Hlen & Hinv).
      { intros e' He'. apply Ht. right. exact He'. }
      { intros e' m s He'. apply Hp. right. exact He'. }
      destruct (Ht e (or_introl eq_refl)) as (t & Het).
      destruct (convert_cols_spec to_numeric_str odds_cols odds_cols_NoDup
                  (foldl process_market (initial_game_data e t) (markets e)))
        as (row & Hrow & Hr & _).
      { apply raw_prices_game_data. intros m s. apply Hp. left. reflexivity. }
      exists (foldl process_market (initial_game_data e t) (markets e) :: gs), (row :: rows).
      split; [ | split; [ | split; [ | split ] ] ].
      + assert (Hg : game_data_of to_datetime e
                     = Ok (foldl process_market (initial_game_data e t) (markets e)))
          by (unfold game_data_of; rewrite Het; reflexivity).
        cbn [mapM]. rewrite Hg. cbn [mbind result_bind]. rewrite Hgs. reflexivity.
      + assert (Hrow' : convert_odds to_numeric_str
                          (foldl process_market (initial_game_data e t) (markets e)) = Ok row)
          by exact Hrow.
        cbn [mapM]. rewrite Hrow'. cbn [mbind result_bind]. rewrite Hrows. reflexivity.
      + simpl. rewrite Hlg. reflexivity.
      + simpl. rewrite Hlen. reflexivity.
      + intros r [<- | Hin]; [ exact Hr | apply Hinv, Hin ]. }
  destruct Hm as (gs & rows & Hgs & Hrows & Hlg & Hlen & Hinv).
  unfold scrape_sbri_data. rewrite Hgs. cbn [mbind result_bind].
  destruct gs as [ | g gs ].
  - exists []. destruct events; [ | discriminate ].
    repeat split; intros; contradiction.
  - rewrite Hrows. cbn [mbind result_bind mret result_ret]. eexists. split; [ reflexivity | ].
    split.
    + rewrite (Permutation_length (sort_values_perm ["GameStart"; "AwayTeam"]%string rows)).
      exact Hlen.
    + intros row Hin. apply Hinv.
      apply (Permutation_in _ (sort_values_perm ["GameStart"; "AwayTeam"]%string rows)).
      exact Hin.
Qed.

End NormalizerBatch.

(** TeamNameResolver: the lookup is exact, an unknown name passes through,
    and no canonical name is itself a key, so resolving twice changes
    nothing. *)
Lemma replace_team_unknown (s : string) :
  TEAM_NAME_MAP !! s = None -> replace_team (PyStr s) = PyStr s.
Proof. intros H. unfold replace_team. rewrite H. reflexivity. Qed.

Example replace_team_examples :
  replace_team (PyStr "Jets") = PyStr "New York Jets" /\
  replace_team (PyStr "N.Y. Giants") = PyStr "New York Giants" /\
  replace_team (PyStr "jets") = PyStr "jets" /\
  replace_team (PyStr "Unknown City XYZ") = PyStr "Unknown City XYZ".
Proof. repeat split; vm_compute; reflexivity. Qed.

Lemma TEAM_NAME_MAP_canonical (short full : string) :
  TEAM_NAME_MAP !! short = Some full -> TEAM_NAME_MAP !! full = None.
Proof.
  intros H.
  assert (Hall : map_Forall (fun _ v => TEAM_NAME_MAP !! v = None) TEAM_NAME_MAP).
  { apply map_Forall_to_list. vm_compute.
    repeat (apply List.Forall_cons; [ reflexivity | ]). apply List.Forall_nil. }
  exact (Hall short full H).
Qed.

Lemma replace_team_idempotent (v : pyval) :
  replace_team (replace_team v) = replace_team v.
Proof.
  destruct v as [ | b | z | f | s ]; try reflexivity.
  assert (H : replace_team (PyStr s)
              = match TEAM_NAME_MAP !! s with Some full => PyStr full | None => PyStr s end)
    by reflexivity.
  rewrite H. destruct (TEAM_NAME_MAP !! s) as [full | ] eqn:E.
  - apply replace_team_unknown. apply (TEAM_NAME_MAP_canonical s full E).
  - apply replace_team_unknown, E.
Qed.

(** The outer join keeps an odds row that has no forecast: it appears once,
    with the forecast columns absent. *)
Lemma pd_merge_outer_odds_only (o : sbri_row) (dratings_df : list dratings_row) :
  (forall p, In p dratings_df -> dratings_key p <> sbri_key o) ->
  pd_merge_outer [o] dratings_df = left_only o :: map right_only dratings_df.
Proof.
  intros Hno. unfold pd_merge_outer. simpl flat_map.
  assert (Hf : forall l, (forall p, In p l -> dratings_key p <> sbri_key o) ->
             List.filter (fun p => key_eqb (sbri_key o) (dratings_key p)) l = []
             /\ List.filter (fun p => negb (existsb (fun o' => key_eqb (sbri_key o') (dratings_key p)) [o])) l
                = l).
  { induction l as [ | p l IH ]; intros Hl; [ split; reflexivity | ].
    destruct IH as [IH1 IH2]; [ intros q Hq; apply Hl; right; exact Hq | ].
    assert (Hk : key_eqb (sbri_key o) (dratings_key p) = false).
    { unfold key_eqb. apply bool_decide_eq_false. intros E. apply (Hl p); [ left; reflexivity | ].
      symmetry. exact E. }
    simpl. rewrite Hk. simpl. rewrite IH1. split; [ reflexivity | ].
    f_equal. exact IH2. }
  destruct (Hf dratings_df Hno) as [H1 H2]. rewrite H1, H2. rewrite app_nil_r. reflexivity.
Qed.

(** Boston priced by the feed but not forecast, next to a forecast for
    another game: Boston is returned once, classified MissingPrediction, and
    the forecast without odds is returned as MissingOdds. *)
Example odds_only_row_missing_prediction :
  exists out,
    perform_baseball_analysis no_float_of_str (Some [boston_odds]) (Some [miami_forecast])
      = Ok out /\
    map (fun f => (key (joined (base f)), Status (base f), final_BestBetTeam f)) out
    = [ (dratings_key miami_forecast, MissingOdds, None);
        (sbri_key boston_odds, MissingPrediction, None) ].
Proof. eexists. split; vm_compute; reflexivity. Qed.

(** An infinite decimal price stays on the positive branch. *)
Example convert_to_american_odds_infinity :
  convert_to_american_odds (PyFloat PInf) = Ok (PyFloat PInf).
Proof. reflexivity. Qed.

(** ** The converters evaluated on binary64 *)

(** The boundary 2.0 gives exactly 100; 1.0 and the American 0 raise. *)
Example b64_boundaries :
  b64_convert_to_american_odds 2%float = Ok (Some 100%float) /\
  b64_convert_to_american_odds 1%float = Raise ZeroDivisionError /\
  b64_convert_american_to_decimal 0%float = Raise ZeroDivisionError /\
  b64_convert_to_american_odds PrimFloat.nan = Ok None.
Proof. repeat split; vm_compute; reflexivity. Qed.

(** The round trip on decimal odds 2.00, 2.01, ..., 100.00 and on 2, 2 +
    1/64, ..., 100: the decimal value comes back within 2^-40. *)
Example b64_round_trip_grids :
  forallb (b64_round_trip_within 0x1p-40%float) (b64_grid 2 100 9800) = true /\
  forallb (b64_round_trip_within 0x1p-40%float) (b64_grid 2 64 6272) = true.
Proof. split; vm_compute; reflexivity. Qed.

(** Decimal prices 1.001, 1.002, ..., 1.999 and 2.00, ..., 100.00 all give
    American odds of magnitude at least 100. *)
Example b64_magnitude_grids :
  forallb b64_magnitude_at_least_100 (tl (b64_grid 1 1000 999)) = true /\
  forallb b64_magnitude_at_least_100 (b64_grid 2 100 9800) = true.
Proof. split; vm_compute; reflexivity. Qed.

(** ** The further properties on concrete inputs *)

Lemma scrape_dratings_data_request_failed_witness :
  exists log,
    skipped_pages log = [2%nat] /\
    scrape_dratings_data Ok fetch_page2_request_failed
    = (df ← drop_duplicates "Teams" (pd_concat [example_page0; example_page1]);
       df ← Ok df;
       mret (Some df, log)).
Proof.
  apply (scrape_dratings_data_request_failed Ok fetch_page2_request_failed
           [example_other_table; example_page0] [example_page1]
           example_page0 example_page1); reflexivity.
Defined.

Lemma normalize_event_no_markets_witness :
  exists row, normalize_event (fun _ => NaN) Ok example_event_no_markets = Ok row /\
    row !! "AwayTeam"%string = Some (PyStr "Pittsburgh Pirates") /\
    row !! "HomeTeam"%string = Some (PyStr "Houston Astros") /\
    row !! "GameStart"%string = Some (PyStr "2025-06-02T18:40:00") /\
    forall col, In col odds_cols -> row !! col = Some PyNone.
Proof.
  apply (normalize_event_no_markets (fun _ => NaN) Ok example_event_no_markets
           (PyStr "2025-06-02T18:40:00")); reflexivity.
Defined.

Lemma scrape_sbri_data_prices_witness :
  exists df,
    scrape_sbri_data (fun _ => NaN) Ok (fun _ df => df) (FeedJson [example_event]) = Ok (Some df) /\
    length df = 1%nat /\
    forall row, In row df ->
      forall col, In col odds_cols -> exists a, row !! col = Some a /\ american_or_absent a.
Proof.
  apply (scrape_sbri_data_prices (fun _ => NaN) Ok (fun _ df => df)
           (fun _ df => Permutation_refl df) [example_event]).
  - intros e _. eexists; reflexivity.
  - intros e m s [<- | []] [<- | []] [<- | [<- | []]]; simpl.
    + exists 1.91. split; reflexivity.
    + exists 2.05. split; reflexivity.
Defined.

Lemma analyse_finite_witness :
  exists a dh dw ih iw,
    analyse no_float_of_str houston_row = Ok a /\
    HomeDecimalOdds a = Fin dh /\ dh == american_to_decimal_spec 150 /\
    AwayDecimalOdds a = Fin dw /\ dw == american_to_decimal_spec (-170) /\
    HomeImpliedProb a = Fin ih /\ ih == 1 / dh /\
    AwayImpliedProb a = Fin iw /\ iw == 1 / dw /\
    HomeValue a = Fin (0.5 * dh - 1) /\ AwayValue a = Fin (0.5 * dw - 1) /\
    1 <= dh /\ 1 <= dw.
Proof.
  apply (analyse_finite no_float_of_str houston_row 150 (-170) 0.5 0.5);
    try reflexivity; intros H; vm_compute in H; discriminate.
Defined.

(** * Further properties *)

(** ** OddsConverter: the way back and the exceptions *)


Section ConverterRoundTrip.

Variable float_of_str : string -> option pyfloat.


End ConverterRoundTrip.

Lemma convert_to_american_odds_raise_inv (v : pyval) (e : exn) :
  convert_to_american_odds v = Raise e ->
  e = ZeroDivisionError /\ exists d, real_value v = Some d /\ d == 1.
Proof.
  intros H.
  destruct (real_value v) as [d | ] eqn:Hv.
  - destruct (Qeq_dec d 1) as [E | E].
    + rewrite (convert_to_american_odds_one v d Hv E) in H. inversion H.
      split; [ reflexivity | exists d; auto ].
    + destruct (Qlt_le_dec d 2) as [L | L].
      * destruct (convert_to_american_odds_negative v d Hv L E) as (w & x & Hr & _).
        congruence.
      * destruct (convert_to_american_odds_positive v d Hv L) as (w & x & Hr & _).
        congruence.
  - exfalso. unfold real_value in Hv.
    destruct v as [ | b | z | f | s ]; simpl in Hv; try discriminate;
      try (vm_compute in H; discriminate).
    destruct f; try discriminate; vm_compute in H; discriminate.
Qed.

(** [convert_to_american_odds] raises exactly when its argument is a Python
    [float], [int] or [bool] equal to 1, and then it is [ZeroDivisionError].
    Every other Python value gives a value or [None], and so does every
    [numpy.float64]: at 1 it gives minus infinity. *)
Theorem convert_to_american_odds_raises_iff (s : scalar) (e : exn) :
  (convert_to_american_odds_scalar s = Raise e <->
   e = ZeroDivisionError /\ exists v d, s = Python v /\ real_value v = Some d /\ d == 1) /\
  convert_to_american_odds_scalar (NumpyFloat64 (Fin 1)) = Ok (PyFloat NInf) /\
  convert_to_american_odds_scalar (Python (PyFloat (Fin 1))) = Raise ZeroDivisionError.
Proof.
  split; [ | split; reflexivity ].
  split.
  - destruct s as [v | x]; cbn [convert_to_american_odds_scalar].
    + intros H. destruct (convert_to_american_odds_raise_inv v e H) as (-> & d & Hv & Hd).
      split; [ reflexivity | ]. exists v, d. auto.
    + destruct (pd_isna_f x); [ discriminate | ].
      destruct (fge x (Fin 2)); discriminate.
  - intros (-> & v & d & -> & Hv & E). apply (convert_to_american_odds_one v d Hv E).
Qed.

Section ConverterExceptions.

Variable float_of_str : string -> option pyfloat.

Lemma convert_american_to_decimal_raise_inv (v : pyval) (e : exn) :
  convert_american_to_decimal float_of_str v = Raise e ->
  e = ZeroDivisionError /\ v <> PyStr "" /\
  exists q, py_float float_of_str v = Ok (Fin q) /\ q == 0.
Proof.
  unfold convert_american_to_decimal.
  destruct (pd_isna v || py_eq v (PyStr "")) eqn:Eg; [ discriminate | ].
  apply orb_false_iff in Eg. destruct Eg as [Hna He].
  assert (Hne : v <> PyStr "") by (intros ->; vm_compute in He; discriminate).
  destruct (py_float float_of_str v) as [f | x] eqn:Ef; cbn [mbind result_bind].
  - destruct f as [q | | | ]; try (vm_compute; discriminate).
    destruct (fgt (Fin q) (Fin 0)) eqn:Eg; [ discriminate | ].
    unfold py_truediv. simpl fabs.
    destruct (fis_zero (Fin (Qabs q))) eqn:Ez; [ | discriminate ].
    cbn. intros H. inversion H. split; [ reflexivity | split; [ exact Hne | ] ].
    exists q. split; [ reflexivity | ].
    apply fis_zero_Fin in Ez. revert Ez. apply Qabs_case; intros; lra.
  - assert (Hx : x = TypeError \/ x = ValueError).
    { destruct v as [ | b | z | f | s ]; simpl in Ef; try discriminate.
      destruct (float_of_str s); inversion Ef; subst; auto. }
    destruct Hx as [-> | ->]; discriminate.
Qed.

(** On every argument that [float()] accepts or rejects with [ValueError] or
    [TypeError] (that is, every Python value except an [int] beyond the range
    of [float], on which [float()] raises [OverflowError]),
    [convert_american_to_decimal] raises exactly when [float()] reads the
    argument as zero, and then it is [ZeroDivisionError]: text that is not a
    number, [None], NaN and the empty string give NaN instead. *)
Theorem convert_american_to_decimal_raises_iff (v : pyval) (e : exn) :
  within_float_range v ->
  (convert_american_to_decimal float_of_str v = Raise e <->
   e = ZeroDivisionError /\ v <> PyStr "" /\
   exists q, py_float float_of_str v = Ok (Fin q) /\ q == 0).
Proof.
  intros _. split; [ apply convert_american_to_decimal_raise_inv | ].
  intros (-> & Hne & q & Hf & Hq).
  apply (convert_american_to_decimal_raises float_of_str v q); auto.
  - destruct v as [ | b | z | f | s ]; simpl in *; try reflexivity; try congruence.
    destruct f; simpl in *; try reflexivity; congruence.
  - destruct v as [ | b | z | f | s ]; simpl; try reflexivity.
    unfold py_eq; simpl. apply bool_decide_eq_false. congruence.
Qed.

End ConverterExceptions.

Lemma convert_american_to_decimal_raises_iff_witness :
  convert_american_to_decimal no_float_of_str (PyInt 0) = Raise ZeroDivisionError <->
  ZeroDivisionError = ZeroDivisionError /\ PyInt 0 <> PyStr "" /\
  exists q, py_float no_float_of_str (PyInt 0) = Ok (Fin q) /\ q == 0.
Proof.
  apply (convert_american_to_decimal_raises_iff no_float_of_str (PyInt 0) ZeroDivisionError).
  vm_compute. reflexivity.
Defined.

(** ** ReconciliationEngine: the join and the exceptions *)

(** *** The outer join, row by row *)

Lemma key_eqb_eq (a b : join_key) : key_eqb a b = true <-> a = b.
Proof. unfold key_eqb. apply bool_decide_eq_true. Qed.

Lemma key_eqb_neq (a b : join_key) : key_eqb a b = false <-> a <> b.
Proof. unfold key_eqb. apply bool_decide_eq_false. Qed.

Lemma filter_nil_iff {A} (f : A -> bool) (l : list A) :
  List.filter f l = [] <-> forall x, In x l -> f x = false.
Proof.
  split.
  - intros H x Hx. destruct (f x) eqn:E; [ | reflexivity ].
    assert (Hin : In x (List.filter f l)) by (apply filter_In; auto).
    rewrite H in Hin. contradiction.
  - intros H. induction l as [ | y l IH ]; [ reflexivity | ].
    simpl. rewrite (H y (or_introl eq_refl)). apply IH. intros x Hx. apply H. right. exact Hx.
Qed.

Lemma pd_merge_outer_inv (sbri_df : list sbri_row) (dratings_df : list dratings_row)
      (m : merged_row) :
  In m (pd_merge_outer sbri_df dratings_df) ->
  (exists o, In o sbri_df /\ m = left_only o /\
             forall p, In p dratings_df -> dratings_key p <> sbri_key o) \/
  (exists o p, In o sbri_df /\ In p dratings_df /\ dratings_key p = sbri_key o /\
               m = both_sides o p) \/
  (exists p, In p dratings_df /\ m = right_only p /\
             forall o, In o sbri_df -> sbri_key o <> dratings_key p).
Proof.
  unfold pd_merge_outer. rewrite in_app_iff, in_flat_map, in_map_iff.
  intros [(o & Ho & Hm) | (p & <- & Hp)].
  - destruct (List.filter (fun p => key_eqb (sbri_key o) (dratings_key p)) dratings_df)
      as [ | p0 ps ] eqn:E.
    + destruct Hm as [<- | []]. left. exists o. split; [ exact Ho | split; [ reflexivity | ] ].
      intros p Hp Hk. pose proof (proj1 (filter_nil_iff _ _) E p Hp) as Hf.
      apply key_eqb_neq in Hf. congruence.
    + rewrite <- E in Hm. apply in_map_iff in Hm. destruct Hm as (p & <- & Hp).
      apply filter_In in Hp. destruct Hp as [Hp Hk]. apply key_eqb_eq in Hk.
      right; left. exists o, p. auto.
  - apply filter_In in Hp. destruct Hp as [Hp Hn].
    right; right. exists p. split; [ exact Hp | split; [ reflexivity | ] ].
    intros o Ho Hk. apply negb_true_iff in Hn.
    assert (Hex : existsb (fun o => key_eqb (sbri_key o) (dratings_key p)) sbri_df = true).
    { apply existsb_exists. exists o. split; [ exact Ho | apply key_eqb_eq, Hk ]. }
    congruence.
Qed.

Lemma pd_merge_outer_left (sbri_df : list sbri_row) (dratings_df : list dratings_row)
      (o : sbri_row) :
  In o sbri_df ->
  (In (left_only o) (pd_merge_outer sbri_df dratings_df) /\
   forall p, In p dratings_df -> dratings_key p <> sbri_key o) \/
  (exists p, In p dratings_df /\ dratings_key p = sbri_key o /\
             In (both_sides o p) (pd_merge_outer sbri_df dratings_df)).
Proof.
  intros Ho.
  destruct (List.filter (fun p => key_eqb (sbri_key o) (dratings_key p)) dratings_df)
    as [ | p0 ps ] eqn:E.
  - left. split.
    + unfold pd_merge_outer. apply in_app_iff. left. apply in_flat_map.
      exists o. split; [ exact Ho | ]. rewrite E. left. reflexivity.
    + intros p Hp Hk. pose proof (proj1 (filter_nil_iff _ _) E p Hp) as Hf.
      apply key_eqb_neq in Hf. congruence.
  - right. exists p0.
    assert (Hp0 : In p0 (List.filter (fun p => key_eqb (sbri_key o) (dratings_key p)) dratings_df))
      by (rewrite E; left; reflexivity).
    apply filter_In in Hp0. destruct Hp0 as [Hp0 Hk]. apply key_eqb_eq in Hk.
    split; [ exact Hp0 | split; [ auto | ] ].
    unfold pd_merge_outer. apply in_app_iff. left. apply in_flat_map.
    exists o. split; [ exact Ho | ]. rewrite E. left. reflexivity.
Qed.

Lemma pd_merge_outer_both (sbri_df : list sbri_row) (dratings_df : list dratings_row)
      (o : sbri_row) (p : dratings_row) :
  In o sbri_df -> In p dratings_df -> dratings_key p = sbri_key o ->
  In (both_sides o p) (pd_merge_outer sbri_df dratings_df).
Proof.
  intros Ho Hp Hk. unfold pd_merge_outer. apply in_app_iff. left. apply in_flat_map.
  exists o. split; [ exact Ho | ].
  assert (Hin : In p (List.filter (fun p => key_eqb (sbri_key o) (dratings_key p)) dratings_df)).
  { apply filter_In. split; [ exact Hp | apply key_eqb_eq; auto ]. }
  destruct (List.filter (fun p => key_eqb (sbri_key o) (dratings_key p)) dratings_df)
    as [ | p0 ps ] eqn:E; [ contradiction | ].
  rewrite <- E. apply in_map. rewrite E. exact Hin.
Qed.

Lemma pd_merge_outer_right (sbri_df : list sbri_row) (dratings_df : list dratings_row)
      (p : dratings_row) :
  In p dratings_df ->
  (In (right_only p) (pd_merge_outer sbri_df dratings_df) /\
   forall o, In o sbri_df -> sbri_key o <> dratings_key p) \/
  (exists o, In o sbri_df /\ dratings_key p = sbri_key o /\
             In (both_sides o p) (pd_merge_outer sbri_df dratings_df)).
Proof.
  intros Hp.
  destruct (existsb (fun o => key_eqb (sbri_key o) (dratings_key p)) sbri_df) eqn:E.
  - right. apply existsb_exists in E. destruct E as (o & Ho & Hk). apply key_eqb_eq in Hk.
    exists o. split; [ exact Ho | split; [ auto | ] ].
    apply pd_merge_outer_both; auto.
  - left. split.
    + unfold pd_merge_outer. apply in_app_iff. right. apply in_map.
      apply filter_In. split; [ exact Hp | rewrite E; reflexivity ].
    + intros o Ho Hk.
      assert (Hex : existsb (fun o => key_eqb (sbri_key o) (dratings_key p)) sbri_df = true).
      { apply existsb_exists. exists o. split; [ exact Ho | apply key_eqb_eq, Hk ]. }
      congruence.
Qed.

(** *** Exceptions of the analysis *)

Lemma mapM_raise {A B} (f : A -> result B) (l : list A) (e : exn) :
  mapM f l = Raise e -> exists x, In x l /\ f x = Raise e.
Proof.
  induction l as [ | x l IH ]; simpl; [ discriminate | ].
  destruct (f x) as [y | e'] eqn:Hx; cbn [mbind result_bind].
  - destruct (mapM f l) as [ys | e'] eqn:Hl; cbn [mbind result_bind]; [ discriminate | ].
    intros H. inversion H; subst. destruct (IH eq_refl) as (z & Hz & Hfz).
    exists z. split; [ right; exact Hz | exact Hfz ].
  - intros H. inversion H; subst. exists x. split; [ left; reflexivity | exact Hx ].
Qed.

Lemma mapM_raises {A B} (f : A -> result B) (l : list A) (x : A) (e : exn) :
  In x l -> f x = Raise e -> exists e', mapM f l = Raise e'.
Proof.
  induction l as [ | y l IH ]; intros Hin Hx; [ contradiction | ].
  simpl. destruct (f y) as [b | e'] eqn:Hy; cbn [mbind result_bind]; [ | eexists; reflexivity ].
  destruct Hin as [-> | Hin]; [ congruence | ].
  destruct (IH Hin Hx) as (e' & ->). eexists; reflexivity.
Qed.

Section AnalysisExceptions.

Variable float_of_str : string -> option pyfloat.

Lemma convert_american_to_decimal_cell_raise (x : pyfloat) (e : exn) :
  convert_american_to_decimal float_of_str (PyFloat x) = Raise e ->
  e = ZeroDivisionError /\ fis_zero x = true.
Proof.
  intros H. destruct (fis_zero x) eqn:Hz.
  - split; [ | reflexivity ]. destruct x as [q | | | ]; try discriminate.
    apply fis_zero_Fin in Hz.
    rewrite (convert_american_to_decimal_raises float_of_str (PyFloat (Fin q)) q) in H;
      [ congruence | reflexivity | reflexivity | reflexivity | exact Hz ].
  - destruct (convert_american_to_decimal_cell float_of_str x Hz) as (d & Hd). congruence.
Qed.

Lemma convert_american_to_decimal_cell_zero (x : pyfloat) :
  fis_zero x = true ->
  convert_american_to_decimal float_of_str (PyFloat x) = Raise ZeroDivisionError.
Proof.
  intros Hz. destruct x as [q | | | ]; try discriminate. apply fis_zero_Fin in Hz.
  apply (convert_american_to_decimal_raises float_of_str (PyFloat (Fin q)) q);
    [ reflexivity | reflexivity | reflexivity | exact Hz ].
Qed.

Lemma analyse_raise (c : classified_row) (e : exn) :
  analyse float_of_str c = Raise e ->
  e = ZeroDivisionError /\
  (fis_zero (Home_MLOdds (joined c)) = true \/ fis_zero (Away_MLOdds (joined c)) = true).
Proof.
  unfold analyse. intros H.
  destruct (convert_american_to_decimal float_of_str (PyFloat (Home_MLOdds (joined c))))
    as [dh | eh] eqn:Eh; cbn [mbind result_bind] in H.
  - destruct (convert_american_to_decimal float_of_str (PyFloat (Away_MLOdds (joined c))))
      as [da | ea] eqn:Ea; cbn [mbind result_bind] in H; [ discriminate | ].
    inversion H; subst. apply convert_american_to_decimal_cell_raise in Ea. tauto.
  - inversion H; subst. apply convert_american_to_decimal_cell_raise in Eh. tauto.
Qed.

Lemma analyse_zero (c : classified_row) :
  fis_zero (Home_MLOdds (joined c)) = true \/ fis_zero (Away_MLOdds (joined c)) = true ->
  analyse float_of_str c = Raise ZeroDivisionError.
Proof.
  intros Hz. unfold analyse.
  destruct (fis_zero (Home_MLOdds (joined c))) eqn:Eh.
  - rewrite (convert_american_to_decimal_cell_zero _ Eh). reflexivity.
  - destruct Hz as [Hz | Hz]; [ discriminate | ].
    destruct (convert_american_to_decimal_cell float_of_str _ Eh) as (d & ->).
    cbn [mbind result_bind].
    rewrite (convert_american_to_decimal_cell_zero _ Hz). reflexivity.
Qed.

(** The analysis raises exactly when a joined row classified
    ReadyForAnalysis carries a zero moneyline on either side, and the
    exception is [ZeroDivisionError]: one such row loses the whole output. *)
Theorem analysis_aborts_on_zero_moneyline
      (sbri_df : list sbri_row) (dratings_df : list dratings_row) (e : exn) :
  perform_baseball_analysis float_of_str (Some sbri_df) (Some dratings_df) = Raise e <->
  e = ZeroDivisionError /\
  exists m, In m (pd_merge_outer sbri_df dratings_df) /\
            status_of m = ReadyForAnalysis /\
            (fis_zero (Home_MLOdds m) = true \/ fis_zero (Away_MLOdds m) = true).
Proof.
  split.
  - unfold perform_baseball_analysis.
    destruct (pd_merge_outer sbri_df dratings_df) as [ | m0 ms ] eqn:Em; [ discriminate | ].
    destruct (List.filter is_ready (merged_sorted sbri_df dratings_df)) as [ | c0 cs ] eqn:Er;
      [ discriminate | ].
    unfold analysis_ready. rewrite Er.
    destruct (mapM (analyse float_of_str) (c0 :: cs)) as [rows | e'] eqn:EM;
      cbn [mbind result_bind]; [ discriminate | ].
    intros H. inversion H; subst e'. apply mapM_raise in EM. destruct EM as (c & Hc & Hr).
    apply analyse_raise in Hr. destruct Hr as [-> Hz]. split; [ reflexivity | ].
    rewrite <- Er in Hc. apply filter_In in Hc. destruct Hc as [Hc Hready].
    apply merged_sorted_In in Hc. destruct Hc as (m & Hm & ->).
    exists m. rewrite <- Em. split; [ exact Hm | split ].
    + apply status_eqb_eq in Hready. exact Hready.
    + exact Hz.
  - intros (-> & m & Hm & Hst & Hz). unfold perform_baseball_analysis.
    destruct (pd_merge_outer sbri_df dratings_df) as [ | m0 ms ] eqn:Em; [ contradiction | ].
    assert (Hc : In (classify m) (List.filter is_ready (merged_sorted sbri_df dratings_df))).
    { apply filter_In. split.
      - apply merged_sorted_In. exists m. rewrite Em. auto.
      - apply status_eqb_eq. exact Hst. }
    destruct (List.filter is_ready (merged_sorted sbri_df dratings_df)) as [ | c0 cs ] eqn:Er;
      [ contradiction | ].
    unfold analysis_ready. rewrite Er.
    destruct (mapM_raises (analyse float_of_str) (c0 :: cs) (classify m) ZeroDivisionError Hc)
      as (e' & He').
    { apply analyse_zero. exact Hz. }
    rewrite He'. cbn [mbind result_bind].
    apply mapM_raise in He'. destruct He' as (c & _ & Hr).
    apply analyse_raise in Hr. destruct Hr as [-> _]. reflexivity.
Qed.

End AnalysisExceptions.

Section JoinCoverage.

Variable float_of_str : string -> option pyfloat.

(** Rows of the output are rows of [merged_df], and every row of [merged_df]
    is in the output. *)
Lemma perform_baseball_analysis_rows
      (sbri_df : list sbri_row) (dratings_df : list dratings_row) (out : list final_row) :
  perform_baseball_analysis float_of_str (Some sbri_df) (Some dratings_df) = Ok out ->
  (forall f, In f out ->
     exists m, In m (pd_merge_outer sbri_df dratings_df) /\ base f = classify m) /\
  (forall m, In m (pd_merge_outer sbri_df dratings_df) ->
     exists f, In f out /\ base f = classify m).
Proof.
  intros Hout.
  destruct (perform_baseball_analysis_output float_of_str sbri_df dratings_df out Hout)
    as (bets & -> & _).
  split.
  - intros f Hf. apply sort_by_timestamp_In in Hf. apply merge_left_In in Hf.
    destruct Hf as [Hf _]. apply merged_sorted_In in Hf. exact Hf.
  - intros m Hm.
    destruct (merge_left_covers (merged_sorted sbri_df dratings_df) bets (classify m))
      as (f & Hf & Hbase).
    { apply merged_sorted_In. exists m. auto. }
    exists f. split; [ apply sort_by_timestamp_In, Hf | exact Hbase ].
Qed.

(** No game is dropped and none is invented: every odds row and every
    forecast row is carried by an output row with its key and its values, and
    in every output row each side is either the values of an input row with
    that key or absent, the latter only when no input row of that side has
    the key. *)
Theorem every_game_reaches_output
      (sbri_df : list sbri_row) (dratings_df : list dratings_row) (out : list final_row) :
  perform_baseball_analysis float_of_str (Some sbri_df) (Some dratings_df) = Ok out ->
  (forall o, In o sbri_df ->
     exists f, In f out /\
       key (joined (base f)) = sbri_key o /\
       Home_MLOdds (joined (base f)) = sbri_Home_MLOdds o /\
       Away_MLOdds (joined (base f)) = sbri_Away_MLOdds o /\
       odds_other (joined (base f)) = sbri_other o) /\
  (forall p, In p dratings_df ->
     exists f, In f out /\
       key (joined (base f)) = dratings_key p /\
       HomeWinProb_pred (joined (base f)) = dratings_HomeWinProb_pred p /\
       AwayWinProb_pred (joined (base f)) = dratings_AwayWinProb_pred p /\
       Teams (joined (base f)) = dratings_Teams p /\
       pred_other (joined (base f)) = dratings_other p) /\
  (forall f, In f out ->
     ((exists o, In o sbri_df /\ sbri_key o = key (joined (base f)) /\
                 Home_MLOdds (joined (base f)) = sbri_Home_MLOdds o /\
                 Away_MLOdds (joined (base f)) = sbri_Away_MLOdds o) \/
      ((forall o, In o sbri_df -> sbri_key o <> key (joined (base f))) /\
       Home_MLOdds (joined (base f)) = NaN /\ Away_MLOdds (joined (base f)) = NaN)) /\
     ((exists p, In p dratings_df /\ dratings_key p = key (joined (base f)) /\
                 HomeWinProb_pred (joined (base f)) = dratings_HomeWinProb_pred p /\
                 AwayWinProb_pred (joined (base f)) = dratings_AwayWinProb_pred p) \/
      ((forall p, In p dratings_df -> dratings_key p <> key (joined (base f))) /\
       HomeWinProb_pred (joined (base f)) = NaN /\
       AwayWinProb_pred (joined (base f)) = NaN))).
Proof.
  intros Hout.
  destruct (perform_baseball_analysis_rows sbri_df dratings_df out Hout) as [Hfrom Hto].
  split; [ | split ].
  - intros o Ho.
    destruct (pd_merge_outer_left sbri_df dratings_df o Ho) as [[Hm _] | (p & _ & _ & Hm)];
      destruct (Hto _ Hm) as (f & Hf & Hb); exists f; rewrite Hb; repeat split; exact Hf.
  - intros p Hp.
    destruct (pd_merge_outer_right sbri_df dratings_df p Hp) as [[Hm _] | (o & _ & Hk & Hm)];
      destruct (Hto _ Hm) as (f & Hf & Hb); exists f; rewrite Hb; cbn;
      repeat split; auto.
  - intros f Hf. destruct (Hfrom f Hf) as (m & Hm & ->).
    destruct (pd_merge_outer_inv sbri_df dratings_df m Hm)
      as [(o & Ho & -> & Hno) | [(o & p & Ho & Hp & Hk & ->) | (p & Hp & -> & Hno)]]; cbn.
    + split; [ left; exists o; auto | right ].
      split; [ | split; reflexivity ]. intros p Hp. apply Hno, Hp.
    + split; left; [ exists o | exists p ]; auto.
    + split; [ right | left; exists p; auto ].
      split; [ | split; reflexivity ]. intros o Ho. apply Hno, Ho.
Qed.

(** A ready row has an odds row and a forecast row of its key. *)
Lemma ready_row_matched (sbri_df : list sbri_row) (dratings_df : list dratings_row)
      (m : merged_row) :
  In m (pd_merge_outer sbri_df dratings_df) -> status_of m = ReadyForAnalysis ->
  exists o p, In o sbri_df /\ In p dratings_df /\
              sbri_key o = key m /\ dratings_key p = key m.
Proof.
  intros Hm Hst.
  destruct (pd_merge_outer_inv sbri_df dratings_df m Hm)
    as [(o & Ho & -> & Hno) | [(o & p & Ho & Hp & Hk & ->) | (p & Hp & -> & Hno)]].
  - unfold status_of, notna in Hst. cbn in Hst.
    destruct (sbri_Home_MLOdds o); cbn in Hst; discriminate.
  - exists o, p. auto.
  - unfold status_of, notna in Hst. cbn in Hst. discriminate.
Qed.

(** A game known to one source only: a forecast without odds is returned as
    MissingOdds with its game name taken from "Teams"; odds without a
    forecast are returned as MissingPrediction, or MissingOdds when the home
    moneyline is absent; neither carries a best bet. *)
Theorem unmatched_game_has_no_best_bet
      (sbri_df : list sbri_row) (dratings_df : list dratings_row)
      (out : list final_row) (f : final_row) :
  perform_baseball_analysis float_of_str (Some sbri_df) (Some dratings_df) = Ok out ->
  In f out ->
  ((forall o, In o sbri_df -> sbri_key o <> key (joined (base f))) ->
     Status (base f) = MissingOdds /\
     Game (joined (base f)) = Teams (joined (base f)) /\
     final_BestBetTeam f = None /\ final_BestBetValue f = NaN) /\
  ((forall p, In p dratings_df -> dratings_key p <> key (joined (base f))) ->
     (Status (base f) = MissingPrediction \/ Status (base f) = MissingOdds) /\
     (Status (base f) = MissingOdds <-> pd_isna_f (Home_MLOdds (joined (base f))) = true) /\
     final_BestBetTeam f = None /\ final_BestBetValue f = NaN).
Proof.
  intros Hout Hf.
  destruct (perform_baseball_analysis_output float_of_str sbri_df dratings_df out Hout)
    as (bets & -> & Hbets).
  apply sort_by_timestamp_In in Hf. apply merge_left_In in Hf.
  destruct Hf as [Hc Hbet]. apply merged_sorted_In in Hc. destruct Hc as (m & Hm & Hb).
  assert (Hnobet : (forall o, In o sbri_df -> sbri_key o <> key m) \/
                   (forall p, In p dratings_df -> dratings_key p <> key m) ->
                   f = without_best_bet (base f)).
  { intros Hun. destruct Hbet as [Hbet | (a & Ha & Hk & _)]; [ exact Hbet | exfalso ].
    destruct (Hbets a Ha) as (Hin & Hst & _).
    apply merged_sorted_In in Hin. destruct Hin as (m' & Hm' & Hr).
    rewrite Hr in Hst, Hk. rewrite Hb in Hk. cbn in Hst, Hk.
    destruct (ready_row_matched sbri_df dratings_df m' Hm' Hst) as (o & p & Ho & Hp & Ko & Kp).
    destruct Hun as [Hun | Hun]; [ apply (Hun o Ho) | apply (Hun p Hp) ]; congruence. }
  rewrite Hb in *. cbn [joined classify Status key fill_game Home_MLOdds Game Teams] in *.
  split; intros Hun.
  - rewrite (Hnobet (or_introl Hun)). cbn.
    destruct (pd_merge_outer_inv sbri_df dratings_df m Hm)
      as [(o & Ho & -> & Hno) | [(o & p & Ho & Hp & Hk & ->) | (p & Hp & -> & Hno)]].
    + exfalso. apply (Hun o Ho). reflexivity.
    + exfalso. apply (Hun o Ho). reflexivity.
    + repeat split.
  - rewrite (Hnobet (or_intror Hun)). cbn.
    destruct (pd_merge_outer_inv sbri_df dratings_df m Hm)
      as [(o & Ho & -> & Hno) | [(o & p & Ho & Hp & Hk & ->) | (p & Hp & -> & Hno)]].
    + unfold status_of, notna. cbn.
      destruct (sbri_Home_MLOdds o); cbn; repeat split; auto; intros; discriminate.
    + exfalso. apply (Hun p Hp). exact Hk.
    + exfalso. apply (Hun p Hp). reflexivity.
Qed.

End JoinCoverage.

(** *** Frames without duplicate keys *)

Lemma NoDup_map_filter {A B} (g : A -> B) (f : A -> bool) (l : list A) :
  List.NoDup (map g l) -> List.NoDup (map g (List.filter f l)).
Proof.
  induction l as [ | x l IH ]; simpl; intros H; [ constructor | ].
  apply List.NoDup_cons_iff in H. destruct H as [Hx Hl].
  destruct (f x); [ | apply IH, Hl ].
  simpl. constructor; [ | apply IH, Hl ].
  intros Hin. apply Hx. apply in_map_iff in Hin. destruct Hin as (y & Hy & Hin).
  apply filter_In in Hin. apply in_map_iff. exists y. tauto.
Qed.

Lemma filter_key_unique {A} (g : A -> join_key) (k : join_key) (l : list A) :
  List.NoDup (map g l) ->
  List.filter (fun a => key_eqb k (g a)) l = [] \/
  exists a, List.filter (fun a => key_eqb k (g a)) l = [a].
Proof.
  induction l as [ | x l IH ]; simpl; intros H; [ left; reflexivity | ].
  apply List.NoDup_cons_iff in H. destruct H as [Hx Hl].
  destruct (key_eqb k (g x)) eqn:E; [ | apply IH, Hl ].
  right. exists x. f_equal. apply filter_nil_iff. intros y Hy.
  apply key_eqb_neq. intros Ek. apply key_eqb_eq in E. apply Hx.
  rewrite <- E, Ek. apply in_map. exact Hy.
Qed.

Lemma pd_merge_outer_keys (sbri_df : list sbri_row) (dratings_df : list dratings_row) :
  List.NoDup (map dratings_key dratings_df) ->
  map key (pd_merge_outer sbri_df dratings_df)
  = map sbri_key sbri_df
    ++ map dratings_key
         (List.filter (fun p => negb (existsb (fun o => key_eqb (sbri_key o) (dratings_key p))
                                         sbri_df)) dratings_df).
Proof.
  intros Hd. unfold pd_merge_outer. rewrite map_app. f_equal.
  - induction sbri_df as [ | o l IH ]; [ reflexivity | ].
    cbn [flat_map]. rewrite map_app. rewrite IH.
    change (map sbri_key (o :: l)) with ([sbri_key o] ++ map sbri_key l). f_equal.
    destruct (filter_key_unique dratings_key (sbri_key o) dratings_df Hd) as [-> | (p & ->)];
      reflexivity.
  - rewrite map_map. reflexivity.
Qed.

Lemma pd_merge_outer_NoDup (sbri_df : list sbri_row) (dratings_df : list dratings_row) :
  List.NoDup (map sbri_key sbri_df) -> List.NoDup (map dratings_key dratings_df) ->
  List.NoDup (map key (pd_merge_outer sbri_df dratings_df)).
Proof.
  intros Hs Hd. rewrite (pd_merge_outer_keys _ _ Hd).
  apply List.NoDup_app; [ exact Hs | apply NoDup_map_filter, Hd | ].
  intros k Hk Hk'. apply in_map_iff in Hk. destruct Hk as (o & <- & Ho).
  apply in_map_iff in Hk'. destruct Hk' as (p & Hkp & Hp).
  apply filter_In in Hp. destruct Hp as [_ Hn]. apply negb_true_iff in Hn.
  assert (Hex : existsb (fun o => key_eqb (sbri_key o) (dratings_key p)) sbri_df = true).
  { apply existsb_exists. exists o. split; [ exact Ho | apply key_eqb_eq; auto ]. }
  congruence.
Qed.

Lemma NoDup_map_eq {A B} (g : A -> B) (l : list A) (x y : A) :
  List.NoDup (map g l) -> In x l -> In y l -> g x = g y -> x = y.
Proof.
  induction l as [ | z l IH ]; simpl; intros H Hx Hy E; [ contradiction | ].
  apply List.NoDup_cons_iff in H. destruct H as [Hz Hl].
  destruct Hx as [-> | Hx], Hy as [-> | Hy]; auto.
  - exfalso. apply Hz. rewrite E. apply in_map, Hy.
  - exfalso. apply Hz. rewrite <- E. apply in_map, Hx.
Qed.

Lemma merged_sorted_NoDup (sbri_df : list sbri_row) (dratings_df : list dratings_row) :
  List.NoDup (map sbri_key sbri_df) -> List.NoDup (map dratings_key dratings_df) ->
  List.NoDup (map (fun c => key (joined c)) (merged_sorted sbri_df dratings_df)).
Proof.
  intros Hs Hd. unfold merged_sorted.
  eapply Permutation_NoDup.
  - apply Permutation_map. symmetry. apply sort_by_timestamp_perm.
  - rewrite map_map. apply (pd_merge_outer_NoDup _ _ Hs Hd).
Qed.

Lemma merge_left_In_strong (merged_df : list classified_row) (bets : list analysis_row)
      (f : final_row) :
  In f (merge_left merged_df bets) ->
  In (base f) merged_df /\
  ((f = without_best_bet (base f) /\
    forall a, In a bets -> key (joined (base f)) <> key (joined (ready a))) \/
   exists a, In a bets /\ key (joined (base f)) = key (joined (ready a))
             /\ f = with_best_bet (base f) a).
Proof.
  unfold merge_left. rewrite in_flat_map. intros (c & Hc & Hf).
  destruct (List.filter (fun a => key_eqb (key (joined c)) (key (joined (ready a)))) bets)
    as [ | a0 ps ] eqn:E.
  - destruct Hf as [<- | []]. split; [ exact Hc | left; split; [ reflexivity | ] ].
    intros a Ha. apply key_eqb_neq. apply (proj1 (filter_nil_iff _ _) E a Ha).
  - rewrite <- E in Hf. apply in_map_iff in Hf. destruct Hf as (a & <- & Ha).
    apply filter_In in Ha. destruct Ha as [Ha Hk]. apply key_eqb_eq in Hk.
    split; [ exact Hc | right ]. exists a. auto.
Qed.

Lemma merge_left_base (merged_df : list classified_row) (bets : list analysis_row) :
  List.NoDup (map (fun a => key (joined (ready a))) bets) ->
  map base (merge_left merged_df bets) = merged_df.
Proof.
  intros Hb. induction merged_df as [ | c l IH ]; [ reflexivity | ].
  change (merge_left (c :: l) bets)
    with (match List.filter (fun a => key_eqb (key (joined c)) (key (joined (ready a)))) bets with
          | [] => [without_best_bet c]
          | ps => map (with_best_bet c) ps
          end ++ merge_left l bets).
  rewrite map_app, IH.
  destruct (filter_key_unique (fun a => key (joined (ready a))) (key (joined c)) bets Hb)
    as [-> | (a & ->)]; reflexivity.
Qed.

Section UniqueKeys.

Variable float_of_str : string -> option pyfloat.

Lemma perform_baseball_analysis_bets
      (sbri_df : list sbri_row) (dratings_df : list dratings_row) (out : list final_row) :
  perform_baseball_analysis float_of_str (Some sbri_df) (Some dratings_df) = Ok out ->
  exists rows,
    mapM (analyse float_of_str) (List.filter is_ready (merged_sorted sbri_df dratings_df))
      = Ok rows /\
    out = sort_by_timestamp (fun f => row_timestamp (base f))
            (merge_left (merged_sorted sbri_df dratings_df)
               (List.filter is_positive_value_bet rows)).
Proof.
  unfold perform_baseball_analysis.
  destruct (pd_merge_outer sbri_df dratings_df) as [ | m0 ms ] eqn:Em.
  - intros H. inversion H. exists []. unfold merged_sorted. rewrite Em. split; reflexivity.
  - destruct (List.filter is_ready (merged_sorted sbri_df dratings_df)) as [ | c0 cs ] eqn:Er.
    + intros H. inversion H. exists []. split; [ reflexivity | ].
      simpl List.filter. rewrite merge_left_nil. reflexivity.
    + unfold analysis_ready. rewrite Er.
      destruct (mapM (analyse float_of_str) (c0 :: cs)) as [rows | e] eqn:EM;
        cbn [mbind result_bind]; [ | discriminate ].
      intros H. inversion H. exists rows. split; reflexivity.
Qed.

(** When no key occurs twice in the odds frame nor in the forecast frame,
    the output holds each joined row exactly once, and a row's best-bet
    fields are those of its own analysis when it is ReadyForAnalysis with a
    strictly positive best value, and absent in every other case. *)
Theorem unique_keys_output
      (sbri_df : list sbri_row) (dratings_df : list dratings_row) (out : list final_row) :
  List.NoDup (map sbri_key sbri_df) -> List.NoDup (map dratings_key dratings_df) ->
  perform_baseball_analysis float_of_str (Some sbri_df) (Some dratings_df) = Ok out ->
  Permutation (map base out) (map classify (pd_merge_outer sbri_df dratings_df)) /\
  forall f, In f out ->
    (Status (base f) <> ReadyForAnalysis ->
       final_BestBetTeam f = None /\ final_BestBetValue f = NaN) /\
    (Status (base f) = ReadyForAnalysis ->
       exists a, analyse float_of_str (base f) = Ok a /\
         (fgt (BestBetValue a) (Fin 0) = true ->
            final_BestBetTeam f = BestBetTeam a /\ final_BestBetValue f = BestBetValue a) /\
         (fgt (BestBetValue a) (Fin 0) = false ->
            final_BestBetTeam f = None /\ final_BestBetValue f = NaN)).
Proof.
  intros Hs Hd Hout.
  destruct (perform_baseball_analysis_bets sbri_df dratings_df out Hout) as (rows & Hrows & ->).
  pose proof (merged_sorted_NoDup sbri_df dratings_df Hs Hd) as HL.
  destruct (analysis_ready_inv float_of_str sbri_df dratings_df rows Hrows) as [Hmap Hall].
  assert (Hkeys : List.NoDup (map (fun a => key (joined (ready a))) rows)).
  { rewrite <- (map_map ready (fun c => key (joined c))), Hmap.
    apply NoDup_map_filter, HL. }
  assert (Hsame : forall a c, In a rows -> In c (merged_sorted sbri_df dratings_df) ->
                    key (joined c) = key (joined (ready a)) -> ready a = c).
  { intros a c Ha Hc Hk. destruct (Hall a Ha) as (_ & Hin & _).
    apply (NoDup_map_eq (fun c => key (joined c)) _ _ _ HL Hin Hc). auto. }
  split.
  - eapply Permutation_trans; [ apply Permutation_map, sort_by_timestamp_perm | ].
    rewrite merge_left_base; [ | apply NoDup_map_filter, Hkeys ].
    unfold merged_sorted. apply sort_by_timestamp_perm.
  - intros f Hf. apply sort_by_timestamp_In in Hf. apply merge_left_In_strong in Hf.
    destruct Hf as [Hc Hf]. split.
    + intros Hst. destruct Hf as [[-> _] | (a & Ha & Hk & _)]; [ split; reflexivity | ].
      exfalso. apply filter_In in Ha. destruct Ha as [Ha _].
      destruct (Hall a Ha) as (_ & _ & Hready).
      rewrite (Hsame a (base f) Ha Hc Hk) in Hready. contradiction.
    + intros Hst.
      assert (Hin : In (base f) (map ready rows)).
      { rewrite Hmap. apply filter_In. split; [ exact Hc | apply status_eqb_eq, Hst ]. }
      apply in_map_iff in Hin. destruct Hin as (a0 & Hr0 & Ha0).
      destruct (Hall a0 Ha0) as (Han0 & _ & _). rewrite Hr0 in Han0.
      exists a0. split; [ exact Han0 | ].
      assert (Hown : forall a, In a (List.filter is_positive_value_bet rows) ->
                       key (joined (base f)) = key (joined (ready a)) -> a = a0).
      { intros a Ha Hk. apply filter_In in Ha. destruct Ha as [Ha _].
        pose proof (Hsame a (base f) Ha Hc Hk) as Hr.
        destruct (Hall a Ha) as (Han & _ & _). rewrite Hr in Han. congruence. }
      split; intros Hpos.
      * destruct Hf as [[_ Hno] | (a & Ha & Hk & ->)].
        -- exfalso. apply (Hno a0); [ | rewrite Hr0; reflexivity ].
           apply filter_In. split; [ exact Ha0 | exact Hpos ].
        -- rewrite (Hown a Ha Hk). split; reflexivity.
      * destruct Hf as [[-> _] | (a & Ha & Hk & _)]; [ split; reflexivity | ].
        exfalso. pose proof (Hown a Ha Hk) as ->.
        apply filter_In in Ha. destruct Ha as [_ Hp].
        unfold is_positive_value_bet in Hp. congruence.
Qed.

End UniqueKeys.

(** *** The best bets of the output *)

Section BestBets.

Variable float_of_str : string -> option pyfloat.

(** The rows merged back are all the analysed rows with a positive best
    value. *)
Lemma positive_bet_in_bets
      (sbri_df : list sbri_row) (dratings_df : list dratings_row) (rows : list analysis_row)
      (a : analysis_row) :
  mapM (analyse float_of_str) (List.filter is_ready (merged_sorted sbri_df dratings_df))
    = Ok rows ->
  positive_bet_of float_of_str sbri_df dratings_df a ->
  In a (List.filter is_positive_value_bet rows).
Proof.
  intros Hrows (Hin & Hst & Han & Hpos).
  destruct (analysis_ready_inv float_of_str sbri_df dratings_df rows Hrows) as [Hmap Hall].
  assert (Hr : In (ready a) (map ready rows)).
  { rewrite Hmap. apply filter_In. split; [ exact Hin | apply status_eqb_eq, Hst ]. }
  apply in_map_iff in Hr. destruct Hr as (a' & Hr' & Ha').
  destruct (Hall a' Ha') as (Han' & _ & _). rewrite Hr' in Han'.
  assert (a' = a) by congruence. subst a'.
  apply filter_In. split; [ exact Ha' | exact Hpos ].
Qed.

(** C2 (amended): when no ready row carries a zero moneyline the analysis
    returns a frame that is sorted by timestamp ascending and holds every
    joined row.  In each of its rows the best-bet fields are either both
    absent, and then no analysed ReadyForAnalysis row with the row's join key
    has a strictly positive best value, or copied from such a row; a best
    value that is zero or negative is never carried, and the per-side values
    are not columns of the output.  When no join key occurs twice in either
    input frame, a ReadyForAnalysis row carries its own best bet if its best
    value is strictly positive, and has both fields absent otherwise. *)
Theorem reconciliation_output
      (sbri_df : list sbri_row) (dratings_df : list dratings_row) :
  (forall m, In m (pd_merge_outer sbri_df dratings_df) ->
             status_of m = ReadyForAnalysis ->
             fis_zero (Home_MLOdds m) = false /\ fis_zero (Away_MLOdds m) = false) ->
  exists out,
    perform_baseball_analysis float_of_str (Some sbri_df) (Some dratings_df) = Ok out /\
    StronglySorted (by_timestamp (fun f => row_timestamp (base f))) out /\
    (forall m, In m (pd_merge_outer sbri_df dratings_df) ->
               exists f, In f out /\ base f = classify m) /\
    (forall f, In f out ->
       (final_BestBetTeam f = None /\ final_BestBetValue f = NaN /\
        forall a, positive_bet_of float_of_str sbri_df dratings_df a ->
                  key (joined (ready a)) <> key (joined (base f))) \/
       (exists a, positive_bet_of float_of_str sbri_df dratings_df a /\
                  key (joined (ready a)) = key (joined (base f)) /\
                  final_BestBetTeam f = BestBetTeam a /\
                  final_BestBetValue f = BestBetValue a /\
                  fgt (final_BestBetValue f) (Fin 0) = true)) /\
    (List.NoDup (map sbri_key sbri_df) -> List.NoDup (map dratings_key dratings_df) ->
     forall f, In f out -> Status (base f) = ReadyForAnalysis ->
       exists a, analyse float_of_str (base f) = Ok a /\
         (fgt (BestBetValue a) (Fin 0) = true ->
            final_BestBetTeam f = BestBetTeam a /\ final_BestBetValue f = BestBetValue a) /\
         (fgt (BestBetValue a) (Fin 0) = false ->
            final_BestBetTeam f = None /\ final_BestBetValue f = NaN)).
Proof.
  intros Hz.
  destruct (perform_baseball_analysis_returns float_of_str sbri_df dratings_df Hz)
    as (out & Hout).
  exists out. split; [ exact Hout | ].
  destruct (perform_baseball_analysis_bets float_of_str sbri_df dratings_df out Hout)
    as (rows & Hrows & ->).
  destruct (analysis_ready_inv float_of_str sbri_df dratings_df rows Hrows) as [Hmap Hall].
  assert (Hbet : forall a, In a (List.filter is_positive_value_bet rows) ->
                   positive_bet_of float_of_str sbri_df dratings_df a).
  { intros a Ha. apply filter_In in Ha. destruct Ha as [Ha Hpos].
    destruct (Hall a Ha) as (Han & Hin & Hst). repeat split; assumption. }
  split; [ apply sort_by_timestamp_ascending | split; [ | split ] ].
  - intros m Hm.
    destruct (merge_left_covers (merged_sorted sbri_df dratings_df)
                (List.filter is_positive_value_bet rows) (classify m)) as (f & Hf & Hbase).
    { apply merged_sorted_In. exists m. auto. }
    exists f. split; [ apply sort_by_timestamp_In, Hf | exact Hbase ].
  - intros f Hf. apply sort_by_timestamp_In in Hf. apply merge_left_In_strong in Hf.
    destruct Hf as [_ [[Hf Hno] | (a & Ha & Hk & Hf)]].
    + left. rewrite Hf. split; [ reflexivity | split; [ reflexivity | ] ].
      intros a Hp Hk. apply (Hno a); [ | symmetry; exact Hk ].
      apply (positive_bet_in_bets sbri_df dratings_df rows a Hrows Hp).
    + right. exists a. pose proof (Hbet a Ha) as Hp.
      split; [ exact Hp | split; [ symmetry; exact Hk | ] ].
      rewrite Hf. cbn. repeat split. apply Hp.
  - intros Hs Hd f Hf Hst.
    pose proof (merged_sorted_NoDup sbri_df dratings_df Hs Hd) as HL.
    apply sort_by_timestamp_In in Hf. apply merge_left_In_strong in Hf.
    destruct Hf as [Hc Hf].
    assert (Hin : In (base f) (map ready rows)).
    { rewrite Hmap. apply filter_In. split; [ exact Hc | apply status_eqb_eq, Hst ]. }
    apply in_map_iff in Hin. destruct Hin as (a0 & Hr0 & Ha0).
    destruct (Hall a0 Ha0) as (Han0 & _ & _). rewrite Hr0 in Han0.
    exists a0. split; [ exact Han0 | ].
    assert (Hown : forall a, In a (List.filter is_positive_value_bet rows) ->
                     key (joined (base f)) = key (joined (ready a)) -> a = a0).
    { intros a Ha Hk. apply filter_In in Ha. destruct Ha as [Ha _].
      destruct (Hall a Ha) as (Han & Hin & _).
      assert (Hr : ready a = base f).
      { apply (NoDup_map_eq (fun c => key (joined c)) _ _ _ HL Hin Hc). auto. }
      rewrite Hr in Han. congruence. }
    split; intros Hpos.
    + destruct Hf as [[_ Hno] | (a & Ha & Hk & ->)].
      * exfalso. apply (Hno a0); [ | rewrite Hr0; reflexivity ].
        apply filter_In. split; [ exact Ha0 | exact Hpos ].
      * rewrite (Hown a Ha Hk). split; reflexivity.
    + destruct Hf as [[-> _] | (a & Ha & Hk & _)]; [ split; reflexivity | ].
      exfalso. pose proof (Hown a Ha Hk) as ->.
      apply filter_In in Ha. destruct Ha as [_ Hp].
      unfold is_positive_value_bet in Hp. congruence.
Qed.

End BestBets.

Lemma reconciliation_output_witness :
  exists out,
    perform_baseball_analysis no_float_of_str
      (Some [boston_odds; chicago_odds; houston_odds])
      (Some [boston_forecast; chicago_forecast; houston_forecast; miami_forecast]) = Ok out /\
    StronglySorted (by_timestamp (fun f => row_timestamp (base f))) out /\
    (forall m,
       In m (pd_merge_outer [boston_odds; chicago_odds; houston_odds]
               [boston_forecast; chicago_forecast; houston_forecast; miami_forecast]) ->
       exists f, In f out /\ base f = classify m) /\
    (forall f, In f out ->
       (final_BestBetTeam f = None /\ final_BestBetValue f = NaN /\
        forall a,
          positive_bet_of no_float_of_str [boston_odds; chicago_odds; houston_odds]
            [boston_forecast; chicago_forecast; houston_forecast; miami_forecast] a ->
          key (joined (ready a)) <> key (joined (base f))) \/
       (exists a,
          positive_bet_of no_float_of_str [boston_odds; chicago_odds; houston_odds]
            [boston_forecast; chicago_forecast; houston_forecast; miami_forecast] a /\
          key (joined (ready a)) = key (joined (base f)) /\
          final_BestBetTeam f = BestBetTeam a /\
          final_BestBetValue f = BestBetValue a /\
          fgt (final_BestBetValue f) (Fin 0) = true)) /\
    (forall f, In f out -> Status (base f) = ReadyForAnalysis ->
       exists a, analyse no_float_of_str (base f) = Ok a /\
         (fgt (BestBetValue a) (Fin 0) = true ->
            final_BestBetTeam f = BestBetTeam a /\ final_BestBetValue f = BestBetValue a) /\
         (fgt (BestBetValue a) (Fin 0) = false ->
            final_BestBetTeam f = None /\ final_BestBetValue f = NaN)).
Proof.
  destruct (reconciliation_output no_float_of_str
              [boston_odds; chicago_odds; houston_odds]
              [boston_forecast; chicago_forecast; houston_forecast; miami_forecast])
    as (out & H1 & H2 & H3 & H4 & H5).
  { intros m Hm _.
    repeat (destruct Hm as [<- | Hm]; [ split; reflexivity | ]).
    destruct Hm. }
  exists out. repeat (split; [ assumption | ]).
  apply H5.
  - repeat constructor; simpl; intuition discriminate.
  - repeat constructor; simpl; intuition discriminate.
Defined.

(** ** MultiPageTableCollector: any pages *)

Lemma scrape_page_ok (fetch : nat -> page_response)
      (all_dfs : list table) (log : list log_entry) (n : nat) :
  fetch n <> PageNoTables ->
  exists entry,
    scrape_page fetch (Ok (all_dfs, log)) n
    = Ok (all_dfs ++ option_list (page_table (fetch n)),
          log ++ [(INFO, ScrapingPage n); entry]) /\
    skipped_pages [entry] = (if request_failed (fetch n) then [n] else []) /\
    announced_pages [entry] = [].
Proof.
  intros Hn. unfold scrape_page. cbn [mbind result_bind].
  destruct (fetch n) as [ | | ts ]; [ | contradiction | ].
  - eexists. rewrite <- app_assoc, app_nil_r. split; [ reflexivity | split; reflexivity ].
  - simpl page_table. destruct (List.find (has_column "Pitchers") ts) as [t | ];
      eexists; rewrite <- app_assoc; simpl option_list; rewrite ?app_nil_r;
      (split; [ reflexivity | split; reflexivity ]).
Qed.

Lemma skipped_pages_app (l l' : list log_entry) :
  skipped_pages (l ++ l') = skipped_pages l ++ skipped_pages l'.
Proof. unfold skipped_pages. apply flat_map_app. Qed.

Lemma announced_pages_app (l l' : list log_entry) :
  announced_pages (l ++ l') = announced_pages l ++ announced_pages l'.
Proof. unfold announced_pages. apply flat_map_app. Qed.

(** Whatever fails, every page is requested, in order; the tables are
    collected in page order, and the log reports the pages whose request
    failed. *)
Lemma collect_pages_spec (fetch : nat -> page_response) (max_pages : nat) :
  (forall n, (n < max_pages)%nat -> fetch n <> PageNoTables) ->
  exists log,
    collect_pages fetch max_pages
    = Ok (flat_map (fun n => option_list (page_table (fetch n))) (seq 0 max_pages), log) /\
    skipped_pages log = List.filter (fun n => request_failed (fetch n)) (seq 0 max_pages) /\
    announced_pages log = seq 0 max_pages.
Proof.
  unfold collect_pages. induction max_pages as [ | k IH ]; intros Hok.
  - exists []. repeat split.
  - destruct IH as (log & Hc & Hs & Ha); [ intros n Hn; apply Hok; lia | ].
    rewrite seq_S. cbn [Nat.add]. rewrite foldl_app. cbn [foldl]. rewrite Hc.
    destruct (scrape_page_ok fetch
                (flat_map (fun n => option_list (page_table (fetch n))) (seq 0 k)) log k)
      as (entry & Hp & Hse & Hae); [ apply Hok; lia | ].
    rewrite Hp. eexists. split; [ | split ].
    + rewrite flat_map_app. simpl flat_map. rewrite app_nil_r. reflexivity.
    + rewrite skipped_pages_app, Hs, List.filter_app.
      change [(INFO, ScrapingPage k); entry] with ([(INFO, ScrapingPage k)] ++ [entry]).
      rewrite skipped_pages_app, Hse. simpl. destruct (request_failed (fetch k)); reflexivity.
    + rewrite announced_pages_app, Ha.
      change [(INFO, ScrapingPage k); entry] with ([(INFO, ScrapingPage k)] ++ [entry]).
      rewrite announced_pages_app, Hae. reflexivity.
Qed.

Lemma union_columns_In (c : string) (cs : list string) :
  forall seen, In c (union_columns seen cs) <-> In c seen \/ In c cs.
Proof.
  induction cs as [ | c0 cs IH ]; intros seen; simpl.
  - tauto.
  - destruct (bool_decide (c0 ∈ seen)) eqn:E.
    + rewrite IH. apply bool_decide_eq_true in E. apply list_elem_of_In in E.
      split; [ tauto | ]. intros [H | [<- | H]]; auto.
    + rewrite IH, in_app_iff. simpl. tauto.
Qed.

Lemma pd_concat_columns (c : string) (dfs : list table) :
  In c (columns (pd_concat dfs)) <-> exists t, In t dfs /\ In c (columns t).
Proof.
  unfold pd_concat. cbn [columns].
  assert (H : forall seen,
            In c (foldl (fun seen t => union_columns seen (columns t)) seen dfs)
            <-> In c seen \/ exists t, In t dfs /\ In c (columns t)).
  { induction dfs as [ | t dfs IH ]; intros seen; simpl.
    - split; [ tauto | ]. intros [H | (t & [] & _)]. exact H.
    - rewrite IH, union_columns_In. split.
      + intros [[H | H] | (t' & H1 & H2)]; [ tauto | right; exists t; auto | right; exists t'; auto ].
      + intros [H | (t' & [<- | H1] & H2)]; [ tauto | tauto | right; exists t'; auto ]. }
  rewrite H. simpl. split; [ intros [[] | H']; exact H' | tauto ].
Qed.

Section CollectorOutcomes.

Variable clean_up : table -> result table.

(** The collector on any three pages none of which is a document without
    tables: every page is announced in order and the pages whose request
    failed are the ones reported as skipped; with no "Pitchers" table on any
    page the result is [None]; when no collected table has a "Teams" column
    [drop_duplicates] raises [KeyError]; otherwise the clean-up receives the
    collected tables concatenated in page order, with the first row of each
    "Teams" value kept. *)
Theorem scrape_dratings_data_outcomes (fetch : nat -> page_response) :
  (forall n, (n < 3)%nat -> fetch n <> PageNoTables) ->
  exists log,
    skipped_pages log = List.filter (fun n => request_failed (fetch n)) [0; 1; 2]%nat /\
    announced_pages log = [0; 1; 2]%nat /\
    let all_dfs := flat_map (fun n => option_list (page_table (fetch n))) [0; 1; 2]%nat in
    (all_dfs = [] ->
       scrape_dratings_data clean_up fetch = Ok (None, log ++ [(ERROR, FailedToScrapeAny)])) /\
    (all_dfs <> [] -> (forall t, In t all_dfs -> ~ In "Teams"%string (columns t)) ->
       scrape_dratings_data clean_up fetch = Raise KeyError) /\
    (forall t, In t all_dfs -> In "Teams"%string (columns t) ->
       scrape_dratings_data clean_up fetch
       = (df ← clean_up {| columns := columns (pd_concat all_dfs);
                           rows := keep_first "Teams" [] (flat_map rows all_dfs) |};
          mret (Some df, log))).
Proof.
  intros Hok. destruct (collect_pages_spec fetch 3 Hok) as (log & Hc & Hs & Ha).
  exists log. split; [ exact Hs | split; [ exact Ha | ] ].
  change (seq 0 3) with [0; 1; 2]%nat in Hc.
  intros all_dfs. fold all_dfs in Hc.
  unfold scrape_dratings_data. rewrite Hc. cbn [mbind result_bind].
  split; [ | split ].
  - intros ->. reflexivity.
  - intros Hne Hno. destruct all_dfs as [ | t0 ts ] eqn:E; [ contradiction | ].
    rewrite <- E in *. unfold drop_duplicates.
    assert (Hc' : has_column "Teams" (pd_concat all_dfs) = false).
    { unfold has_column. apply bool_decide_eq_false. rewrite list_elem_of_In.
      rewrite pd_concat_columns. intros (t & Ht & Hin). apply (Hno t Ht Hin). }
    rewrite E in Hc' |- *. rewrite Hc'. reflexivity.
  - intros t Ht Hin. destruct all_dfs as [ | t0 ts ] eqn:E; [ contradiction | ].
    rewrite <- E in *. unfold drop_duplicates.
    assert (Hc' : has_column "Teams" (pd_concat all_dfs) = true).
    { unfold has_column. apply bool_decide_eq_true. rewrite list_elem_of_In.
      rewrite pd_concat_columns. exists t. auto. }
    rewrite E in Hc' |- *. rewrite Hc'. reflexivity.
Qed.

End CollectorOutcomes.

(** ** The properties above on concrete inputs *)


Lemma every_game_reaches_output_witness :
  exists out,
    perform_baseball_analysis no_float_of_str
      (Some [boston_odds; houston_odds]) (Some [houston_forecast; miami_forecast]) = Ok out /\
    (forall o, In o [boston_odds; houston_odds] ->
       exists f, In f out /\
         key (joined (base f)) = sbri_key o /\
         Home_MLOdds (joined (base f)) = sbri_Home_MLOdds o /\
         Away_MLOdds (joined (base f)) = sbri_Away_MLOdds o /\
         odds_other (joined (base f)) = sbri_other o) /\
    (forall p, In p [houston_forecast; miami_forecast] ->
       exists f, In f out /\
         key (joined (base f)) = dratings_key p /\
         HomeWinProb_pred (joined (base f)) = dratings_HomeWinProb_pred p /\
         AwayWinProb_pred (joined (base f)) = dratings_AwayWinProb_pred p /\
         Teams (joined (base f)) = dratings_Teams p /\
         pred_other (joined (base f)) = dratings_other p) /\
    (forall f, In f out ->
       ((exists o, In o [boston_odds; houston_odds] /\ sbri_key o = key (joined (base f)) /\
                   Home_MLOdds (joined (base f)) = sbri_Home_MLOdds o /\
                   Away_MLOdds (joined (base f)) = sbri_Away_MLOdds o) \/
        ((forall o, In o [boston_odds; houston_odds] -> sbri_key o <> key (joined (base f))) /\
         Home_MLOdds (joined (base f)) = NaN /\ Away_MLOdds (joined (base f)) = NaN)) /\
       ((exists p, In p [houston_forecast; miami_forecast] /\
                   dratings_key p = key (joined (base f)) /\
                   HomeWinProb_pred (joined (base f)) = dratings_HomeWinProb_pred p /\
                   AwayWinProb_pred (joined (base f)) = dratings_AwayWinProb_pred p) \/
        ((forall p, In p [houston_forecast; miami_forecast] ->
                    dratings_key p <> key (joined (base f))) /\
         HomeWinProb_pred (joined (base f)) = NaN /\
         AwayWinProb_pred (joined (base f)) = NaN))).
Proof.
  destruct (perform_baseball_analysis no_float_of_str
              (Some [boston_odds; houston_odds]) (Some [houston_forecast; miami_forecast]))
    as [out | e] eqn:E; [ | vm_compute in E; discriminate ].
  exists out. split; [ reflexivity | ].
  apply (every_game_reaches_output no_float_of_str _ _ out E).
Defined.

Lemma unmatched_game_has_no_best_bet_witness :
  let f := without_best_bet (classify (right_only miami_forecast)) in
  ((forall o, In o [boston_odds; houston_odds] -> sbri_key o <> key (joined (base f))) ->
     Status (base f) = MissingOdds /\
     Game (joined (base f)) = Teams (joined (base f)) /\
     final_BestBetTeam f = None /\ final_BestBetValue f = NaN) /\
  ((forall p, In p [houston_forecast; miami_forecast] ->
              dratings_key p <> key (joined (base f))) ->
     (Status (base f) = MissingPrediction \/ Status (base f) = MissingOdds) /\
     (Status (base f) = MissingOdds <-> pd_isna_f (Home_MLOdds (joined (base f))) = true) /\
     final_BestBetTeam f = None /\ final_BestBetValue f = NaN).
Proof.
  destruct (perform_baseball_analysis no_float_of_str
              (Some [boston_odds; houston_odds]) (Some [houston_forecast; miami_forecast]))
    as [out | e] eqn:E; [ | vm_compute in E; discriminate ].
  apply (unmatched_game_has_no_best_bet no_float_of_str
           [boston_odds; houston_odds] [houston_forecast; miami_forecast] out _ E).
  vm_compute in E. injection E as <-. left. reflexivity.
Defined.

Lemma unique_keys_output_witness :
  exists out,
    perform_baseball_analysis no_float_of_str
      (Some [boston_odds; chicago_odds; houston_odds])
      (Some [chicago_forecast; houston_forecast; miami_forecast]) = Ok out /\
    Permutation (map base out)
      (map classify (pd_merge_outer [boston_odds; chicago_odds; houston_odds]
                       [chicago_forecast; houston_forecast; miami_forecast])) /\
    forall f, In f out ->
      (Status (base f) <> ReadyForAnalysis ->
         final_BestBetTeam f = None /\ final_BestBetValue f = NaN) /\
      (Status (base f) = ReadyForAnalysis ->
         exists a, analyse no_float_of_str (base f) = Ok a /\
           (fgt (BestBetValue a) (Fin 0) = true ->
              final_BestBetTeam f = BestBetTeam a /\ final_BestBetValue f = BestBetValue a) /\
           (fgt (BestBetValue a) (Fin 0) = false ->
              final_BestBetTeam f = None /\ final_BestBetValue f = NaN)).
Proof.
  destruct (perform_baseball_analysis no_float_of_str
              (Some [boston_odds; chicago_odds; houston_odds])
              (Some [chicago_forecast; houston_forecast; miami_forecast]))
    as [out | e] eqn:E; [ | vm_compute in E; discriminate ].
  exists out. split; [ reflexivity | ].
  apply (unique_keys_output no_float_of_str _ _ out); [ | | exact E ].
  - repeat (constructor; [ cbn; intros H; repeat (destruct H as [H | H]; [ discriminate | ]);
                           exact H | ]).
    constructor.
  - repeat (constructor; [ cbn; intros H; repeat (destruct H as [H | H]; [ discriminate | ]);
                           exact H | ]).
    constructor.
Defined.

(** Without unique keys a best bet is shared: the left merge on the key
    hands Houston's best bet to the unpriced second listing of the game,
    which is classified MissingOdds. *)
Example duplicate_key_shares_best_bet :
  exists out,
    perform_baseball_analysis no_float_of_str
      (Some [houston_odds; houston_odds_unpriced]) (Some [houston_forecast]) = Ok out /\
    map (fun f => (Status (base f), final_BestBetTeam f)) out
    = [ (ReadyForAnalysis, Some "Houston Astros"%string);
        (MissingOdds, Some "Houston Astros"%string) ].
Proof. eexists. split; vm_compute; reflexivity. Qed.

Lemma scrape_dratings_data_outcomes_witness :
  exists log,
    skipped_pages log
    = List.filter (fun n => request_failed (fetch_page2_request_failed n)) [0; 1; 2]%nat /\
    announced_pages log = [0; 1; 2]%nat /\
    let all_dfs :=
      flat_map (fun n => option_list (page_table (fetch_page2_request_failed n))) [0; 1; 2]%nat in
    (all_dfs = [] ->
       scrape_dratings_data Ok fetch_page2_request_failed
       = Ok (None, log ++ [(ERROR, FailedToScrapeAny)])) /\
    (all_dfs <> [] -> (forall t, In t all_dfs -> ~ In "Teams"%string (columns t)) ->
       scrape_dratings_data Ok fetch_page2_request_failed = Raise KeyError) /\
    (forall t, In t all_dfs -> In "Teams"%string (columns t) ->
       scrape_dratings_data Ok fetch_page2_request_failed
       = (df ← Ok {| columns := columns (pd_concat all_dfs);
                     rows := keep_first "Teams" [] (flat_map rows all_dfs) |};
          mret (Some df, log))).
Proof.
  apply (scrape_dratings_data_outcomes Ok fetch_page2_request_failed).
  intros n Hn. destruct n as [ | [ | [ | n ] ] ]; discriminate.
Defined.

(** ** OddsRecordNormalizer: the markets of an event *)

Lemma py_eq_str (v : pyval) (s : string) : py_eq v (PyStr s) = true <-> v = PyStr s.
Proof.
  destruct v as [ | b | z | f | t ]; unfold py_eq; simpl; try (split; [ discriminate | discriminate ]).
  rewrite bool_decide_eq_true. split; congruence.
Qed.

Lemma money_line_teams g s : teams_of (money_line_selection g s) = teams_of g.
Proof.
  unfold teams_of, money_line_selection.
  repeat match goal with |- context [ if ?c then _ else _ ] => destruct c end;
    rewrite ?lookup_total_insert_ne by discriminate; reflexivity.
Qed.

Lemma run_line_teams g s : teams_of (run_line_selection g s) = teams_of g.
Proof.
  unfold teams_of, run_line_selection.
  repeat match goal with |- context [ if ?c then _ else _ ] => destruct c end;
    rewrite ?lookup_total_insert_ne by discriminate; reflexivity.
Qed.

Lemma total_runs_teams g s : teams_of (total_runs_selection g s) = teams_of g.
Proof.
  unfold teams_of, total_runs_selection.
  repeat match goal with |- context [ if ?c then _ else _ ] => destruct c end;
    rewrite ?lookup_total_insert_ne by discriminate; reflexivity.
Qed.

Lemma teams_of_inv (g g' : gmap string pyval) :
  teams_of g' = teams_of g ->
  g' !!! "AwayTeam"%string = g !!! "AwayTeam"%string /\
  g' !!! "HomeTeam"%string = g !!! "HomeTeam"%string.
Proof. unfold teams_of. intros H. inversion H. auto. Qed.

Ltac commute_steps L1 L2 :=
  intros;
  match goal with
  | |- ?f (?h ?g ?y) ?x = _ =>
      let H1 := fresh in
      let H2 := fresh in
      pose proof (teams_of_inv g (h g y) (L2 g y)) as H1;
      pose proof (teams_of_inv g (f g x) (L1 g x)) as H2;
      destruct H1 as [? ?]; destruct H2 as [? ?]
  end;
  unfold money_line_selection, run_line_selection, total_runs_selection in *;
  repeat match goal with
         | H : _ !!! _ = _ !!! _ |- _ => rewrite H; clear H
         end;
  repeat match goal with
         | |- context [ if ?c then _ else _ ] => destruct c
         end;
  try reflexivity;
  apply map_eq; intros k;
  repeat (rewrite lookup_insert; case_decide; subst);
  congruence.

Lemma money_run_commute :
  forall g x y, money_line_selection (run_line_selection g y) x
                = run_line_selection (money_line_selection g x) y.
Proof. commute_steps money_line_teams run_line_teams. Qed.

Lemma money_total_commute :
  forall g x y, money_line_selection (total_runs_selection g y) x
                = total_runs_selection (money_line_selection g x) y.
Proof. commute_steps money_line_teams total_runs_teams. Qed.

Lemma run_total_commute :
  forall g x y, run_line_selection (total_runs_selection g y) x
                = total_runs_selection (run_line_selection g x) y.
Proof. commute_steps run_line_teams total_runs_teams. Qed.

Lemma foldl_commute {A B C} (f : A -> B -> A) (h : A -> C -> A) :
  (forall a x y, f (h a y) x = h (f a x) y) ->
  forall xs ys a, foldl f (foldl h a ys) xs = foldl h (foldl f a xs) ys.
Proof.
  intros Hc.
  assert (H1 : forall ys a x, f (foldl h a ys) x = foldl h (f a x) ys).
  { induction ys as [ | y ys IH ]; intros a x; simpl; [ reflexivity | ].
    rewrite IH, Hc. reflexivity. }
  induction xs as [ | x xs IH ]; intros ys a; simpl; [ reflexivity | ].
  rewrite H1. apply IH.
Qed.

Lemma process_market_kind (g : gmap string pyval) (m : market) :
  process_market g m
  = match kind_of m with
    | MoneyLine => foldl money_line_selection g (selections m)
    | RunLine => foldl run_line_selection g (selections m)
    | TotalRuns => foldl total_runs_selection g (selections m)
    | OtherMarket => g
    end.
Proof.
  unfold process_market, kind_of.
  destruct (py_eq (mkt_name m) (PyStr "Money Line")) eqn:E1.
  - apply py_eq_str in E1. rewrite E1. reflexivity.
  - destruct (py_eq (mkt_name m) (PyStr "Run Line")) eqn:E2.
    + apply py_eq_str in E2. rewrite E2. reflexivity.
    + destruct (py_eq (mkt_name m) (PyStr "Total Runs")); reflexivity.
Qed.

Lemma kind_of_name (m m' : market) :
  kind_of m = kind_of m' -> kind_of m <> OtherMarket -> mkt_name m = mkt_name m'.
Proof.
  unfold kind_of.
  destruct (py_eq (mkt_name m) (PyStr "Money Line")) eqn:E1;
    destruct (py_eq (mkt_name m') (PyStr "Money Line")) eqn:F1;
    try (apply py_eq_str in E1); try (apply py_eq_str in F1); try congruence;
    try (intros H; repeat case_match; discriminate).
  destruct (py_eq (mkt_name m) (PyStr "Run Line")) eqn:E2;
    destruct (py_eq (mkt_name m') (PyStr "Run Line")) eqn:F2;
    try (apply py_eq_str in E2); try (apply py_eq_str in F2); try congruence;
    try (intros H; repeat case_match; discriminate).
  destruct (py_eq (mkt_name m) (PyStr "Total Runs")) eqn:E3;
    destruct (py_eq (mkt_name m') (PyStr "Total Runs")) eqn:F3;
    try (apply py_eq_str in E3); try (apply py_eq_str in F3); try congruence.
Qed.

Lemma recognised_market_kind (m : market) :
  recognised_market m = false <-> kind_of m = OtherMarket.
Proof.
  unfold recognised_market, kind_of.
  destruct (py_eq (mkt_name m) (PyStr "Money Line")),
           (py_eq (mkt_name m) (PyStr "Run Line")),
           (py_eq (mkt_name m) (PyStr "Total Runs")); simpl; split; congruence.
Qed.

Lemma process_market_commute (g : gmap string pyval) (m m' : market) :
  mkt_name m <> mkt_name m' \/ recognised_market m = false ->
  process_market (process_market g m) m' = process_market (process_market g m') m.
Proof.
  intros Hne. rewrite !process_market_kind.
  assert (Hk : kind_of m <> kind_of m' \/ kind_of m = OtherMarket).
  { destruct Hne as [Hne | Hne]; [ | right; apply recognised_market_kind, Hne ].
    destruct (kind_of m) eqn:E; try (right; reflexivity); left; intros Hk;
      apply Hne; apply kind_of_name; congruence. }
  destruct (kind_of m), (kind_of m'); try reflexivity;
    try (destruct Hk as [Hk | Hk]; congruence);
    first [ apply foldl_commute; first [ exact money_run_commute | exact money_total_commute
                                       | exact run_total_commute ]
          | symmetry; apply foldl_commute; first [ exact money_run_commute
                                                 | exact money_total_commute
                                                 | exact run_total_commute ] ].
Qed.

Lemma process_market_other (g : gmap string pyval) (m : market) :
  recognised_market m = false -> process_market g m = g.
Proof.
  intros H. rewrite process_market_kind.
  apply recognised_market_kind in H. rewrite H. reflexivity.
Qed.

Lemma foldl_process_market_filter (ms : list market) :
  forall g, foldl process_market g ms
            = foldl process_market g (List.filter recognised_market ms).
Proof.
  induction ms as [ | m ms IH ]; intros g; [ reflexivity | ].
  simpl. destruct (recognised_market m) eqn:E.
  - simpl. apply IH.
  - rewrite (process_market_other g m E). apply IH.
Qed.

Lemma foldl_process_market_perm (ms ms' : list market) :
  Permutation ms ms' -> List.NoDup (map mkt_name ms) ->
  forall g, foldl process_market g ms = foldl process_market g ms'.
Proof.
  induction 1 as [ | m ms ms' Hp IH | m m' ms | ms1 ms2 ms3 Hp1 IH1 Hp2 IH2 ];
    intros Hnd g.
  - reflexivity.
  - simpl. apply IH. simpl in Hnd. apply List.NoDup_cons_iff in Hnd. apply Hnd.
  - simpl. f_equal. apply process_market_commute. left.
    simpl in Hnd. apply List.NoDup_cons_iff in Hnd. destruct Hnd as [Hnd _].
    intros E. apply Hnd. left. symmetry. exact E.
  - rewrite IH1 by exact Hnd. apply IH2.
    eapply Permutation_NoDup; [ apply Permutation_map, Hp1 | exact Hnd ].
Qed.

Section MarketOrder.

Variable to_numeric_str : string -> pyfloat.
Variable to_datetime : pyval -> result pyval.

(** The record of an event depends only on its recognised markets ("Money
    Line", "Run Line", "Total Runs"), and not on the order in which the feed
    lists them: two events with the same fields whose recognised markets are
    the same up to order, each name occurring once, give the same record (or
    raise alike).  Markets with any other name are ignored. *)
Theorem market_order_irrelevant (e e' : event) :
  sportname e' = sportname e -> tsstart e' = tsstart e ->
  externaldescription e' = externaldescription e ->
  shortnameaway e' = shortnameaway e -> shortnamehome e' = shortnamehome e ->
  Permutation (List.filter recognised_market (markets e))
              (List.filter recognised_market (markets e')) ->
  List.NoDup (map mkt_name (List.filter recognised_market (markets e))) ->
  game_data_of to_datetime e' = game_data_of to_datetime e /\
  normalize_event to_numeric_str to_datetime e'
  = normalize_event to_numeric_str to_datetime e.
Proof.
  intros H1 H2 H3 H4 H5 Hp Hnd.
  assert (Hg : game_data_of to_datetime e' = game_data_of to_datetime e).
  { unfold game_data_of. rewrite H2.
    destruct (to_datetime (tsstart e)) as [t | x]; [ | reflexivity ].
    cbn [mbind result_bind mret result_ret]. f_equal.
    assert (Hi : initial_game_data e' t = initial_game_data e t).
    { unfold initial_game_data. rewrite H1, H3, H4, H5. reflexivity. }
    rewrite Hi.
    rewrite (foldl_process_market_filter (markets e')),
            (foldl_process_market_filter (markets e)).
    symmetry. apply foldl_process_market_perm; assumption. }
  split; [ exact Hg | ].
  unfold normalize_event. rewrite Hg. reflexivity.
Qed.

End MarketOrder.

Lemma same_identity_refl g : same_identity g g.
Proof. repeat split. Qed.

Lemma same_identity_trans g1 g2 g3 :
  same_identity g1 g2 -> same_identity g2 g3 -> same_identity g1 g3.
Proof.
  unfold same_identity. intros (A1 & A2 & A3 & A4 & A5) (B1 & B2 & B3 & B4 & B5).
  repeat split; congruence.
Qed.

Lemma same_identity_insert g k v :
  ~ In k ["Sport"; "GameStart"; "Game"; "AwayTeam"; "HomeTeam"]%string ->
  same_identity g (<[k := v]> g).
Proof.
  intros Hk. unfold same_identity.
  repeat split; apply lookup_insert_ne; intros ->; apply Hk; simpl; tauto.
Qed.

Lemma has_sbri_columns_insert g k v :
  In k sbri_columns -> has_sbri_columns g -> has_sbri_columns (<[k := v]> g).
Proof.
  intros Hk Hg j. rewrite lookup_insert_is_Some. rewrite (Hg j).
  split; [ intros [<- | [_ H]]; auto | ].
  intros Hj. destruct (decide (k = j)); [ left; auto | right; auto ].
Qed.

Lemma keeps_record_refl g : keeps_record g g.
Proof. split; [ apply same_identity_refl | auto ]. Qed.

Lemma keeps_record_trans g1 g2 g3 :
  keeps_record g1 g2 -> keeps_record g2 g3 -> keeps_record g1 g3.
Proof.
  intros [A B] [C D]. split; [ eapply same_identity_trans; eauto | auto ].
Qed.

Lemma keeps_record_insert g k v :
  In k ["Away MLOdds"; "Home MLOdds"; "HomeSpread"; "AwaySpreadOdds"; "HomeSpreadOdds";
        "UnderOdds"; "OverOdds"; "Handicap"]%string ->
  keeps_record g (<[k := v]> g).
Proof.
  intros Hk. split.
  - apply same_identity_insert. simpl in *. intuition (subst; discriminate).
  - apply has_sbri_columns_insert. unfold sbri_columns. simpl in *. intuition.
Qed.

Ltac keeps_step :=
  repeat match goal with
         | |- keeps_record _ (if ?c then _ else _) => destruct c
         | |- keeps_record ?g ?g => apply keeps_record_refl
         | |- keeps_record ?g (<[ _ := _ ]> ?g) => apply keeps_record_insert; simpl; tauto
         | |- keeps_record ?g (<[ _ := _ ]> (<[ ?k := ?v ]> ?g)) =>
             apply (keeps_record_trans g (<[k := v]> g));
             apply keeps_record_insert; simpl; tauto
         end.

Lemma keeps_record_money_line g s : keeps_record g (money_line_selection g s).
Proof. unfold money_line_selection. keeps_step. Qed.

Lemma keeps_record_run_line g s : keeps_record g (run_line_selection g s).
Proof. unfold run_line_selection. keeps_step. Qed.

Lemma keeps_record_total_runs g s : keeps_record g (total_runs_selection g s).
Proof. unfold total_runs_selection. keeps_step. Qed.

Lemma keeps_record_foldl {B} (step : gmap string pyval -> B -> gmap string pyval)
      (l : list B) :
  (forall g x, keeps_record g (step g x)) -> forall g, keeps_record g (foldl step g l).
Proof.
  intros Hs. induction l as [ | x l IH ]; intros g; simpl; [ apply keeps_record_refl | ].
  eapply keeps_record_trans; [ apply Hs | apply IH ].
Qed.

Lemma keeps_record_process_market g m : keeps_record g (process_market g m).
Proof.
  rewrite process_market_kind. destruct (kind_of m).
  - apply keeps_record_foldl, keeps_record_money_line.
  - apply keeps_record_foldl, keeps_record_run_line.
  - apply keeps_record_foldl, keeps_record_total_runs.
  - apply keeps_record_refl.
Qed.

Lemma has_sbri_columns_initial (e : event) (t : pyval) :
  has_sbri_columns (initial_game_data e t).
Proof.
  intros k. unfold initial_game_data, sbri_columns. split.
  - intros [v Hv]. apply elem_of_list_to_map_2 in Hv. apply list_elem_of_In in Hv.
    simpl in Hv. simpl.
    repeat (destruct Hv as [Hv | Hv]; [ inversion Hv; tauto | ]). contradiction.
  - intros Hk. simpl in Hk.
    repeat (destruct Hk as [<- | Hk]; [ eexists; reflexivity | ]). contradiction.
Qed.

Section RecordIdentity.
Variable to_numeric_str : string -> pyfloat.
Variable to_datetime : pyval -> result pyval.

Lemma foldl_convert_col_raise (x : exn) (cols : list string) :
  foldl (convert_col to_numeric_str) (Raise x) cols = Raise x.
Proof. induction cols as [ | c cs IH ]; simpl; auto. Qed.

Lemma convert_cols_keeps (cols : list string) :
  (forall c, In c cols -> In c odds_cols) ->
  forall g row, foldl (convert_col to_numeric_str) (Ok g) cols = Ok row -> keeps_record g row.
Proof.
  induction cols as [ | c cs IH ]; intros Hc g row H.
  - simpl in H. inversion H. apply keeps_record_refl.
  - change (foldl (convert_col to_numeric_str) (Ok g) (c :: cs))
      with (foldl (convert_col to_numeric_str) (convert_col to_numeric_str (Ok g) c) cs) in H.
    assert (Hstep : convert_col to_numeric_str (Ok g) c
                    = match g !! c with
                      | Some v => a ← convert_to_american_odds (PyFloat (to_numeric to_numeric_str v));
                                  mret (<[c := a]> g)
                      | None => mret g
                      end) by reflexivity.
    rewrite Hstep in H. clear Hstep.
    assert (Hin : In c odds_cols) by (apply Hc; left; reflexivity).
    assert (Hcs : forall c', In c' cs -> In c' odds_cols) by (intros c' H'; apply Hc; right; exact H').
    destruct (g !! c) as [v | ].
    + destruct (convert_to_american_odds (PyFloat (to_numeric to_numeric_str v))) as [a | x];
        cbn [mbind result_bind mret result_ret] in H.
      * eapply keeps_record_trans; [ | apply (IH Hcs _ _ H) ].
        apply keeps_record_insert. unfold odds_cols in Hin. simpl in *. tauto.
      * rewrite foldl_convert_col_raise in H. discriminate.
    + apply (IH Hcs _ _ H).
Qed.

(** Whatever the markets and selections of an event hold, the record keeps
    the event's sport, start time, description and team names as they were
    read, and has exactly the thirteen columns. *)
Theorem normalize_event_identity (e : event) (row : gmap string pyval) :
  normalize_event to_numeric_str to_datetime e = Ok row ->
  exists t, to_datetime (tsstart e) = Ok t /\
    row !! "Sport"%string = Some (sportname e) /\
    row !! "GameStart"%string = Some t /\
    row !! "Game"%string = Some (externaldescription e) /\
    row !! "AwayTeam"%string = Some (shortnameaway e) /\
    row !! "HomeTeam"%string = Some (shortnamehome e) /\
    forall k, is_Some (row !! k) <-> In k sbri_columns.
Proof.
  unfold normalize_event, game_data_of.
  destruct (to_datetime (tsstart e)) as [t | x]; [ | discriminate ].
  cbn [mbind result_bind mret result_ret]. unfold convert_odds. intros H.
  exists t. split; [ reflexivity | ].
  assert (K1 : keeps_record (initial_game_data e t)
                 (foldl process_market (initial_game_data e t) (markets e)))
    by (apply keeps_record_foldl, keeps_record_process_market).
  pose proof (convert_cols_keeps odds_cols (fun c H => H) _ _ H) as K2.
  destruct (keeps_record_trans _ _ _ K1 K2) as [(A1 & A2 & A3 & A4 & A5) Hcols].
  rewrite A1, A2, A3, A4, A5.
  repeat (split; [ reflexivity | ]).
  apply Hcols, has_sbri_columns_initial.
Qed.

End RecordIdentity.

(** ** FixedWidthTableParser: the text handed to [pd.read_fwf] *)

Lemma substring_length_le (s : string) :
  forall n m, (String.length (String.substring n m s) <= m)%nat.
Proof.
  induction s as [ | c s IH ]; intros [ | n ] [ | m ]; simpl; try lia.
  - specialize (IH 0%nat m). lia.
  - specialize (IH n 0%nat). lia.
  - apply IH.
Qed.

Lemma substring_full_length (s : string) :
  forall n m, String.length (String.substring n m s) = m -> (0 < m)%nat ->
              (n + m <= String.length s)%nat.
Proof.
  induction s as [ | c s IH ]; intros [ | n ] [ | m ]; simpl; try lia.
  - intros H _. destruct m as [ | m ].
    + lia.
    + assert (Hl : String.length (String.substring 0 (S m) s) = S m) by lia.
      apply IH in Hl; lia.
  - intros H Hm. apply IH in H; lia.
Qed.

Lemma substring_prefix_substring (s : string) :
  forall p m i, (p + m <= i)%nat ->
                String.substring p m (String.substring 0 i s) = String.substring p m s.
Proof.
  induction s as [ | c s IH ]; intros p m i Hi.
  - destruct i; reflexivity.
  - destruct i as [ | i ].
    + assert (p = 0%nat) by lia. assert (m = 0%nat) by lia. subst. reflexivity.
    + simpl String.substring. destruct p as [ | p ].
      * destruct m as [ | m ]; [ reflexivity | ].
        simpl. f_equal. apply (IH 0%nat m i). lia.
      * simpl. apply IH. lia.
Qed.

Lemma index_substring_before (sep text : string) (i : nat) :
  sep <> EmptyString ->
  String.index 0 sep text = Some i ->
  String.index 0 sep (String.substring 0 i text) = None.
Proof.
  intros Hne Hi.
  destruct (String.index 0 sep (String.substring 0 i text)) as [p | ] eqn:E; [ | reflexivity ].
  exfalso. apply String.index_correct1 in E.
  assert (Hlen : (0 < String.length sep)%nat).
  { destruct sep; [ contradiction | simpl; lia ]. }
  assert (Hp : (p + String.length sep <= i)%nat).
  { pose proof (substring_length_le text 0 i) as Hle.
    assert (Hl : String.length (String.substring p (String.length sep)
                                  (String.substring 0 i text)) = String.length sep)
      by (rewrite E; reflexivity).
    apply substring_full_length in Hl; [ lia | exact Hlen ]. }
  rewrite substring_prefix_substring in E by exact Hp.
  apply (String.index_correct2 _ _ _ _ Hi p); [ lia | lia | exact E ].
Qed.

Lemma substring_0_length (t : string) :
  forall i, String.substring 0 (String.length (String.substring 0 i t)) t
            = String.substring 0 i t.
Proof.
  induction t as [ | c t IH ]; intros [ | i ]; try reflexivity.
  simpl. f_equal. apply IH.
Qed.

Lemma substring_0_whole (t : string) : String.substring 0 (String.length t) t = t.
Proof. induction t as [ | c t IH ]; [ reflexivity | ]. simpl. f_equal. exact IH. Qed.

(** The text parsed as the table never holds the separator line: what
    follows the first run of ten underscores (totals and notes) is cut off,
    and the text is the beginning of what follows the two header lines. *)
Theorem table_text_of_no_separator (full_text : string) (table_start_index : nat) :
  String.index 0 separator (table_text_of full_text table_start_index) = None /\
  String.prefix (table_text_of full_text table_start_index)
                (remainder_after_header full_text table_start_index) = true.
Proof.
  unfold table_text_of.
  destruct (String.index 0 separator (remainder_after_header full_text table_start_index))
    as [i | ] eqn:E.
  - split.
    + apply index_substring_before; [ discriminate | exact E ].
    + apply String.prefix_correct. apply substring_0_length.
  - split; [ exact E | ].
    apply String.prefix_correct. apply substring_0_whole.
Qed.

(** ** The pre-processing of the forecast frame *)

Lemma str_app_cons (c : Ascii.ascii) (a b : string) :
  String c a +:+ b = String c (a +:+ b).
Proof. reflexivity. Qed.

Lemma str_app_nil_l (b : string) : EmptyString +:+ b = b.
Proof. reflexivity. Qed.

Lemma str_app_assoc (a b c : string) : (a +:+ b) +:+ c = a +:+ (b +:+ c).
Proof.
  induction a as [ | x a IH ]; [ reflexivity | ].
  rewrite !str_app_cons, IH. reflexivity.
Qed.

Lemma str_app_nil_r (a : string) : a +:+ EmptyString = a.
Proof.
  induction a as [ | x a IH ]; [ reflexivity | ].
  rewrite str_app_cons, IH. reflexivity.
Qed.

Ltac str_simpl := rewrite ?str_app_cons, ?str_app_nil_l.
Ltac str_simpl_in H := rewrite ?str_app_cons, ?str_app_nil_l in H.

Lemma star_greedy_cons {R} (k : char_class) (rest : string -> option R)
      (c : Ascii.ascii) (s : string) :
  star_greedy k rest (String c s)
  = if class_matches k c then
      match star_greedy k rest s with
      | Some r => Some r
      | None => rest (String c s)
      end
    else rest (String c s).
Proof. reflexivity. Qed.

Lemma re_search_one (k : char_class) (items : list regex_item) (c : Ascii.ascii) (s : string) :
  re_search (One k :: items) (String c s)
  = if class_matches k c then re_search items s else None.
Proof. reflexivity. Qed.

Lemma lstrip_cons (c : Ascii.ascii) (s : string) :
  lstrip (String c s) = if is_space c then lstrip s else String c s.
Proof. reflexivity. Qed.

Lemma all_chars_cons (p : Ascii.ascii -> bool) (c : Ascii.ascii) (s : string) :
  all_chars p (String c s) = p c && all_chars p s.
Proof. reflexivity. Qed.

(** A greedy repetition takes a whole run when the rest then matches. *)
Lemma star_greedy_run {R} (k : char_class) (rest : string -> option R)
      (run s : string) (r : R) :
  all_chars (class_matches k) run = true -> begins_outside k s -> rest s = Some r ->
  star_greedy k rest (run +:+ s) = Some r.
Proof.
  intros Hrun Hs Hr. induction run as [ | c run IH ]; str_simpl.
  - destruct s as [ | c s ]; simpl; [ exact Hr | ]. simpl in Hs. rewrite Hs. exact Hr.
  - simpl in Hrun. apply andb_true_iff in Hrun. destruct Hrun as [Hc Hrun].
    simpl. rewrite Hc, (IH Hrun). reflexivity.
Qed.

(** Blanks followed by "(" cannot match text whose first character after
    its leading blanks is not "(". *)
Lemma star_blanks_then_paren_fails (items : list regex_item) (s : string) :
  match lstrip s with
  | String c _ => Ascii.eqb lparen c = false
  | EmptyString => True
  end ->
  star_greedy Whitespace (re_search (One (Literal lparen) :: items)) s = None.
Proof.
  induction s as [ | c s IH ]; intros H; [ reflexivity | ].
  rewrite lstrip_cons in H. rewrite star_greedy_cons, re_search_one.
  change (class_matches Whitespace c) with (is_space c).
  change (class_matches (Literal lparen) c) with (Ascii.eqb lparen c).
  destruct (is_space c) eqn:Ec.
  - rewrite (IH H).
    assert (Hc : Ascii.eqb lparen c = false).
    { destruct (Ascii.eqb lparen c) eqn:E; [ | reflexivity ].
      apply Ascii.eqb_eq in E. subst c. vm_compute in Ec. discriminate. }
    rewrite Hc. reflexivity.
  - rewrite H. reflexivity.
Qed.

(** A lazy group captures a run when the rest matches after it and after
    no shorter part of it. *)
Lemma star_lazy_run (k : char_class) (rest : string -> option (list string))
      (run s : string) (groups : list string) :
  all_chars (class_matches k) run = true ->
  rest s = Some groups ->
  (forall a b, run = a +:+ b -> b <> EmptyString -> rest (b +:+ s) = None) ->
  forall captured,
    star_lazy k rest captured (run +:+ s) = Some ((captured +:+ run) :: groups).
Proof.
  intros Hrun Hr. induction run as [ | c run IH ]; intros Hshort captured.
  - str_simpl. rewrite str_app_nil_r. destruct s; simpl; rewrite Hr; reflexivity.
  - simpl in Hrun. apply andb_true_iff in Hrun. destruct Hrun as [Hc Hrun].
    assert (Hnone : rest (String c run +:+ s) = None).
    { apply (Hshort EmptyString (String c run)); [ reflexivity | discriminate ]. }
    str_simpl_in Hnone. str_simpl. simpl. rewrite Hnone, Hc.
    rewrite (IH Hrun).
    + rewrite str_app_assoc. reflexivity.
    + intros a b -> Hb. apply (Hshort (String c a) b); [ reflexivity | exact Hb ].
Qed.

Lemma rstrip_tail (c : Ascii.ascii) (s : string) :
  rstrip (String c s) = String c s -> rstrip s = s.
Proof.
  simpl. destruct (is_space c && is_empty (rstrip s)); [ discriminate | ].
  intros H. inversion H. congruence.
Qed.

Lemma rstrip_suffix (a b : string) : rstrip (a +:+ b) = a +:+ b -> rstrip b = b.
Proof.
  induction a as [ | c a IH ]; str_simpl; [ auto | ].
  intros H. apply IH. apply (rstrip_tail c). exact H.
Qed.

Lemma all_chars_app (p : Ascii.ascii -> bool) (a b : string) :
  all_chars p (a +:+ b) = all_chars p a && all_chars p b.
Proof.
  induction a as [ | c a IH ]; str_simpl; simpl; [ reflexivity | ].
  rewrite IH, andb_assoc. reflexivity.
Qed.

(** The first character after the leading blanks of a piece of a name,
    whatever follows the piece, is not "(". *)
Lemma name_piece_lstrip (b s : string) :
  b <> EmptyString -> all_chars name_char b = true -> rstrip b = b ->
  match lstrip (b +:+ s) with
  | String c _ => Ascii.eqb lparen c = false
  | EmptyString => True
  end.
Proof.
  induction b as [ | c b IH ]; intros Hne Hall Hr; [ contradiction | ].
  rewrite all_chars_cons in Hall. apply andb_true_iff in Hall. destruct Hall as [Hc Hall].
  str_simpl. rewrite lstrip_cons. destruct (is_space c) eqn:Ec.
  - apply IH; [ | exact Hall | apply (rstrip_tail c), Hr ].
    intros ->. simpl in Hr. rewrite Ec in Hr. discriminate.
  - unfold name_char in Hc. apply andb_true_iff in Hc. destruct Hc as [_ Hc].
    apply negb_true_iff in Hc. exact Hc.
Qed.

Lemma name_char_any (s : string) :
  all_chars name_char s = true -> all_chars (class_matches AnyChar) s = true.
Proof.
  induction s as [ | c s IH ]; [ reflexivity | ].
  rewrite !all_chars_cons. intros H. apply andb_true_iff in H. destruct H as [Hc H].
  unfold name_char in Hc. apply andb_true_iff in Hc. destruct Hc as [Hc _].
  change (class_matches AnyChar c) with (negb (is_newline c)).
  rewrite Hc, (IH H). reflexivity.
Qed.

(** A run of digits followed by a character that is no digit. *)
Lemma plus_digits (rest : string -> option (list string)) (n s : string)
      (groups : list string) :
  digits n -> begins_outside Digit s -> rest s = Some groups ->
  match n +:+ s with
  | String c s' => if class_matches Digit c then star_greedy Digit rest s' else None
  | EmptyString => None
  end = Some groups.
Proof.
  intros [Hne Hall] Hs Hr. destruct n as [ | c n ]; [ contradiction | ].
  simpl in Hall. apply andb_true_iff in Hall. destruct Hall as [Hc Hall].
  str_simpl. simpl. rewrite Hc. apply star_greedy_run; assumption.
Qed.

(** A win-loss record in brackets matches [record_pattern]. *)
Lemma record_matches (items : list regex_item) (wins losses s : string)
      (groups : list string) :
  digits wins -> digits losses -> re_search items s = Some groups ->
  re_search (record_pattern ++ items) (win_loss wins losses +:+ s) = Some groups.
Proof.
  intros Hw Hl Hr. unfold record_pattern, win_loss.
  rewrite !str_app_assoc.
  change (re_search ([One (Literal lparen); Plus Digit; One (Literal hyphen); Plus Digit;
                      One (Literal rparen)] ++ items)
            ("(" +:+ wins +:+ "-" +:+ losses +:+ ")" +:+ s))
    with (match wins +:+ "-" +:+ losses +:+ ")" +:+ s with
          | String c s' =>
              if class_matches Digit c
              then star_greedy Digit
                     (re_search (One (Literal hyphen) :: Plus Digit :: One (Literal rparen) :: items))
                     s'
              else None
          | EmptyString => None
          end).
  apply plus_digits; [ exact Hw | reflexivity | ].
  change (re_search (One (Literal hyphen) :: Plus Digit :: One (Literal rparen) :: items)
            ("-" +:+ losses +:+ ")" +:+ s))
    with (match losses +:+ ")" +:+ s with
          | String c s' =>
              if class_matches Digit c
              then star_greedy Digit (re_search (One (Literal rparen) :: items)) s'
              else None
          | EmptyString => None
          end).
  apply plus_digits; [ exact Hl | reflexivity | ].
  exact Hr.
Qed.

Lemma begins_outside_name (s t : string) :
  s <> EmptyString -> lstrip s = s -> begins_outside Whitespace (s +:+ t).
Proof.
  destruct s as [ | c s ]; [ contradiction | ]. intros _ H. str_simpl. simpl in *.
  destruct (is_space c) eqn:E; [ | reflexivity ].
  exfalso. assert (Hl : (String.length (lstrip s) <= String.length s)%nat).
  { clear. induction s as [ | c s IH ]; simpl; [ lia | ].
    destruct (is_space c); simpl; lia. }
  rewrite H in Hl. simpl in Hl. lia.
Qed.

(** The part of the pattern after the second name. *)
Lemma tail_matches (blanks3 wins losses : string) :
  blanks blanks3 -> digits wins -> digits losses ->
  re_search (Star Whitespace :: record_pattern) (blanks3 +:+ win_loss wins losses) = Some [].
Proof.
  intros Hb Hw Hl.
  change (re_search (Star Whitespace :: record_pattern) (blanks3 +:+ win_loss wins losses))
    with (star_greedy Whitespace (re_search record_pattern) (blanks3 +:+ win_loss wins losses)).
  apply star_greedy_run; [ exact Hb | reflexivity | ].
  rewrite <- (app_nil_r record_pattern), <- (str_app_nil_r (win_loss wins losses)).
  apply record_matches; [ exact Hw | exact Hl | reflexivity ].
Qed.

Lemma after_piece_fails (items : list regex_item) (name a b s : string) :
  all_chars name_char name = true -> rstrip name = name ->
  name = a +:+ b -> b <> EmptyString ->
  re_search (Star Whitespace :: One (Literal lparen) :: items) (b +:+ s) = None.
Proof.
  intros Hall Hr -> Hb.
  change (re_search (Star Whitespace :: One (Literal lparen) :: items) (b +:+ s))
    with (star_greedy Whitespace (re_search (One (Literal lparen) :: items)) (b +:+ s)).
  apply star_blanks_then_paren_fails. apply name_piece_lstrip; [ exact Hb | | ].
  - rewrite all_chars_app in Hall. apply andb_true_iff in Hall. apply Hall.
  - apply (rstrip_suffix a b Hr).
Qed.

(** The pattern on a well-formed cell: the two groups are the two names. *)
Lemma teams_pattern_matches
      (away home blanks1 blanks2 blanks3 w1 l1 w2 l2 : string) :
  team_name away -> team_name home ->
  blanks blanks1 -> blanks blanks2 -> blanks blanks3 ->
  digits w1 -> digits l1 -> digits w2 -> digits l2 ->
  re_search teams_pattern
    (away +:+ blanks1 +:+ win_loss w1 l1 +:+ blanks2 +:+ home +:+ blanks3 +:+ win_loss w2 l2)
  = Some [away; home].
Proof.
  intros (Ha0 & Ha1 & Ha2 & Ha3) (Hh0 & Hh1 & Hh2 & Hh3) B1 B2 B3 D1 D2 D3 D4.
  assert (T2 : star_lazy AnyChar (re_search (Star Whitespace :: record_pattern)) EmptyString
                 (home +:+ blanks3 +:+ win_loss w2 l2) = Some [home]).
  { rewrite (star_lazy_run AnyChar _ home (blanks3 +:+ win_loss w2 l2) []);
      [ reflexivity | apply name_char_any, Hh1 | apply tail_matches; assumption | ].
    intros a b E Hb. apply (after_piece_fails _ home a b); assumption. }
  unfold teams_pattern.
  change (re_search (LazyStarGroup AnyChar :: Star Whitespace :: record_pattern
                     ++ Star Whitespace :: LazyStarGroup AnyChar :: Star Whitespace
                        :: record_pattern) ?s)
    with (star_lazy AnyChar
            (re_search (Star Whitespace :: record_pattern
                        ++ Star Whitespace :: LazyStarGroup AnyChar :: Star Whitespace
                           :: record_pattern)) EmptyString s).
  rewrite (star_lazy_run AnyChar _ away
             (blanks1 +:+ win_loss w1 l1 +:+ blanks2 +:+ home +:+ blanks3 +:+ win_loss w2 l2)
             [home]); [ reflexivity | apply name_char_any, Ha1 | | ].
  - change (re_search (Star Whitespace :: ?p) ?s) with (star_greedy Whitespace (re_search p) s).
    apply star_greedy_run; [ exact B1 | reflexivity | ].
    apply record_matches; [ exact D1 | exact D2 | ].
    change (re_search (Star Whitespace :: ?p) ?s) with (star_greedy Whitespace (re_search p) s).
    apply star_greedy_run; [ exact B2 | apply begins_outside_name; assumption | ].
    exact T2.
  - intros a b E Hb. apply (after_piece_fails _ away a b); assumption.
Qed.

Lemma strip_name (s : string) : lstrip s = s -> rstrip s = s -> strip s = s.
Proof. intros Hl Hr. unfold strip. rewrite Hl. exact Hr. Qed.

Lemma extract_teams_names
      (away home blanks1 blanks2 blanks3 w1 l1 w2 l2 : string) :
  team_name away -> team_name home ->
  blanks blanks1 -> blanks blanks2 -> blanks blanks3 ->
  digits w1 -> digits l1 -> digits w2 -> digits l2 ->
  extract_teams
    (PyStr (away +:+ blanks1 +:+ win_loss w1 l1 +:+ blanks2
            +:+ home +:+ blanks3 +:+ win_loss w2 l2))
  = (Some away, Some home).
Proof.
  intros Ha Hh B1 B2 B3 D1 D2 D3 D4. unfold extract_teams.
  rewrite (teams_pattern_matches away home blanks1 blanks2 blanks3 w1 l1 w2 l2)
    by assumption.
  destruct Ha as (_ & _ & Ha2 & Ha3). destruct Hh as (_ & _ & Hh2 & Hh3).
  rewrite (strip_name away Ha2 Ha3), (strip_name home Hh2 Hh3). reflexivity.
Qed.

(** The "Win" column. *)
Lemma split_on_cons (sep : Ascii.ascii) (cur : string) (c : Ascii.ascii) (s : string) :
  split_on sep cur (String c s)
  = if Ascii.eqb c sep then cur :: split_on sep EmptyString s
    else split_on sep (cur +:+ String c EmptyString) s.
Proof. reflexivity. Qed.

Lemma percent_free_blank (c : Ascii.ascii) : percent_free c = true -> Ascii.eqb c blank = false.
Proof.
  unfold percent_free. intros H. apply andb_true_iff in H. destruct H as [H _].
  apply negb_true_iff in H. exact H.
Qed.

Lemma percent_free_percent (c : Ascii.ascii) :
  percent_free c = true -> Ascii.eqb c percent = false.
Proof.
  unfold percent_free. intros H. apply andb_true_iff in H. destruct H as [_ H].
  apply negb_true_iff in H. exact H.
Qed.

Lemma split_on_free (p s : string) :
  all_chars percent_free p = true ->
  forall cur, split_on blank cur (p +:+ s) = split_on blank (cur +:+ p) s.
Proof.
  induction p as [ | c p IH ]; intros Hp cur.
  - rewrite str_app_nil_l, str_app_nil_r. reflexivity.
  - rewrite all_chars_cons in Hp. apply andb_true_iff in Hp. destruct Hp as [Hc Hp].
    rewrite str_app_cons, split_on_cons, (percent_free_blank c Hc), (IH Hp).
    rewrite str_app_assoc. reflexivity.
Qed.

Lemma win_pieces_well_formed (p q : string) :
  all_chars percent_free p = true -> all_chars percent_free q = true ->
  win_pieces (PyStr (p +:+ "% " +:+ q +:+ "%")) = [p +:+ "%"; q +:+ "%"].
Proof.
  intros Hp Hq. unfold win_pieces, str_split.
  rewrite (split_on_free p _ Hp). rewrite str_app_nil_l.
  change ("% " +:+ q +:+ "%") with (String percent (String blank (q +:+ "%"))).
  rewrite split_on_cons.
  change (Ascii.eqb percent blank) with false. cbv iota.
  rewrite split_on_cons. change (Ascii.eqb blank blank) with true. cbv iota.
  rewrite (split_on_free q _ Hq). rewrite str_app_nil_l.
  change "%" with (String percent EmptyString).
  rewrite split_on_cons. change (Ascii.eqb percent blank) with false. cbv iota.
  reflexivity.
Qed.

Lemma lstrip_char_cons (ch c : Ascii.ascii) (s : string) :
  lstrip_char ch (String c s) = if Ascii.eqb c ch then lstrip_char ch s else String c s.
Proof. reflexivity. Qed.

Lemma rstrip_char_cons (ch c : Ascii.ascii) (s : string) :
  rstrip_char ch (String c s)
  = if Ascii.eqb c ch && is_empty (rstrip_char ch s) then EmptyString
    else String c (rstrip_char ch s).
Proof. reflexivity. Qed.

Lemma rstrip_char_free (p : string) :
  all_chars percent_free p = true -> rstrip_char percent (p +:+ "%") = p.
Proof.
  induction p as [ | c p IH ]; intros Hp; [ reflexivity | ].
  rewrite all_chars_cons in Hp. apply andb_true_iff in Hp. destruct Hp as [Hc Hp].
  rewrite str_app_cons, rstrip_char_cons, (percent_free_percent c Hc), (IH Hp).
  reflexivity.
Qed.

Lemma strip_char_free (p : string) :
  all_chars percent_free p = true -> strip_char percent (p +:+ "%") = p.
Proof.
  intros Hp. unfold strip_char. destruct p as [ | c p ]; [ reflexivity | ].
  pose proof Hp as Hp'. rewrite all_chars_cons in Hp'. apply andb_true_iff in Hp'.
  destruct Hp' as [Hc _].
  rewrite str_app_cons, lstrip_char_cons, (percent_free_percent c Hc).
  rewrite <- str_app_cons. apply rstrip_char_free. exact Hp.
Qed.

Section ForecastRow.

Variable to_numeric_str : string -> pyfloat.

(** A forecast row with a well-formed "Teams" cell and a "Win" cell of two
    percentages: the first name and the first percentage go to the away
    side, the second ones to the home side, each percentage divided by 100;
    the records and the spacing leave no trace in the key. *)
Theorem clean_dratings_row_well_formed
      (r : gmap string pyval) (instant : option Z)
      (away home blanks1 blanks2 blanks3 w1 l1 w2 l2 p q : string) :
  team_name away -> team_name home ->
  blanks blanks1 -> blanks blanks2 -> blanks blanks3 ->
  digits w1 -> digits l1 -> digits w2 -> digits l2 ->
  all_chars percent_free p = true -> all_chars percent_free q = true ->
  r !! "Teams"%string
  = Some (PyStr (away +:+ blanks1 +:+ win_loss w1 l1 +:+ blanks2
                 +:+ home +:+ blanks3 +:+ win_loss w2 l2)) ->
  r !! "Win"%string = Some (PyStr (p +:+ "% " +:+ q +:+ "%")) ->
  dratings_key (clean_dratings_row to_numeric_str r instant)
  = {| Timestamp := instant; HomeTeam := Some home; AwayTeam := Some away |} /\
  dratings_AwayWinProb_pred (clean_dratings_row to_numeric_str r instant)
  = fdiv (to_numeric_str p) (Fin 100) /\
  dratings_HomeWinProb_pred (clean_dratings_row to_numeric_str r instant)
  = fdiv (to_numeric_str q) (Fin 100).
Proof.
  intros Ha Hh B1 B2 B3 D1 D2 D3 D4 Hp Hq Ht Hw.
  unfold clean_dratings_row, cell_of. rewrite Ht, Hw.
  cbn [dratings_key dratings_AwayWinProb_pred dratings_HomeWinProb_pred].
  rewrite (extract_teams_names away home blanks1 blanks2 blanks3 w1 l1 w2 l2)
    by assumption.
  rewrite (win_pieces_well_formed p q Hp Hq).
  unfold win_prob. cbn [lookup list_lookup].
  rewrite (strip_char_free p Hp), (strip_char_free q Hq).
  repeat split.
Qed.

End ForecastRow.

Lemma star_lazy_fails (k : char_class) (rest : string -> option (list string)) (s : string) :
  (forall a b, s = a +:+ b -> rest b = None) ->
  forall captured, star_lazy k rest captured s = None.
Proof.
  induction s as [ | c s IH ]; intros Hr captured.
  - simpl. rewrite (Hr EmptyString EmptyString eq_refl). reflexivity.
  - assert (H0 : rest (String c s) = None) by (apply (Hr EmptyString); reflexivity).
    simpl. rewrite H0. destruct (class_matches k c); [ | reflexivity ].
    apply IH. intros a b ->. apply (Hr (String c a)). reflexivity.
Qed.

Lemma lstrip_no_paren (s : string) :
  all_chars (fun c => negb (Ascii.eqb lparen c)) s = true ->
  match lstrip s with
  | String c _ => Ascii.eqb lparen c = false
  | EmptyString => True
  end.
Proof.
  induction s as [ | c s IH ]; intros H; [ exact I | ].
  rewrite all_chars_cons in H. apply andb_true_iff in H. destruct H as [Hc H].
  rewrite lstrip_cons. destruct (is_space c); [ apply IH, H | ].
  apply negb_true_iff in Hc. exact Hc.
Qed.

(** A cell that is not text, or text without any "(", gives no names: both
    columns hold NaN. *)
Theorem extract_teams_without_record (cell : pyval) :
  match cell with
  | PyStr s => all_chars (fun c => negb (Ascii.eqb lparen c)) s = true
  | _ => True
  end ->
  extract_teams cell = (None, None).
Proof.
  destruct cell as [ | b | z | f | s ]; try reflexivity.
  intros H. unfold extract_teams.
  assert (E : re_search teams_pattern s = None).
  { unfold teams_pattern.
    change (re_search (LazyStarGroup AnyChar :: ?p) s)
      with (star_lazy AnyChar (re_search p) EmptyString s).
    apply star_lazy_fails. intros a b ->.
    change (re_search ((Star Whitespace :: record_pattern) ++ ?p) b)
      with (star_greedy Whitespace (re_search (One (Literal lparen) ::
              [Plus Digit; One (Literal hyphen); Plus Digit; One (Literal rparen)] ++ p)) b).
    apply star_blanks_then_paren_fails. apply lstrip_no_paren.
    rewrite all_chars_app in H. apply andb_true_iff in H. apply H. }
  rewrite E. reflexivity.
Qed.

Section EndToEnd.

Variable float_of_str : string -> option pyfloat.
Variable to_numeric_str : string -> pyfloat.
Variable has_str_accessor : table -> string -> bool.
Variable to_instants : list pyval -> result (list (option Z)).
Variable localize_instants : list pyval -> result (list (option Z)).

Lemma clean_dratings_inv (df : table) (d : list dratings_row) :
  clean_dratings to_numeric_str has_str_accessor to_instants (Some df) = Ok d ->
  exists instants,
    to_instants (map (fun r => cell_of r "Time") (rows df)) = Ok instants /\
    d = zip_with (clean_dratings_row to_numeric_str) (rows df) instants.
Proof.
  unfold clean_dratings.
  destruct (str_column has_str_accessor df "Teams") as [teams | e];
    cbn [mbind result_bind]; [ | discriminate ].
  destruct (str_column has_str_accessor df "Win") as [win | e];
    cbn [mbind result_bind]; [ | discriminate ].
  destruct (forallb _ win); [ discriminate | ].
  destruct (has_column "Time" df); [ | discriminate ].
  destruct (to_instants _) as [instants | e]; cbn [mbind result_bind]; [ | discriminate ].
  intros H. inversion H. exists instants. auto.
Qed.

Lemma clean_sbri_inv (df : table) (s : list sbri_row) :
  clean_sbri localize_instants (Some df) = Ok s ->
  exists instants,
    localize_instants (map (fun r => cell_of r "GameStart") (rows df)) = Ok instants /\
    s = zip_with clean_sbri_row (rows df) instants.
Proof.
  unfold clean_sbri. destruct (has_column "GameStart" df); [ | discriminate ].
  destruct (localize_instants _) as [instants | e]; cbn [mbind result_bind]; [ | discriminate ].
  intros H. inversion H. exists instants. auto.
Qed.

Lemma zip_with_In {A B C} (f : A -> B -> C) (l : list A) (k : list B) (i : nat) (x : A) (y : B) :
  l !! i = Some x -> k !! i = Some y -> In (f x y) (zip_with f l k).
Proof.
  intros Hx Hy. apply list_elem_of_In. apply (list_elem_of_lookup_2 _ i).
  rewrite lookup_zip_with, Hx, Hy. reflexivity.
Qed.

(** From the two frames to the joined row: a forecast row with a
    well-formed "Teams" cell and an odds row naming the same two teams at
    the same instant are returned as one row, which carries the odds of the
    one and the probabilities of the other, the first percentage being the
    away side's. *)
Theorem well_formed_forecast_is_joined
      (dratings_df sbri_df : table) (d : list dratings_row) (s : list sbri_row)
      (out : list final_row)
      (i j : nat) (r r' : gmap string pyval)
      (d_instants s_instants : list (option Z)) (instant : option Z)
      (away home blanks1 blanks2 blanks3 w1 l1 w2 l2 p q : string) :
  clean_dratings to_numeric_str has_str_accessor to_instants (Some dratings_df) = Ok d ->
  clean_sbri localize_instants (Some sbri_df) = Ok s ->
  perform_baseball_analysis float_of_str (Some s) (Some d) = Ok out ->
  to_instants (map (fun r => cell_of r "Time") (rows dratings_df)) = Ok d_instants ->
  localize_instants (map (fun r => cell_of r "GameStart") (rows sbri_df)) = Ok s_instants ->
  rows dratings_df !! i = Some r -> d_instants !! i = Some instant ->
  rows sbri_df !! j = Some r' -> s_instants !! j = Some instant ->
  team_name away -> team_name home ->
  blanks blanks1 -> blanks blanks2 -> blanks blanks3 ->
  digits w1 -> digits l1 -> digits w2 -> digits l2 ->
  all_chars percent_free p = true -> all_chars percent_free q = true ->
  r !! "Teams"%string
  = Some (PyStr (away +:+ blanks1 +:+ win_loss w1 l1 +:+ blanks2
                 +:+ home +:+ blanks3 +:+ win_loss w2 l2)) ->
  r !! "Win"%string = Some (PyStr (p +:+ "% " +:+ q +:+ "%")) ->
  r' !! "AwayTeam"%string = Some (PyStr away) ->
  r' !! "HomeTeam"%string = Some (PyStr home) ->
  exists f,
    In f out /\
    key (joined (base f))
    = {| Timestamp := instant; HomeTeam := Some home; AwayTeam := Some away |} /\
    Home_MLOdds (joined (base f)) = cell_float (cell_of r' "Home MLOdds") /\
    Away_MLOdds (joined (base f)) = cell_float (cell_of r' "Away MLOdds") /\
    HomeWinProb_pred (joined (base f)) = fdiv (to_numeric_str q) (Fin 100) /\
    AwayWinProb_pred (joined (base f)) = fdiv (to_numeric_str p) (Fin 100).
Proof.
  intros Hd Hs Hout Hdi Hsi Hr Hti Hr' Htj Ha Hh B1 B2 B3 D1 D2 D3 D4 Hp Hq Ht Hw Hat Hht.
  destruct (clean_dratings_inv dratings_df d Hd) as (di & Hdi' & ->).
  rewrite Hdi in Hdi'. inversion Hdi'; subst di.
  destruct (clean_sbri_inv sbri_df s Hs) as (si & Hsi' & ->).
  rewrite Hsi in Hsi'. inversion Hsi'; subst si.
  pose proof (zip_with_In (clean_dratings_row to_numeric_str) _ _ i r instant Hr Hti) as Hin_d.
  pose proof (zip_with_In clean_sbri_row _ _ j r' instant Hr' Htj) as Hin_s.
  assert (Kd : dratings_key (clean_dratings_row to_numeric_str r instant)
               = {| Timestamp := instant; HomeTeam := Some home; AwayTeam := Some away |}).
  { unfold clean_dratings_row, cell_of. rewrite Ht. cbn [dratings_key].
    rewrite (extract_teams_names away home blanks1 blanks2 blanks3 w1 l1 w2 l2)
      by assumption.
    reflexivity. }
  assert (Pw : dratings_AwayWinProb_pred (clean_dratings_row to_numeric_str r instant)
               = fdiv (to_numeric_str p) (Fin 100) /\
               dratings_HomeWinProb_pred (clean_dratings_row to_numeric_str r instant)
               = fdiv (to_numeric_str q) (Fin 100)).
  { unfold clean_dratings_row, cell_of. rewrite Hw.
    cbn [dratings_AwayWinProb_pred dratings_HomeWinProb_pred].
    rewrite (win_pieces_well_formed p q Hp Hq).
    unfold win_prob. cbn [lookup list_lookup].
    rewrite (strip_char_free p Hp), (strip_char_free q Hq). split; reflexivity. }
  destruct Pw as [Pa Ph].
  assert (Ks : sbri_key (clean_sbri_row r' instant)
               = {| Timestamp := instant; HomeTeam := Some home; AwayTeam := Some away |}).
  { unfold clean_sbri_row, cell_of. rewrite Hat, Hht. reflexivity. }
  pose proof (pd_merge_outer_both _ _ _ _ Hin_s Hin_d (eq_trans Kd (eq_sym Ks))) as Hm.
  destruct (perform_baseball_analysis_rows float_of_str _ _ out Hout) as [_ Hto].
  destruct (Hto _ Hm) as (f & Hf & Hb).
  exists f. split; [ exact Hf | ]. rewrite Hb.
  cbn [joined classify fill_game key both_sides Home_MLOdds Away_MLOdds
       HomeWinProb_pred AwayWinProb_pred].
  rewrite Ks, Pa, Ph. repeat split.
Qed.

End EndToEnd.

(** ** The sinks and [main] *)

(** One write, by the call that fails and the presence of the worksheet. *)
Lemma write_df_to_sheet_cases (gc : gs_client) (svc : service) (sheet_name : string)
      (dataframe : table) (wb : workbook) :
  match svc sheet_name, wb !! sheet_name with
  | Some OpenByKey, _ =>
      write_df_to_sheet gc svc sheet_name dataframe wb
      = (wb, [(LogError, FailedToWriteSheet sheet_name)])
  | _, None =>
      write_df_to_sheet gc svc sheet_name dataframe wb
      = (wb, [(LogError, WorksheetNotFoundIn sheet_name)])
  | Some Clear, Some _ =>
      write_df_to_sheet gc svc sheet_name dataframe wb
      = (wb, [(LogError, FailedToWriteSheet sheet_name)])
  | Some SetWithDataframe, Some _ =>
      write_df_to_sheet gc svc sheet_name dataframe wb
      = (<[sheet_name := cleared]> wb, [(LogError, FailedToWriteSheet sheet_name)])
  | None, Some _ =>
      write_df_to_sheet gc svc sheet_name dataframe wb
      = (<[sheet_name := dataframe]> wb, [(LogInfo, WroteWorksheet sheet_name)])
  end.
Proof.
  unfold write_df_to_sheet, gs_bind, open_by_key, worksheet, clear, set_with_dataframe, fails.
  destruct (svc sheet_name) as [[ | | ] | ]; destruct (wb !! sheet_name) eqn:E;
    cbv beta iota; rewrite ?E; cbv beta iota; rewrite ?insert_insert_eq; reflexivity.
Qed.

Lemma write_df_to_sheet_states (gc : gs_client) (svc : service) (sheet_name : string)
      (dataframe : table) (wb : workbook) (name : string) :
  (write_df_to_sheet gc svc sheet_name dataframe wb).1 !! name = wb !! name \/
  (name = sheet_name /\ is_Some (wb !! name) /\
   ((write_df_to_sheet gc svc sheet_name dataframe wb).1 !! name = Some cleared \/
    (write_df_to_sheet gc svc sheet_name dataframe wb).1 !! name = Some dataframe)).
Proof.
  pose proof (write_df_to_sheet_cases gc svc sheet_name dataframe wb) as H.
  destruct (svc sheet_name) as [[ | | ] | ]; destruct (wb !! sheet_name) eqn:E;
    rewrite H; cbn [fst]; try (left; reflexivity);
    (destruct (decide (sheet_name = name)) as [<- | Hne];
     [ right; rewrite lookup_insert_eq, E; eauto
     | left; apply lookup_insert_ne; exact Hne ]).
Qed.

Lemma update_sheet_states (gc : gs_client) (svc : service) (sheet_name : string)
      (df : option table) (wb : workbook) (name : string) :
  (update_sheet gc svc sheet_name df wb).1 !! name = wb !! name \/
  (name = sheet_name /\ is_Some (wb !! name) /\
   ((update_sheet gc svc sheet_name df wb).1 !! name = Some cleared \/
    exists dataframe, df = Some dataframe /\ df_empty dataframe = false /\
                      (update_sheet gc svc sheet_name df wb).1 !! name = Some dataframe)).
Proof.
  unfold update_sheet. destruct df as [dataframe | ]; [ | left; reflexivity ].
  destruct (df_empty dataframe) eqn:E; [ left; reflexivity | ].
  destruct (write_df_to_sheet_states gc svc sheet_name dataframe wb name)
    as [H | (H1 & H2 & [H3 | H3])].
  - left. exact H.
  - right. auto.
  - right. split; [ exact H1 | split; [ exact H2 | right ] ]. exists dataframe. auto.
Qed.

Lemma update_sheet_no_data (gc : gs_client) (svc : service) (sheet_name : string)
      (df : option table) (wb : workbook) :
  reports_no_data df = true -> (update_sheet gc svc sheet_name df wb).1 = wb.
Proof.
  unfold update_sheet, reports_no_data. destruct df as [dataframe | ]; [ | reflexivity ].
  intros ->. reflexivity.
Qed.

(** Whatever the scrapers return and whichever call fails, [main] leaves
    every worksheet other than "SBRI_MLB" and "DRate_MLB" as it was and
    creates none; each of the two is left as it was, or cleared, or holding
    the complete non-empty frame of its scraper; and a scraper that returned
    no data leaves its worksheet with its earlier contents. *)
Theorem main_sheet_states (c : credentials) (svc : service)
      (scrape_sbri : result (option (list (gmap string pyval))))
      (scrape_dratings : result (option table * list log_entry))
      (wb : workbook) (name : string) :
  ((main c svc scrape_sbri scrape_dratings wb).1.2 !! name = wb !! name \/
   (is_Some (wb !! name) /\
    ((main c svc scrape_sbri scrape_dratings wb).1.2 !! name = Some cleared \/
     (name = SBRI_SHEET_NAME /\
      exists sbri_df dataframe,
        scrape_sbri = Ok sbri_df /\ sbri_frame sbri_df = Some dataframe /\
        df_empty dataframe = false /\
        (main c svc scrape_sbri scrape_dratings wb).1.2 !! name = Some dataframe) \/
     (name = DRATE_SHEET_NAME /\
      exists dataframe log,
        scrape_dratings = Ok (Some dataframe, log) /\
        df_empty dataframe = false /\
        (main c svc scrape_sbri scrape_dratings wb).1.2 !! name = Some dataframe)))) /\
  (name <> SBRI_SHEET_NAME -> name <> DRATE_SHEET_NAME ->
   (main c svc scrape_sbri scrape_dratings wb).1.2 !! name = wb !! name) /\
  (forall sbri_df,
     name = SBRI_SHEET_NAME -> scrape_sbri = Ok sbri_df ->
     reports_no_data (sbri_frame sbri_df) = true ->
     (main c svc scrape_sbri scrape_dratings wb).1.2 !! name = wb !! name) /\
  (forall dratings_df log,
     name = DRATE_SHEET_NAME -> scrape_dratings = Ok (dratings_df, log) ->
     reports_no_data dratings_df = true ->
     (main c svc scrape_sbri scrape_dratings wb).1.2 !! name = wb !! name).
Proof.
  unfold main.
  destruct (get_google_sheet_client c) as [[gc | ] log0]; cbn [fst snd];
    [ | repeat split; auto ].
  destruct scrape_sbri as [sbri_df | e]; cbn [fst snd]; [ | repeat split; auto ].
  pose proof (update_sheet_states gc svc SBRI_SHEET_NAME (sbri_frame sbri_df) wb name) as H1.
  pose proof (update_sheet_no_data gc svc SBRI_SHEET_NAME (sbri_frame sbri_df) wb) as N1.
  destruct (update_sheet gc svc SBRI_SHEET_NAME (sbri_frame sbri_df) wb) as [wb1 log1].
  cbn [fst snd] in *.
  assert (Hwb' : exists wb',
            (match scrape_dratings with
             | Ok (dratings_df, _) =>
                 let '(wb0, log2) := update_sheet gc svc DRATE_SHEET_NAME dratings_df wb1 in
                 (Ok (), wb0, log0 ++ log1 ++ log2 ++ [(LogInfo, ScriptFinished)])
             | Raise e => (Raise e, wb1, log0 ++ log1)
             end).1.2 = wb' /\
            (wb' !! name = wb1 !! name \/
             (name = DRATE_SHEET_NAME /\ is_Some (wb1 !! name) /\
              (wb' !! name = Some cleared \/
               exists dataframe log, scrape_dratings = Ok (Some dataframe, log) /\
                                     df_empty dataframe = false /\
                                     wb' !! name = Some dataframe))) /\
            (forall dratings_df log, scrape_dratings = Ok (dratings_df, log) ->
                                     reports_no_data dratings_df = true -> wb' = wb1)).
  { destruct scrape_dratings as [[dratings_df log] | e]; cbn [fst snd].
    - pose proof (update_sheet_states gc svc DRATE_SHEET_NAME dratings_df wb1 name) as H2.
      pose proof (update_sheet_no_data gc svc DRATE_SHEET_NAME dratings_df wb1) as N2.
      destruct (update_sheet gc svc DRATE_SHEET_NAME dratings_df wb1) as [wb2 log2].
      cbn [fst snd] in *. exists wb2. split; [ reflexivity | split ].
      + destruct H2 as [H2 | (A & B & [C | (d & -> & D & E)])]; [ left; exact H2 | | ].
        * right. auto.
        * right. split; [ exact A | split; [ exact B | right ] ]. exists d, log. auto.
      + intros d l Hd Hn. inversion Hd; subst. apply N2, Hn.
    - exists wb1. split; [ reflexivity | split; [ left; reflexivity | discriminate ] ]. }
  destruct Hwb' as (wb' & -> & H2 & N2).
  assert (Hne : SBRI_SHEET_NAME <> DRATE_SHEET_NAME) by discriminate.
  split; [ | split; [ | split ] ].
  - destruct H2 as [H2 | (A & B & H2)].
    + rewrite H2. destruct H1 as [H1 | (A & B & [C | (d & Hd & D & E)])];
        [ left; exact H1 | right; auto | ].
      right. split; [ exact B | right; left ]. split; [ exact A | ].
      exists sbri_df, d. auto.
    + assert (E1 : wb1 !! name = wb !! name).
      { destruct H1 as [H1 | (A' & _)]; [ exact H1 | congruence ]. }
      rewrite E1 in B. right. split; [ exact B | ].
      destruct H2 as [H2 | H2]; [ left; exact H2 | right; right; auto ].
  - intros Hs Hd. destruct H2 as [H2 | (A & _)]; [ | contradiction ].
    rewrite H2. destruct H1 as [H1 | (A & _)]; [ exact H1 | contradiction ].
  - intros d -> Hd Hn. inversion Hd; subst d.
    destruct H2 as [H2 | (A & _)]; [ | congruence ].
    rewrite H2, (N1 Hn). reflexivity.
  - intros d l -> Hd Hn. rewrite (N2 d l Hd Hn).
    destruct H1 as [H1 | (A & _)]; [ exact H1 | congruence ].
Qed.

(** [main] raises only what a scraper raises: a failure of the
    authorisation or of a write is logged and never leaves the function.  An
    exception of the first scraper leaves the spreadsheet untouched; one of
    the second leaves it as the first update made it, the second worksheet
    not being written. *)
Theorem main_exceptions (c : credentials) (svc : service)
      (scrape_sbri : result (option (list (gmap string pyval))))
      (scrape_dratings : result (option table * list log_entry))
      (wb : workbook) (e : exn) :
  (main c svc scrape_sbri scrape_dratings wb).1.1 = Raise e <->
  c = CredentialsAccepted /\
  ((scrape_sbri = Raise e /\ (main c svc scrape_sbri scrape_dratings wb).1.2 = wb) \/
   (exists sbri_df,
      scrape_sbri = Ok sbri_df /\ scrape_dratings = Raise e /\
      (main c svc scrape_sbri scrape_dratings wb).1.2
      = (update_sheet GsClient svc SBRI_SHEET_NAME (sbri_frame sbri_df) wb).1)).
Proof.
  unfold main. destruct c; cbn [get_google_sheet_client fst snd];
    try (split; [ discriminate | intros [H _]; discriminate ]).
  destruct scrape_sbri as [sbri_df | x]; cbn [fst snd].
  - destruct (update_sheet GsClient svc SBRI_SHEET_NAME (sbri_frame sbri_df) wb)
      as [wb1 log1] eqn:E1.
    destruct scrape_dratings as [[dratings_df log] | x]; cbn [fst snd].
    + destruct (update_sheet GsClient svc DRATE_SHEET_NAME dratings_df wb1) as [wb2 log2].
      cbn [fst snd]. split; [ discriminate | ].
      intros (_ & [[H _] | (d & _ & H & _)]); discriminate.
    + split.
      * intros H. inversion H; subst. split; [ reflexivity | right ].
        exists sbri_df. rewrite E1. auto.
      * intros (_ & [[H _] | (d & _ & H & _)]); [ discriminate | ].
        inversion H. reflexivity.
  - split.
    + intros H. inversion H; subst. split; [ reflexivity | left; auto ].
    + intros (_ & [[H _] | (d & H & _)]); [ | discriminate ].
      inversion H. reflexivity.
Qed.

(** ** The cloud function *)

Lemma cloud_write_df_to_bigquery_prefix (load_fails : string -> bool) (now : string -> pyval)
      (dataframe : table) (table_id : string) (wh : Cloud.warehouse) (id : string) :
  (wh !!! id) `prefix_of`
    (Cloud.write_df_to_bigquery load_fails now dataframe table_id wh !!! id).
Proof.
  unfold Cloud.write_df_to_bigquery.
  destruct (df_empty dataframe); [ reflexivity | ].
  destruct (load_fails table_id); [ reflexivity | ].
  destruct (decide (table_id = id)) as [<- | Hne].
  - rewrite lookup_total_insert_eq. apply prefix_app_r. reflexivity.
  - rewrite lookup_total_insert_ne by exact Hne. reflexivity.
Qed.

Lemma cloud_process_prefix (gc : option gs_client) (svc : service)
      (load_fails : string -> bool) (now : string -> pyval) (sheet_name table_id : string)
      (df : option table) (s : Cloud.sinks) (id : string) :
  (Cloud.tables s !!! id) `prefix_of`
    (Cloud.tables (Cloud.process gc svc load_fails now sheet_name table_id df s) !!! id).
Proof.
  unfold Cloud.process. destruct df as [dataframe | ]; [ | reflexivity ].
  destruct (df_empty dataframe); [ reflexivity | ].
  cbn [Cloud.tables]. apply cloud_write_df_to_bigquery_prefix.
Qed.

Lemma cloud_process_other (gc : option gs_client) (svc : service)
      (load_fails : string -> bool) (now : string -> pyval) (sheet_name table_id : string)
      (df : option table) (s : Cloud.sinks) (id : string) :
  table_id <> id ->
  Cloud.tables (Cloud.process gc svc load_fails now sheet_name table_id df s) !!! id
  = Cloud.tables s !!! id.
Proof.
  intros Hne. unfold Cloud.process. destruct df as [dataframe | ]; [ | reflexivity ].
  destruct (df_empty dataframe) eqn:E; [ reflexivity | ].
  cbn [Cloud.tables]. unfold Cloud.write_df_to_bigquery. rewrite E.
  destruct (load_fails table_id); [ reflexivity | ].
  apply lookup_total_insert_ne. exact Hne.
Qed.

Lemma cloud_process_loaded (gc : option gs_client) (svc : service)
      (load_fails : string -> bool) (now : string -> pyval) (sheet_name table_id : string)
      (dataframe : table) (s : Cloud.sinks) :
  df_empty dataframe = false -> load_fails table_id = false ->
  Cloud.tables (Cloud.process gc svc load_fails now sheet_name table_id (Some dataframe) s)
    !!! table_id
  = Cloud.tables s !!! table_id
    ++ map (fun r => <["scraped_at"%string := now table_id]> r) (rows dataframe).
Proof.
  intros He Hl. unfold Cloud.process. rewrite He. cbn [Cloud.tables].
  unfold Cloud.write_df_to_bigquery. rewrite He, Hl. apply lookup_total_insert_eq.
Qed.

Lemma str_app_inv_head (p a b : string) : p +:+ a = p +:+ b -> a = b.
Proof.
  induction p as [ | c p IH ]; intros H.
  - exact H.
  - apply IH. change ((String c p) +:+ a) with (String c (p +:+ a)) in H.
    change ((String c p) +:+ b) with (String c (p +:+ b)) in H.
    inversion H. reflexivity.
Qed.

Lemma table_ids_differ (PROJECT_ID : string) :
  Cloud.SBRI_TABLE_ID PROJECT_ID <> Cloud.DRATE_TABLE_ID PROJECT_ID.
Proof.
  unfold Cloud.SBRI_TABLE_ID, Cloud.DRATE_TABLE_ID. intros H.
  apply str_app_inv_head in H. discriminate.
Qed.

(** The response of the cloud function: status 500 exactly when the
    authorisation fails, and otherwise, whenever the function returns, status
    200 with "Script finished successfully", whatever the scrapers returned
    and whichever write failed.  The archive only grows: in every case,
    exceptions included, the rows a table held before are a prefix of the
    rows it holds after. *)
Theorem cloud_main_response (PROJECT_ID : string) (adc_available : bool) (svc : service)
      (load_fails : string -> bool) (now : string -> pyval)
      (scrape_sbri scrape_dratings : result (option table)) (s : Cloud.sinks) :
  (adc_available = false ->
   Cloud.main PROJECT_ID adc_available svc load_fails now scrape_sbri scrape_dratings s
   = (Ok ("Authorization failed"%string, 500%Z), s)) /\
  (adc_available = true ->
   forall r,
     (Cloud.main PROJECT_ID adc_available svc load_fails now scrape_sbri scrape_dratings s).1
     = Ok r ->
     r = ("Script finished successfully"%string, 200%Z)) /\
  (forall id,
     (Cloud.tables s !!! id) `prefix_of`
       (Cloud.tables
          (Cloud.main PROJECT_ID adc_available svc load_fails now scrape_sbri scrape_dratings s).2
        !!! id)).
Proof.
  unfold Cloud.main, Cloud.get_google_sheet_client.
  split; [ intros ->; reflexivity | split ].
  - intros -> r. destruct scrape_sbri as [sbri_df | e]; [ | discriminate ].
    destruct scrape_dratings as [dratings_df | e]; [ | discriminate ].
    cbn [fst]. intros H. inversion H. reflexivity.
  - intros id. destruct adc_available; [ | reflexivity ].
    destruct scrape_sbri as [sbri_df | e]; [ | reflexivity ].
    destruct scrape_dratings as [dratings_df | e]; cbn [snd].
    + etransitivity; [ | apply cloud_process_prefix ]. apply cloud_process_prefix.
    + apply cloud_process_prefix.
Qed.

(** Odds with data reach the archive whatever happens afterwards: once the
    authorisation succeeded and the load job for the odds table does not
    fail, the table ends with its earlier rows followed by the rows of the
    odds frame, stamped, even when the worksheet could not be written and
    even when the forecast scraper then raises; and a forecast frame with
    data is appended to its own table in the same way. *)
Theorem cloud_main_archives (PROJECT_ID : string) (svc : service)
      (load_fails : string -> bool) (now : string -> pyval) (sbri_df : table)
      (scrape_dratings : result (option table)) (s : Cloud.sinks) :
  df_empty sbri_df = false ->
  load_fails (Cloud.SBRI_TABLE_ID PROJECT_ID) = false ->
  Cloud.tables
    (Cloud.main PROJECT_ID true svc load_fails now (Ok (Some sbri_df)) scrape_dratings s).2
    !!! Cloud.SBRI_TABLE_ID PROJECT_ID
  = Cloud.tables s !!! Cloud.SBRI_TABLE_ID PROJECT_ID
    ++ map (fun r => <["scraped_at"%string := now (Cloud.SBRI_TABLE_ID PROJECT_ID)]> r)
           (rows sbri_df) /\
  (forall dratings_df,
     scrape_dratings = Ok (Some dratings_df) ->
     df_empty dratings_df = false ->
     load_fails (Cloud.DRATE_TABLE_ID PROJECT_ID) = false ->
     Cloud.tables
       (Cloud.main PROJECT_ID true svc load_fails now (Ok (Some sbri_df)) scrape_dratings s).2
       !!! Cloud.DRATE_TABLE_ID PROJECT_ID
     = Cloud.tables s !!! Cloud.DRATE_TABLE_ID PROJECT_ID
       ++ map (fun r => <["scraped_at"%string := now (Cloud.DRATE_TABLE_ID PROJECT_ID)]> r)
              (rows dratings_df)).
Proof.
  intros He Hl. pose proof (table_ids_differ PROJECT_ID) as Hne.
  unfold Cloud.main. cbn [Cloud.get_google_sheet_client]. split.
  - destruct scrape_dratings as [dratings_df | e]; cbn [snd].
    + rewrite cloud_process_other by congruence.
      apply cloud_process_loaded; assumption.
    + apply cloud_process_loaded; assumption.
  - intros dratings_df -> Hd Hf. cbn [snd].
    rewrite cloud_process_loaded by assumption.
    rewrite cloud_process_other by exact Hne. reflexivity.
Qed.

Lemma cloud_main_archives_witness :
  let s := {| Cloud.sheets := ∅; Cloud.tables := ∅ |} in
  let now := fun _ : string => PyStr "2025-06-02T12:00:00Z" in
  let s' := (Cloud.main "demo" true (fun _ => Some OpenByKey) (fun _ => false) now
               (Ok (Some example_frame)) (Ok (Some example_frame)) s).2 in
  Cloud.tables s' !!! Cloud.SBRI_TABLE_ID "demo"
  = map (fun r => <["scraped_at"%string := PyStr "2025-06-02T12:00:00Z"]> r)
        (rows example_frame) /\
  Cloud.tables s' !!! Cloud.DRATE_TABLE_ID "demo"
  = map (fun r => <["scraped_at"%string := PyStr "2025-06-02T12:00:00Z"]> r)
        (rows example_frame).
Proof.
  destruct (cloud_main_archives "demo" (fun _ => Some OpenByKey) (fun _ => false)
              (fun _ => PyStr "2025-06-02T12:00:00Z") example_frame (Ok (Some example_frame))
              {| Cloud.sheets := ∅; Cloud.tables := ∅ |}) as [H1 H2]; try reflexivity.
  split; [ exact H1 | apply (H2 example_frame); reflexivity ].
Defined.

(** ** Team names and the matchup label *)

Lemma map_cell_lookup (c : string) (f : pyval -> pyval) (r : gmap string pyval) (k : string) :
  map_cell c f r !! k = if decide (c = k) then f <$> r !! c else r !! k.
Proof.
  unfold map_cell. destruct (r !! c) as [v | ] eqn:E.
  - destruct (decide (c = k)) as [<- | Hne].
    + rewrite lookup_insert_eq. reflexivity.
    + rewrite lookup_insert_ne by exact Hne. reflexivity.
  - destruct (decide (c = k)) as [<- | Hne]; [ rewrite E | ]; reflexivity.
Qed.

Lemma replace_strip_cell (s : string) :
  replace_team (str_strip_cell (PyStr s)) = PyStr (full_name s).
Proof.
  unfold replace_team, str_strip_cell, full_name.
  destruct (TEAM_NAME_MAP !! strip s); reflexivity.
Qed.

Lemma replace_strip_other (v : pyval) :
  (forall s, v <> PyStr s) -> replace_team (str_strip_cell v) = PyFloat NaN.
Proof. intros H. destruct v; try reflexivity. destruct (H s). reflexivity. Qed.

Lemma resolve_names_lookup (hc ac : string) (r : gmap string pyval) (k : string) :
  hc <> ac ->
  resolve_names hc ac r !! k
  = if decide (k = hc) then (fun v => replace_team (str_strip_cell v)) <$> r !! hc
    else if decide (k = ac) then (fun v => replace_team (str_strip_cell v)) <$> r !! ac
    else r !! k.
Proof.
  intros Hne. unfold resolve_names. rewrite !map_cell_lookup.
  repeat (case_decide; subst; try congruence);
    match goal with |- context [r !! ?x] => destruct (r !! x) end; reflexivity.
Qed.

Lemma named_row_resolve (hc ac : string) (label : gmap string pyval -> pyval)
      (r : gmap string pyval) :
  hc <> ac -> hc <> "Matchup"%string -> ac <> "Matchup"%string ->
  (forall g, label g = match g !! ac, g !! hc with
                       | Some (PyStr a), Some (PyStr h) => PyStr (a +:+ " at " +:+ h)
                       | _, _ => PyFloat NaN
                       end) ->
  named_row hc ac r (<["Matchup"%string := label (resolve_names hc ac r)]> (resolve_names hc ac r)).
Proof.
  intros Hne Hh Ha Hl.
  pose proof (resolve_names_lookup hc ac r hc Hne) as Lh.
  pose proof (resolve_names_lookup hc ac r ac Hne) as La.
  rewrite decide_True in Lh by reflexivity.
  rewrite decide_False, decide_True in La by congruence.
  split; [ | split ].
  - intros k K1 K2 K3. rewrite lookup_insert_ne by congruence.
    rewrite resolve_names_lookup by exact Hne.
    rewrite !decide_False by assumption. reflexivity.
  - intros h a Eh Ea. rewrite lookup_insert_eq, !lookup_insert_ne by congruence.
    rewrite Hl, Lh, La, Eh, Ea. cbn [fmap option_fmap option_map].
    rewrite !replace_strip_cell. auto.
  - intros Hno. rewrite lookup_insert_eq. f_equal. rewrite Hl, Lh, La.
    destruct Hno as [Hno | Hno].
    + destruct (r !! ac) as [va | ]; cbn [fmap option_fmap option_map]; [ | reflexivity ].
      destruct (replace_team (str_strip_cell va)); try reflexivity.
      destruct (r !! hc) as [vh | ]; cbn [fmap option_fmap option_map]; [ | reflexivity ].
      rewrite replace_strip_other; [ reflexivity | ].
      intros s' ->. apply (Hno s'). reflexivity.
    + destruct (r !! ac) as [va | ]; cbn [fmap option_fmap option_map]; [ | reflexivity ].
      rewrite replace_strip_other; [ reflexivity | ].
      intros s' ->. apply (Hno s'). reflexivity.
Qed.

Lemma Forall2_map_r_intro {A B} (R : A -> B -> Prop) (f : A -> B) (l : list A) :
  (forall x, R x (f x)) -> Forall2 R l (map f l).
Proof. intros H. induction l; constructor; auto. Qed.

Section FixedWidthRows.

Variable find_pre : string -> option string.
Variable read_fwf : string -> result table.
Variable has_str_accessor : table -> string -> bool.

Lemma tpt_post_process_rows (df df' : table) :
  tpt_post_process has_str_accessor df = Ok df' ->
  rows df'
  = map (fun r => <["Matchup"%string := matchup (resolve_names "Home" "Visitor" r)]>
                    (resolve_names "Home" "Visitor" r))
        (rows (dropna_all df)).
Proof.
  unfold tpt_post_process, str_strip_column.
  destruct (has_str_accessor (dropna_all df) "Home"); cbn [mbind result_bind]; [ | discriminate ].
  destruct (has_str_accessor _ "Visitor"); cbn [mbind result_bind]; [ | discriminate ].
  intros H. inversion H. cbn [rows map_column]. rewrite !map_map. reflexivity.
Qed.

(** When [scrape_tpt_data] returns a frame, the response held a
    preformatted block with the header, the text after the header parsed,
    and the frame has, in the order of the parse, one row for each parsed row
    that is not entirely empty: its team names trimmed and resolved through
    [TEAM_NAME_MAP], its label "<visitor> at <home>" on the resolved names
    (no label when a name is missing), its other cells as parsed.  The log
    counts these rows. *)
Theorem scrape_tpt_data_rows (resp : tpt_response) (df' : table) (log : list log_entry) :
  scrape_tpt_data find_pre read_fwf has_str_accessor resp = Ok (Some df', log) ->
  exists text full_text table_start_index df,
    resp = TptHtml text /\ find_pre text = Some full_text /\
    String.index 0 header_start full_text = Some table_start_index /\
    read_fwf (table_text_of full_text table_start_index) = Ok df /\
    Forall2 (named_row "Home" "Visitor")
            (List.filter (fun r => negb (forallb (fun c => cell_missing (r !! c)) (columns df)))
                         (rows df))
            (rows df') /\
    log = [(INFO, ParsedRows (length (rows df')))].
Proof.
  intros H.
  destruct (scrape_tpt_try find_pre read_fwf has_str_accessor resp) as [r | e] eqn:E.
  - rewrite (scrape_tpt_data_ok _ _ _ resp r E) in H. inversion H; subst r. clear H.
    destruct resp as [ | text]; [ discriminate | ]. cbn [scrape_tpt_try] in E.
    destruct (find_pre text) as [full_text | ] eqn:Ep; [ | discriminate ].
    destruct (String.index 0 header_start full_text) as [i | ] eqn:Ei; [ | discriminate ].
    destruct (read_fwf (table_text_of full_text i)) as [df | x] eqn:Er;
      cbn [mbind result_bind] in E; [ | discriminate ].
    destruct (tpt_post_process has_str_accessor df) as [d | x] eqn:Et;
      cbn [mbind result_bind mret result_ret] in E; [ | discriminate ].
    inversion E; subst d log. clear E.
    exists text, full_text, i, df. repeat split; try reflexivity; try assumption.
    rewrite (tpt_post_process_rows df df' Et). cbn [dropna_all rows].
    apply Forall2_map_r_intro. intros r.
    apply named_row_resolve; try discriminate. intros g. reflexivity.
  - destruct (scrape_tpt_data_raise _ _ _ resp e E) as (l & Hl).
    rewrite Hl in H. discriminate.
Qed.

End FixedWidthRows.

Section FFWinFacts.

Variable has_str_accessor : table -> string -> bool.

Lemma pd_concat_one (t : table) : rows (pd_concat [t]) = rows t.
Proof. unfold pd_concat. cbn [flat_map rows]. apply app_nil_r. Qed.

Lemma has_column_concat_one (c : string) (t : table) :
  has_column c (pd_concat [t]) = has_column c t.
Proof.
  unfold has_column. apply bool_decide_ext. rewrite !list_elem_of_In.
  rewrite pd_concat_columns. split.
  - intros (t' & [<- | []] & H). exact H.
  - intros H. exists t. split; [ left; reflexivity | exact H ].
Qed.

(** [scrape_ffwin_data] by cases.  A failed request, an empty list of
    tables or a first table of fewer than three columns give [None]; a page
    without any table is not caught and raises [ValueError]; a table without
    a "HOME" or "AWAY" column raises [KeyError], one whose column is not text
    [AttributeError].  Otherwise the frame has one row for each row of the
    first table, in order, with the team names trimmed and resolved through
    [TEAM_NAME_MAP], the label "<away> at <home>" on the resolved names, and
    the other cells kept. *)
Theorem scrape_ffwin_data_cases (resp : page_response) :
  match resp with
  | PageRequestFailed | PageTables [] => scrape_ffwin_data has_str_accessor resp = Ok None
  | PageNoTables => scrape_ffwin_data has_str_accessor resp = Raise ValueError
  | PageTables (t :: _) =>
      if (length (columns t) <? 3)%nat then scrape_ffwin_data has_str_accessor resp = Ok None
      else if negb (has_column "HOME" t)
      then scrape_ffwin_data has_str_accessor resp = Raise KeyError
      else if negb (has_str_accessor (pd_concat [t]) "HOME")
      then scrape_ffwin_data has_str_accessor resp = Raise AttributeError
      else if negb (has_column "AWAY" t)
      then scrape_ffwin_data has_str_accessor resp = Raise KeyError
      else if negb (has_str_accessor (map_column "HOME" str_strip_cell (pd_concat [t])) "AWAY")
      then scrape_ffwin_data has_str_accessor resp = Raise AttributeError
      else
        exists df, scrape_ffwin_data has_str_accessor resp = Ok (Some df) /\
                   Forall2 (named_row "HOME" "AWAY") (rows t) (rows df)
  end.
Proof.
  destruct resp as [ | | [ | t rest]]; try reflexivity.
  unfold scrape_ffwin_data, ffwin_tables. cbn [mbind result_bind].
  destruct (Nat.ltb_spec (length (columns t)) 3) as [Hlt | Hge].
  - rewrite (proj2 (Nat.leb_gt 3 (length (columns t))) Hlt). reflexivity.
  - rewrite (proj2 (Nat.leb_le 3 (length (columns t))) Hge).
    unfold ffwin_strip_column. rewrite has_column_concat_one.
    destruct (has_column "HOME" t); cbn [negb]; [ | reflexivity ].
    destruct (has_str_accessor (pd_concat [t]) "HOME"); cbn [mbind result_bind negb];
      [ | reflexivity ].
    change (has_column "AWAY" (map_column "HOME" str_strip_cell (pd_concat [t])))
      with (has_column "AWAY" (pd_concat [t])).
    rewrite has_column_concat_one.
    destruct (has_column "AWAY" t); cbn [negb]; [ | reflexivity ].
    destruct (has_str_accessor _ "AWAY"); cbn [mbind result_bind mret result_ret negb];
      [ | reflexivity ].
    eexists. split; [ reflexivity | ].
    cbn [set_column rows map_column]. rewrite !map_map, pd_concat_one.
    apply Forall2_map_r_intro. intros r.
    apply (named_row_resolve "HOME" "AWAY" ffwin_matchup); try discriminate.
    intros g. reflexivity.
Qed.

End FFWinFacts.

(** ** The properties of the last sections on concrete inputs *)

Lemma market_order_irrelevant_witness :
  game_data_of Ok example_event_reordered = game_data_of Ok example_event_two_markets /\
  normalize_event (fun _ => NaN) Ok example_event_reordered
  = normalize_event (fun _ => NaN) Ok example_event_two_markets.
Proof.
  apply (market_order_irrelevant (fun _ => NaN) Ok
           example_event_two_markets example_event_reordered); try reflexivity.
  - apply perm_swap.
  - repeat constructor; simpl; intuition discriminate.
Defined.

Lemma normalize_event_identity_witness :
  exists row,
    normalize_event (fun _ => NaN) Ok example_event_two_markets = Ok row /\
    exists t, Ok (tsstart example_event_two_markets) = Ok t /\
      row !! "Sport"%string = Some (sportname example_event_two_markets) /\
      row !! "GameStart"%string = Some t /\
      row !! "Game"%string = Some (externaldescription example_event_two_markets) /\
      row !! "AwayTeam"%string = Some (shortnameaway example_event_two_markets) /\
      row !! "HomeTeam"%string = Some (shortnamehome example_event_two_markets) /\
      forall k, is_Some (row !! k) <-> In k sbri_columns.
Proof.
  destruct (normalize_event (fun _ => NaN) Ok example_event_two_markets) as [row | e] eqn:E;
    [ | vm_compute in E; discriminate ].
  exists row. split; [ reflexivity | ].
  apply (normalize_event_identity (fun _ => NaN) Ok example_event_two_markets row E).
Defined.

Lemma clean_dratings_row_well_formed_witness :
  let r := page_row "06/01/2025 07:05 PM" "New York Yankees (35-20) Boston Red Sox (29-30)"
             "Fried Crochet" "48.1% 51.9%" in
  dratings_key (clean_dratings_row example_to_numeric r (Some 200%Z))
  = {| Timestamp := Some 200%Z; HomeTeam := Some "Boston Red Sox"%string;
       AwayTeam := Some "New York Yankees"%string |} /\
  dratings_AwayWinProb_pred (clean_dratings_row example_to_numeric r (Some 200%Z))
  = fdiv (example_to_numeric "48.1") (Fin 100) /\
  dratings_HomeWinProb_pred (clean_dratings_row example_to_numeric r (Some 200%Z))
  = fdiv (example_to_numeric "51.9") (Fin 100).
Proof.
  apply (clean_dratings_row_well_formed example_to_numeric
           (page_row "06/01/2025 07:05 PM" "New York Yankees (35-20) Boston Red Sox (29-30)"
              "Fried Crochet" "48.1% 51.9%")
           (Some 200%Z) "New York Yankees" "Boston Red Sox" " " " " " " "35" "20" "29" "30"
           "48.1" "51.9");
    try reflexivity; (split; [ discriminate | repeat split ]).
Defined.

Lemma extract_teams_without_record_witness :
  extract_teams (PyStr "Postponed") = (None, None).
Proof. apply (extract_teams_without_record (PyStr "Postponed")). reflexivity. Defined.

Lemma scrape_tpt_data_rows_witness :
  exists df' log,
    scrape_tpt_data Some example_read_fwf (fun _ _ => true) (TptHtml example_tpt_text)
    = Ok (Some df', log) /\
    exists text full_text table_start_index df,
      TptHtml example_tpt_text = TptHtml text /\ Some text = Some full_text /\
      String.index 0 header_start full_text = Some table_start_index /\
      example_read_fwf (table_text_of full_text table_start_index) = Ok df /\
      Forall2 (named_row "Home" "Visitor")
              (List.filter (fun r => negb (forallb (fun c => cell_missing (r !! c)) (columns df)))
                           (rows df))
              (rows df') /\
      log = [(INFO, ParsedRows (length (rows df')))].
Proof.
  destruct (scrape_tpt_data Some example_read_fwf (fun _ _ => true) (TptHtml example_tpt_text))
    as [[[df' | ] log] | e] eqn:E; try (vm_compute in E; discriminate).
  exists df', log. split; [ reflexivity | ].
  apply (scrape_tpt_data_rows Some example_read_fwf (fun _ _ => true)
           (TptHtml example_tpt_text) df' log E).
Defined.

Lemma well_formed_forecast_is_joined_witness :
  exists d s out,
    clean_dratings example_to_numeric (fun _ _ => true) example_instants (Some example_page0)
    = Ok d /\
    clean_sbri example_instants (Some example_odds_frame) = Ok s /\
    perform_baseball_analysis no_float_of_str (Some s) (Some d) = Ok out /\
    exists f,
      In f out /\
      key (joined (base f))
      = {| Timestamp := Some 200%Z; HomeTeam := Some "Boston Red Sox"%string;
           AwayTeam := Some "New York Yankees"%string |} /\
      Home_MLOdds (joined (base f)) = Fin (-125) /\
      Away_MLOdds (joined (base f)) = Fin 105 /\
      HomeWinProb_pred (joined (base f)) = fdiv (Fin 51.9) (Fin 100) /\
      AwayWinProb_pred (joined (base f)) = fdiv (Fin 48.1) (Fin 100).
Proof.
  destruct (clean_dratings example_to_numeric (fun _ _ => true) example_instants
              (Some example_page0)) as [d | e] eqn:Ed; [ | vm_compute in Ed; discriminate ].
  destruct (clean_sbri example_instants (Some example_odds_frame)) as [s | e] eqn:Es;
    [ | vm_compute in Es; discriminate ].
  destruct (perform_baseball_analysis no_float_of_str (Some s) (Some d)) as [out | e] eqn:Eo.
  - exists d, s, out. split; [ reflexivity | split; [ reflexivity | split; [ exact Eo | ] ] ].
    refine (well_formed_forecast_is_joined no_float_of_str example_to_numeric (fun _ _ => true)
             example_instants example_instants example_page0 example_odds_frame d s out
             0%nat 0%nat
             (page_row "06/01/2025 07:05 PM" "New York Yankees (35-20) Boston Red Sox (29-30)"
                "Fried Crochet" "48.1% 51.9%")
             (list_to_map [("Sport", PyStr "Baseball");
                           ("GameStart", PyStr "2025-06-01T19:05:00");
                           ("Game", PyStr "New York Yankees @ Boston Red Sox");
                           ("AwayTeam", PyStr "New York Yankees");
                           ("HomeTeam", PyStr "Boston Red Sox");
                           ("Away MLOdds", PyFloat (Fin 105));
                           ("Home MLOdds", PyFloat (Fin (-125)))]%string)
             [Some 200%Z; Some 210%Z] [Some 200%Z] (Some 200%Z)
             "New York Yankees" "Boston Red Sox" " " " " " " "35" "20" "29" "30"
             "48.1" "51.9" Ed Es Eo _ _ _ _ _ _ _ _ _ _ _ _ _ _ _ _ _ _ _ _ _);
      try reflexivity; (split; [ discriminate | repeat split ]).
  - exfalso. inversion Ed; subst d. inversion Es; subst s.
    vm_compute in Eo. discriminate.
Defined.

(** One page of the win-probability site. *)
Example scrape_ffwin_data_example :
  exists df,
    scrape_ffwin_data (fun _ _ => true) (PageTables [example_ffwin_table]) = Ok (Some df) /\
    columns df = ["HOME"; "AWAY"; "WIN%"; "Matchup"]%string /\
    map (fun r => (r !! "HOME"%string, r !! "AWAY"%string, r !! "Matchup"%string)) (rows df)
    = [ (Some (PyStr "Dallas Cowboys"), Some (PyStr "New York Giants"),
         Some (PyStr "New York Giants at Dallas Cowboys")) ].
Proof.
  eexists. split; [ vm_compute; reflexivity | split; vm_compute; reflexivity ].
Qed.

(** ** OddsRecordNormalizer: what the result tells *)


Section NormalizerOutcomes.

Variable to_numeric_str : string -> pyfloat.
Variable to_datetime : pyval -> result pyval.
Variable sort_values : list string -> list (gmap string pyval) -> list (gmap string pyval).
Hypothesis sort_values_perm : forall by_cols df, Permutation (sort_values by_cols df) df.


End NormalizerOutcomes.

